(** * error-object-from-payload: the extraction / normalisation engine

    A shallow embedding of [src/index.ts], [src/builder/index.ts],
    [src/builder/valuesFromPaths.ts] and [src/utils.ts], followed by the
    properties of the engine.

    JavaScript values are a tree type ([JsValue]); every source function is a
    Rocq function of the same name.  Code that can raise an exception lives in
    the [Exn] monad and every [try { } catch { }] of the source is a
    [try_catch] here.  The diagnostic [console.log] calls guarded by
    [ErrorObject.SHOW_ERROR_LOGS] have no influence on any result and are
    left out. *)

From Stdlib Require Import ZArith List String Ascii Bool Lia DecimalString.
Import ListNotations.
Local Open Scope string_scope.
Local Open Scope Z_scope.

Set Implicit Arguments.
#[local] Set Warnings "-register-all".

(* ===================================================================== *)
(** * Exceptions *)
(* ===================================================================== *)

(** A computation either returns or throws.  No handler of the engine looks
    at the thrown value (it is at most logged), so [Throw] carries none. *)
Inductive Exn (A : Type) : Type :=
| Ret (a : A)
| Throw.

Arguments Ret {A} a.
Arguments Throw {A}.

Definition bind {A B : Type} (m : Exn A) (k : A -> Exn B) : Exn B :=
  match m with
  | Ret a => k a
  | Throw => Throw
  end.

(** [try { body } catch { handler }] *)
Definition try_catch {A : Type} (body : Exn A) (handler : Exn A) : Exn A :=
  match body with
  | Ret a => Ret a
  | Throw => handler
  end.

Declare Scope exn_scope.
Delimit Scope exn_scope with exn.
Notation "x <- m ;; k" := (bind m (fun x => k))
  (at level 61, m at next level, right associativity) : exn_scope.

(* ===================================================================== *)
(** * JavaScript values and the built-ins the engine calls *)
(* ===================================================================== *)

Module Js.

(** Numbers.  A finite number is the decimal [m * 10^e]; every double is
    such a decimal.  Rounding to 53 bits, overflow to [Infinity] and the
    sign of zero are not modelled: the engine only asks a number for its
    type, whether it is [NaN], its truthiness and its decimal text. *)
Inductive JsNumber : Type :=
| NaN
| Infinity (negative : bool)
| Dec (m e : Z).

(** Payloads, options values and transform results.  An object is the list
    of its own enumerable properties in enumeration order; functions,
    symbols and bigints do not occur in payloads of this model, and
    inherited (prototype) properties are not looked up. *)
Inductive JsValue : Type :=
| JUndefined
| JNull
| JBool (b : bool)
| JNumber (n : JsNumber)
| JString (s : string)
| JArray (elements : list JsValue)
| JObject (fields : list (string * JsValue)).

(** ** Strings *)

Definition is_empty (s : string) : bool :=
  match s with EmptyString => true | _ => false end.

(** [s.replace(pat, rep)] for a one-character string pattern: only the
    first occurrence is replaced. *)
Fixpoint String_replace (s : string) (pat : ascii) (rep : string) : string :=
  match s with
  | EmptyString => EmptyString
  | String c rest =>
      if Ascii.eqb c pat then rep ++ rest
      else String c (String_replace rest pat rep)
  end.

(** [s.split(sep)] for a one-character separator; never the empty list. *)
Fixpoint String_split (sep : ascii) (s : string) : list string :=
  match s with
  | EmptyString => [EmptyString]
  | String c rest =>
      if Ascii.eqb c sep then EmptyString :: String_split sep rest
      else match String_split sep rest with
           | seg :: segs => String c seg :: segs
           | [] => [String c EmptyString]
           end
  end.

Fixpoint repeat_char (c : ascii) (n : nat) : string :=
  match n with
  | O => EmptyString
  | S k => String c (repeat_char c k)
  end.

Fixpoint take (n : nat) (s : string) : string :=
  match n, s with
  | S k, String c rest => String c (take k rest)
  | _, _ => EmptyString
  end.

Fixpoint drop (n : nat) (s : string) : string :=
  match n, s with
  | S k, String _ rest => drop k rest
  | _, _ => s
  end.

Fixpoint join (sep : string) (l : list string) : string :=
  match l with
  | [] => EmptyString
  | [x] => x
  | x :: rest => x ++ sep ++ join sep rest
  end.

(** ** Numbers *)

Definition is_digit (c : ascii) : bool :=
  let n := nat_of_ascii c in (48 <=? n)%nat && (n <=? 57)%nat.

Definition digit_value (c : ascii) : Z := Z.of_nat (nat_of_ascii c - 48).

(** Value of a hexadecimal (or smaller radix) digit, if it is one. *)
Definition radix_digit (radix : Z) (c : ascii) : option Z :=
  let n := Z.of_nat (nat_of_ascii c) in
  let v := if (48 <=? n) && (n <=? 57) then Some (n - 48)
           else if (97 <=? n) && (n <=? 102) then Some (n - 87)
           else if (65 <=? n) && (n <=? 70) then Some (n - 55)
           else None in
  match v with
  | Some d => if d <? radix then Some d else None
  | None => None
  end.

(** Longest prefix of decimal digits: its value, its length, the rest. *)
Fixpoint take_digits (s : string) (acc : Z) (len : nat) : Z * nat * string :=
  match s with
  | String c rest =>
      if is_digit c then take_digits rest (10 * acc + digit_value c) (S len)
      else (acc, len, s)
  | EmptyString => (acc, len, s)
  end.

Fixpoint radix_digits (radix : Z) (s : string) (acc : Z) : option Z :=
  match s with
  | EmptyString => Some acc
  | String c rest =>
      match radix_digit radix c with
      | Some d => radix_digits radix rest (radix * acc + d)
      | None => None
      end
  end.

(** Trailing zeros of the mantissa move into the exponent, so that equal
    numbers have equal representations. *)
Fixpoint strip_zeros (fuel : nat) (m e : Z) : Z * Z :=
  match fuel with
  | O => (m, e)
  | S k =>
      if m =? 0 then (0, 0)
      else if m mod 10 =? 0 then strip_zeros k (m / 10) (e + 1)
      else (m, e)
  end.

Definition normalize (m e : Z) : Z * Z :=
  strip_zeros (S (Z.to_nat (Z.log2_up (Z.abs m)))) m e.

Definition mkDec (m e : Z) : JsNumber :=
  let (m', e') := normalize m e in Dec m' e'.

Definition ofZ (z : Z) : JsNumber := mkDec z 0.

Definition isNaN (n : JsNumber) : bool :=
  match n with NaN => true | _ => false end.

Definition isFinite (n : JsNumber) : bool :=
  match n with Dec _ _ => true | _ => false end.

(** [a === b] on numbers: [NaN] differs from everything, itself included. *)
Definition number_eqb (a b : JsNumber) : bool :=
  match a, b with
  | Infinity x, Infinity y => Bool.eqb x y
  | Dec m e, Dec m' e' =>
      let (a1, a2) := normalize m e in
      let (b1, b2) := normalize m' e' in
      (a1 =? b1) && (a2 =? b2)
  | _, _ => false
  end.

Definition string_of_Z (z : Z) : string :=
  NilZero.string_of_int (Z.to_int z).

(** [Number.prototype.toString()] (radix 10), after ECMA-262
    Number::toString with the digits of the decimal itself. *)
Definition Number_toString (x : JsNumber) : string :=
  match x with
  | NaN => "NaN"
  | Infinity false => "Infinity"
  | Infinity true => "-Infinity"
  | Dec m0 e0 =>
      let (m, e) := normalize m0 e0 in
      if m =? 0 then "0" else
      let sign := if m <? 0 then "-" else EmptyString in
      let digits := string_of_Z (Z.abs m) in
      let k := Z.of_nat (String.length digits) in
      let n := k + e in
      let body :=
        if (k <=? n) && (n <=? 21) then
          digits ++ repeat_char "0" (Z.to_nat (n - k))
        else if (0 <? n) && (n <=? 21) then
          take (Z.to_nat n) digits ++ "." ++ drop (Z.to_nat n) digits
        else if (-6 <? n) && (n <=? 0) then
          "0." ++ repeat_char "0" (Z.to_nat (- n)) ++ digits
        else
          let ex := n - 1 in
          let exs := (if ex <? 0 then "-" else "+") ++ string_of_Z (Z.abs ex) in
          if k =? 1 then digits ++ "e" ++ exs
          else take 1 digits ++ "." ++ drop 1 digits ++ "e" ++ exs in
      sign ++ body
  end.

(** White space of a numeric string (the ASCII part of StrWhiteSpaceChar). *)
Definition is_space (c : ascii) : bool :=
  let n := nat_of_ascii c in
  (n =? 32)%nat || ((9 <=? n)%nat && (n <=? 13)%nat).

Fixpoint trim_left (s : string) : string :=
  match s with
  | String c rest => if is_space c then trim_left rest else s
  | EmptyString => s
  end.

(** The text up to the trailing white space, and whether something other
    than white space was seen. *)
Fixpoint trim_right (s : string) : string :=
  match s with
  | EmptyString => EmptyString
  | String c rest =>
      let r := trim_right rest in
      if is_space c && is_empty r then EmptyString else String c r
  end.

Definition trim (s : string) : string := trim_right (trim_left s).

(** StrUnsignedDecimalLiteral without [Infinity]:
    digits [. digits] [e [+-] digits], at least one mantissa digit. *)
Definition unsigned_decimal (s : string) : option (Z * Z) :=
  let '(ip, ilen, r1) := take_digits s 0 O in
  let '(m, flen, r2) :=
    match r1 with
    | String "." r => let '(v, l, r') := take_digits r ip O in (v, l, r')
    | _ => (ip, O, r1)
    end in
  if ((ilen + flen)%nat =? 0)%nat then None else
  match r2 with
  | EmptyString => Some (m, - Z.of_nat flen)
  | String c r3 =>
      if Ascii.eqb c "e" || Ascii.eqb c "E" then
        let '(neg, r4) :=
          match r3 with
          | String "-" r => (true, r)
          | String "+" r => (false, r)
          | _ => (false, r3)
          end in
        let '(ex, elen, r5) := take_digits r4 0 O in
        if (elen =? 0)%nat then None
        else if is_empty r5
             then Some (m, (if neg then - ex else ex) - Z.of_nat flen)
             else None
      else None
  end.

(** [Number(s)] for a string (StringToNumber).  The value of the numeral
    is kept exactly.  That is the number the runtime gives whenever the
    value is an integer of magnitude at most 2^53; a value that is not a
    double the runtime rounds to one, or to [Infinity].  White space is the
    ASCII part of StrWhiteSpaceChar. *)
Definition Number (s : string) : JsNumber :=
  let t := trim s in
  match t with
  | EmptyString => Dec 0 0
  | String "0" (String p rest) =>
      let radix :=
        if Ascii.eqb p "x" || Ascii.eqb p "X" then Some 16
        else if Ascii.eqb p "o" || Ascii.eqb p "O" then Some 8
        else if Ascii.eqb p "b" || Ascii.eqb p "B" then Some 2
        else None in
      match radix with
      | Some r =>
          if is_empty rest then NaN
          else match radix_digits r rest 0 with
               | Some z => ofZ z
               | None => NaN
               end
      | None =>
          match unsigned_decimal t with
          | Some (m, e) => mkDec m e
          | None => NaN
          end
      end
  | _ =>
      let '(neg, u) :=
        match t with
        | String "-" r => (true, r)
        | String "+" r => (false, r)
        | _ => (false, t)
        end in
      if String.eqb u "Infinity" then Infinity neg
      else match unsigned_decimal u with
           | Some (m, e) => mkDec (if neg then - m else m) e
           | None => NaN
           end
  end.

(** ** Types, truthiness, equality *)

Inductive JsType : Type :=
| TUndefined | TObject | TBoolean | TNumber | TString.

(** [typeof v]; [typeof null] is ["object"], as is [typeof] of an array. *)
Definition typeof (v : JsValue) : JsType :=
  match v with
  | JUndefined => TUndefined
  | JNull => TObject
  | JBool _ => TBoolean
  | JNumber _ => TNumber
  | JString _ => TString
  | JArray _ => TObject
  | JObject _ => TObject
  end.

Definition JsType_eqb (a b : JsType) : bool :=
  match a, b with
  | TUndefined, TUndefined | TObject, TObject | TBoolean, TBoolean
  | TNumber, TNumber | TString, TString => true
  | _, _ => false
  end.

Definition typeof_name (t : JsType) : string :=
  match t with
  | TUndefined => "undefined"
  | TObject => "object"
  | TBoolean => "boolean"
  | TNumber => "number"
  | TString => "string"
  end.

(** ToBoolean: the value as a condition. *)
Definition truthy (v : JsValue) : bool :=
  match v with
  | JUndefined | JNull => false
  | JBool b => b
  | JNumber NaN => false
  | JNumber (Infinity _) => true
  | JNumber (Dec m _) => negb (m =? 0)
  | JString s => negb (is_empty s)
  | JArray _ | JObject _ => true
  end.

Definition is_nullish (v : JsValue) : bool :=
  match v with JUndefined | JNull => true | _ => false end.

Definition Array_isArray (v : JsValue) : bool :=
  match v with JArray _ => true | _ => false end.

(** [a === b].  Two objects are equal only when they are the same object;
    a value found in the payload and a value written in the options never
    are, so objects and arrays compare unequal. *)
Definition strict_eqb (a b : JsValue) : bool :=
  match a, b with
  | JUndefined, JUndefined => true
  | JNull, JNull => true
  | JBool x, JBool y => Bool.eqb x y
  | JNumber x, JNumber y => number_eqb x y
  | JString x, JString y => String.eqb x y
  | _, _ => false
  end.

(** ** Property access *)

Fixpoint lookup (fields : list (string * JsValue)) (key : string) : option JsValue :=
  match fields with
  | [] => None
  | (k, v) :: rest => if String.eqb k key then Some v else lookup rest key
  end.

(** The array index a property key denotes, when it is the canonical
    decimal text of a natural number. *)
Definition array_index (key : string) : option nat :=
  match NilZero.uint_of_string key with
  | Some u =>
      if String.eqb (NilZero.string_of_uint (Decimal.unorm u)) key
      then Some (Nat.of_uint u) else None
  | None => None
  end.

(** [obj[key]] for an own property of an object or array ([undefined] when
    there is none, and for a primitive).  What an object inherits from its
    prototype ([constructor], [__proto__], the methods of arrays) is not
    found. *)
Definition get (obj : JsValue) (key : string) : JsValue :=
  match obj with
  | JObject fields =>
      match lookup fields key with Some v => v | None => JUndefined end
  | JArray elements =>
      match array_index key with
      | Some i => nth i elements JUndefined
      | None =>
          if String.eqb key "length"
          then JNumber (ofZ (Z.of_nat (List.length elements)))
          else JUndefined
      end
  | JString s =>
      match array_index key with
      | Some i =>
          match String.get i s with
          | Some c => JString (String c EmptyString)
          | None => JUndefined
          end
      | None =>
          if String.eqb key "length"
          then JNumber (ofZ (Z.of_nat (String.length s)))
          else JUndefined
      end
  | _ => JUndefined
  end.

(** [obj.key] as a statement of the program: reading a property of
    [undefined] or [null] throws a TypeError. *)
Definition member (obj : JsValue) (key : string) : Exn JsValue :=
  if is_nullish obj then Throw else Ret (get obj key).

(** The key [obj[k]] really reads when [k] is a number: its decimal text. *)
Definition ToPropertyKey (k : string + JsNumber) : string :=
  match k with
  | inl s => s
  | inr n => Number_toString n
  end.

Fixpoint indexed (i : nat) (l : list JsValue) : list (string * JsValue) :=
  match l with
  | [] => []
  | v :: rest => (NilZero.string_of_uint (Nat.to_uint i), v) :: indexed (S i) rest
  end.

Fixpoint chars (i : nat) (s : string) : list (string * JsValue) :=
  match s with
  | EmptyString => []
  | String c rest =>
      (NilZero.string_of_uint (Nat.to_uint i), JString (String c EmptyString))
        :: chars (S i) rest
  end.

(** [Object.entries(v)]; throws on [undefined] and [null]. *)
Definition Object_entries (v : JsValue) : Exn (list (string * JsValue)) :=
  match v with
  | JUndefined | JNull => Throw
  | JObject fields => Ret fields
  | JArray elements => Ret (indexed O elements)
  | JString s => Ret (chars O s)
  | JBool _ | JNumber _ => Ret []
  end.

(** ** JSON.stringify *)

Definition hex_digit (n : nat) : ascii :=
  ascii_of_nat (if (n <? 10)%nat then 48 + n else 87 + n).

(** QuoteJSONString, one character at a time. *)
Definition escape_char (c : ascii) : string :=
  let n := nat_of_ascii c in
  if (n =? 8)%nat then "\b"
  else if (n =? 9)%nat then "\t"
  else if (n =? 10)%nat then "\n"
  else if (n =? 12)%nat then "\f"
  else if (n =? 13)%nat then "\r"
  else if (n =? 34)%nat then String "\" (String c EmptyString)
  else if (n =? 92)%nat then "\\"
  else if (n <? 32)%nat then
    "\u00" ++ String (hex_digit (n / 16)) (String (hex_digit (n mod 16)) EmptyString)
  else String c EmptyString.

Fixpoint escape (s : string) : string :=
  match s with
  | EmptyString => EmptyString
  | String c rest => escape_char c ++ escape rest
  end.

Definition quote (s : string) : string :=
  String (ascii_of_nat 34) (escape s ++ String (ascii_of_nat 34) EmptyString).

(** [JSON.stringify(v)]: [None] is the [undefined] it returns for
    [undefined]; inside an array [undefined] prints as [null], inside an
    object the property is left out; a number that is not finite prints as
    [null]. *)
Fixpoint JSON_stringify (v : JsValue) : option string :=
  match v with
  | JUndefined => None
  | JNull => Some "null"
  | JBool b => Some (if b then "true" else "false")
  | JNumber n => Some (if isFinite n then Number_toString n else "null")
  | JString s => Some (quote s)
  | JArray elements =>
      Some ("[" ++ join ","
              (map (fun x => match JSON_stringify x with
                             | Some t => t
                             | None => "null"
                             end) elements) ++ "]")
  | JObject fields =>
      Some ("{" ++ join ","
              (flat_map (fun kv => match JSON_stringify (snd kv) with
                                   | Some t => [quote (fst kv) ++ ":" ++ t]
                                   | None => []
                                   end) fields) ++ "}")
  end.

(** ** JSON.parse *)

Definition is_json_space (c : ascii) : bool :=
  let n := nat_of_ascii c in
  (n =? 32)%nat || (n =? 9)%nat || (n =? 10)%nat || (n =? 13)%nat.

Fixpoint skip_ws (s : string) : string :=
  match s with
  | String c rest => if is_json_space c then skip_ws rest else s
  | EmptyString => s
  end.

(** The bytes (UTF-8) of the code unit a [\uXXXX] escape names; surrogate
    pairs are not recombined. *)
Definition code_unit (n : nat) : string :=
  if (n <? 128)%nat then String (ascii_of_nat n) EmptyString
  else if (n <? 2048)%nat then
    String (ascii_of_nat (192 + n / 64))
      (String (ascii_of_nat (128 + n mod 64)) EmptyString)
  else
    String (ascii_of_nat (224 + n / 4096))
      (String (ascii_of_nat (128 + (n / 64) mod 64))
         (String (ascii_of_nat (128 + n mod 64)) EmptyString)).

Definition hex4 (a b c d : ascii) : option nat :=
  match radix_digit 16 a, radix_digit 16 b, radix_digit 16 c, radix_digit 16 d with
  | Some x, Some y, Some z, Some w => Some (Z.to_nat (((x * 16 + y) * 16 + z) * 16 + w))
  | _, _, _, _ => None
  end.

(** The characters of a string literal after its opening quote, and what
    follows the closing quote. *)
Fixpoint parse_string (s : string) : option (string * string) :=
  match s with
  | EmptyString => None
  | String c rest =>
      let n := nat_of_ascii c in
      if (n =? 34)%nat then Some (EmptyString, rest)
      else if (n <? 32)%nat then None
      else if (n =? 92)%nat then
        match rest with
        | String "u" (String h1 (String h2 (String h3 (String h4 rest')))) =>
            match hex4 h1 h2 h3 h4, parse_string rest' with
            | Some u, Some (t, r) => Some (code_unit u ++ t, r)
            | _, _ => None
            end
        | String e rest' =>
            let m := nat_of_ascii e in
            let decoded :=
              if (m =? 34)%nat || (m =? 92)%nat || (m =? 47)%nat then Some e
              else if Ascii.eqb e "b" then Some (ascii_of_nat 8)
              else if Ascii.eqb e "f" then Some (ascii_of_nat 12)
              else if Ascii.eqb e "n" then Some (ascii_of_nat 10)
              else if Ascii.eqb e "r" then Some (ascii_of_nat 13)
              else if Ascii.eqb e "t" then Some (ascii_of_nat 9)
              else None in
            match decoded, parse_string rest' with
            | Some d, Some (t, r) => Some (String d t, r)
            | _, _ => None
            end
        | EmptyString => None
        end
      else
        match parse_string rest with
        | Some (t, r) => Some (String c t, r)
        | None => None
        end
  end.

(** A JSON number: [-? (0 | [1-9] digits) (. digits)? ([eE] [+-]? digits)?],
    kept exactly, as [Number] keeps a numeral. *)
Definition parse_number (s : string) : option (JsNumber * string) :=
  let '(neg, s1) :=
    match s with String "-" r => (true, r) | _ => (false, s) end in
  let '(ip, ilen, r1) := take_digits s1 0 O in
  let leading_zero :=
    match s1 with String "0" _ => (1 <? ilen)%nat | _ => false end in
  if (ilen =? 0)%nat || leading_zero then None else
  let frac :=
    match r1 with
    | String "." r =>
        let '(v, l, r') := take_digits r ip O in
        if (l =? 0)%nat then None else Some (v, l, r')
    | _ => Some (ip, O, r1)
    end in
  match frac with
  | None => None
  | Some (m, flen, r2) =>
      let sm := if neg then - m else m in
      match r2 with
      | String c r3 =>
          if Ascii.eqb c "e" || Ascii.eqb c "E" then
            let '(eneg, r4) :=
              match r3 with
              | String "-" r => (true, r)
              | String "+" r => (false, r)
              | _ => (false, r3)
              end in
            let '(ex, elen, r5) := take_digits r4 0 O in
            if (elen =? 0)%nat then None
            else Some (mkDec sm ((if eneg then - ex else ex) - Z.of_nat flen), r5)
          else Some (mkDec sm (- Z.of_nat flen), r2)
      | EmptyString => Some (mkDec sm (- Z.of_nat flen), r2)
      end
  end.

Definition expect (word : string) (s : string) : option string :=
  if String.prefix word s then Some (drop (String.length word) s) else None.

(** Defining a property the way [JSON.parse] does: a repeated key keeps
    its place and takes the new value; a new array-index key goes before
    the string keys, in ascending order; any other new key goes last.
    Every canonical decimal key counts as an array index here; the runtime
    counts those below 2^32 - 1. *)
Fixpoint define_property (fields : list (string * JsValue)) (k : string) (v : JsValue)
  : list (string * JsValue) :=
  match fields with
  | [] => [(k, v)]
  | (k', v') :: rest =>
      if String.eqb k' k then (k, v) :: rest
      else
        let before :=
          match array_index k, array_index k' with
          | Some i, Some j => (i <? j)%nat
          | Some _, None => negb (existsb (fun kv => String.eqb (fst kv) k) rest)
          | None, _ => false
          end in
        if before then (k, v) :: fields
        else (k', v') :: define_property rest k v
  end.

(** Recursive descent; [fuel] bounds the nesting of calls, and twice the
    length of the text plus two is always enough. *)
Fixpoint parse_value (fuel : nat) (s : string) : option (JsValue * string) :=
  match fuel with
  | O => None
  | S f =>
      match skip_ws s with
      | EmptyString => None
      | String c rest as t =>
          if Ascii.eqb c "n" then
            match expect "null" t with Some r => Some (JNull, r) | None => None end
          else if Ascii.eqb c "t" then
            match expect "true" t with Some r => Some (JBool true, r) | None => None end
          else if Ascii.eqb c "f" then
            match expect "false" t with Some r => Some (JBool false, r) | None => None end
          else if (nat_of_ascii c =? 34)%nat then
            match parse_string rest with
            | Some (str, r) => Some (JString str, r)
            | None => None
            end
          else if Ascii.eqb c "[" then
            match skip_ws rest with
            | String "]" r => Some (JArray [], r)
            | r => parse_elements f r []
            end
          else if Ascii.eqb c "{" then
            match skip_ws rest with
            | String "}" r => Some (JObject [], r)
            | r => parse_members f r []
            end
          else
            match parse_number t with
            | Some (n, r) => Some (JNumber n, r)
            | None => None
            end
      end
  end
with parse_elements (fuel : nat) (s : string) (acc : list JsValue)
  : option (JsValue * string) :=
  match fuel with
  | O => None
  | S f =>
      match parse_value f s with
      | Some (v, r) =>
          match skip_ws r with
          | String "," r' => parse_elements f r' (acc ++ [v])
          | String "]" r' => Some (JArray (acc ++ [v]), r')
          | _ => None
          end
      | None => None
      end
  end
with parse_members (fuel : nat) (s : string) (acc : list (string * JsValue))
  : option (JsValue * string) :=
  match fuel with
  | O => None
  | S f =>
      match skip_ws s with
      | String c r0 =>
          if (nat_of_ascii c =? 34)%nat then
            match parse_string r0 with
            | Some (k, r1) =>
                match skip_ws r1 with
                | String ":" r2 =>
                    match parse_value f r2 with
                    | Some (v, r3) =>
                        match skip_ws r3 with
                        | String "," r' => parse_members f r' (define_property acc k v)
                        | String "}" r' => Some (JObject (define_property acc k v), r')
                        | _ => None
                        end
                    | None => None
                    end
                | _ => None
                end
            | None => None
            end
          else None
      | EmptyString => None
      end
  end.

(** [JSON.parse(text)]; a SyntaxError is [Throw]. *)
Definition JSON_parse (text : string) : Exn JsValue :=
  match parse_value (2 * String.length text + 2) text with
  | Some (v, rest) => if is_empty (skip_ws rest) then Ret v else Throw
  | None => Throw
  end.

(** ** String conversion and object spread *)

(** ToString, as a template literal or [v.toString()] applies it. *)
Fixpoint toString (v : JsValue) : string :=
  match v with
  | JUndefined => "undefined"
  | JNull => "null"
  | JBool b => if b then "true" else "false"
  | JNumber n => Number_toString n
  | JString s => s
  | JArray elements =>
      join "," (map (fun x => match x with
                              | JUndefined | JNull => EmptyString
                              | _ => toString x
                              end) elements)
  | JObject _ => "[object Object]"
  end.

(** The own properties [{...v}] copies; spreading [undefined] or [null]
    copies nothing. *)
Definition spread (v : JsValue) : list (string * JsValue) :=
  match Object_entries v with
  | Ret fields => fields
  | Throw => []
  end.

End Js.

Import Js.

(* ===================================================================== *)
(** * src/utils.ts: the types of the engine *)
(* ===================================================================== *)

(** The closed set of failure reasons. *)
Inductive ErrorObjectErrorResult : Type :=
| isNullish
| isNotAnObject
| checkIsNullish
| checkIsNotAnObject
| isNotAnArray
| checkInputObjectForValuesIsNotAnObject
| checkInputObjectForValuesFailed
| checkInputObjectForTypesIsNotAnObject
| checkInputObjectForTypesFailed
| checkInputObjectForTypesValueIsArrayFailed
| checkInputObjectForKeysIsNotAnObject
| checkInputObjectForKeysFailed
| pathToErrorsIsNotAnArray
| pathToErrorsValuesAreNotStrings
| pathToCodeIsInvalid
| pathToCodeIsNotAnArray
| pathToCodeValuesAreNotStrings
| pathToNumberCodeIsInvalid
| pathToNumberCodeIsNotAnArray
| pathToNumberCodeValuesAreNotStrings
| pathToMessageIsInvalid
| pathToMessageIsNotAnArray
| pathToMessageValuesAreNotStrings
| pathToDetailsIsInvalid
| pathToDetailsIsNotAnArray
| pathToDetailsValuesAreNotStrings
| pathToDomainIsInvalid
| pathToDomainIsNotAnArray
| pathToDomainValuesAreNotStrings
| transformIsNotAFunction
| transformResultIsNotAValidObject
| transformCodeResultIsNotString
| transformNumberCodeResultIsNotNumber
| transformNumberCodeResultIsNaN
| transformMessageResultIsNotString
| transformDetailsResultIsNotString
| transformDomainResultIsNotString
| buildSummaryIsNullish
| buildSummaryIsNotAnObject
| generalBuildSummariesFromObjectError
| generalBuildSummaryFromObjectError
| generalCheckInputObjectForValuesError
| unknownCodeOrMessage
| invalidSummary.

(** The [transform] entry of the options: whatever the caller stored under
    that key.  A function receives the pre-transform state and the
    candidate object, and returns a value or throws; it does not modify
    what it is given. *)
Inductive TransformOption : Type :=
| NotAFunction (v : JsValue)
| Function (f : JsValue -> JsValue -> Exn JsValue).

(** [ErrorObjectBuildOptions] as the engine meets it at run time: a key is
    absent ([None]) or holds a value of any type, which the engine checks
    before use. *)
Record ErrorObjectBuildOptions : Type := {
  checkInputObjectForValues : option JsValue;
  checkInputObjectForTypes : option JsValue;
  checkInputObjectForKeys : option JsValue;
  pathToErrors : option JsValue;
  pathToCode : option JsValue;
  pathToNumberCode : option JsValue;
  pathToMessage : option JsValue;
  pathToDetails : option JsValue;
  pathToDomain : option JsValue;
  transform : option TransformOption
}.

(** [PathValueAndTransform<V>]: the winning path, the value found there and
    the value after the transform (which is what the transform returned for
    the field, of whatever type passed the validation). *)
Record PathValueAndTransform (V : Type) : Type := {
  pvt_path : option string;
  pvt_beforeTransform : option V;
  pvt_value : JsValue
}.

Record ErrorSummaryValue : Type := {
  code : option (PathValueAndTransform string);
  numberCode : option (PathValueAndTransform JsNumber);
  message : option (PathValueAndTransform string);
  details : option (PathValueAndTransform string);
  domain : option (PathValueAndTransform string)
}.

Record ErrorSummary : Type := {
  didDetectErrorsArray : option bool;
  input : JsValue;
  path : option string;
  value : ErrorSummaryValue
}.

Record ErrorObjectProcessingError : Type := {
  errorCode : ErrorObjectErrorResult;
  summary : option ErrorSummary
}.

(** What the builders return for a candidate: a failure reason (the
    sentinel string of the source) or a summary. *)
Definition SummaryOrError : Type := (ErrorObjectErrorResult + ErrorSummary)%type.

(* ===================================================================== *)
(** * The external record type *)
(* ===================================================================== *)

Module ErrorObject.

(** Modelled from the spec: the final error-record type [ErrorObject] of the
    package [@smbcheeky/error-object], which is not part of this
    repository.  The spec gives it a constructor from
    [{code, message, numberCode?, details?, domain?, raw?,
    processingErrors?}] (the engine also passes [summary]) and a
    [setNextErrors] / [setRaw] / [setProcessingErrors] mutation API whose
    methods return the record they were called on. *)
Inductive t : Type := mk {
  code : string;
  message : string;
  numberCode : JsValue;
  details : JsValue;
  domain : JsValue;
  summary : option ErrorSummary;
  processingErrors : option (list ErrorObjectProcessingError);
  raw : JsValue;
  nextErrors : option (list t)
}.

(** [new ErrorObject({ code, message, numberCode, details, domain, summary,
    processingErrors })] *)
Definition new (code message : string) (numberCode details domain : JsValue)
    (summary : ErrorSummary) (processingErrors : list ErrorObjectProcessingError) : t :=
  mk code message numberCode details domain (Some summary) (Some processingErrors)
     JUndefined None.

Definition setRaw (e : t) (raw : JsValue) : t :=
  mk (code e) (message e) (numberCode e) (details e) (domain e) (summary e)
     (processingErrors e) raw (nextErrors e).

Definition setNextErrors (e : t) (next : option (list t)) : t :=
  mk (code e) (message e) (numberCode e) (details e) (domain e) (summary e)
     (processingErrors e) (raw e) next.

Definition setProcessingErrors (e : t) (errors : list ErrorObjectProcessingError) : t :=
  mk (code e) (message e) (numberCode e) (details e) (domain e) (summary e)
     (Some errors) (raw e) (nextErrors e).

End ErrorObject.

(* ===================================================================== *)
(** * src/utils.ts: path helpers and default options *)
(* ===================================================================== *)

(** [addPrefixPathVariants(prefix, array)] *)
Definition addPrefixPathVariants (prefix : JsValue) (array : list JsValue) : list JsValue :=
  let variants (p : JsValue) :=
    map (fun s => match s with
                  | JString t => JString (toString p ++ "." ++ t)
                  | _ => s
                  end) array in
  match prefix with
  | JString _ => (array ++ variants prefix)%list
  | JArray ((JString _ :: _) as prefixes) =>
      fold_left (fun result p => (result ++ variants p)%list) prefixes array
  | _ => array
  end.

(** A [string | undefined] and a [number | undefined] as values. *)
Definition optString (o : option string) : JsValue :=
  match o with Some s => JString s | None => JUndefined end.

Definition optNumber (o : option JsNumber) : JsValue :=
  match o with Some n => JNumber n | None => JUndefined end.

(** The default [transform]: a missing code becomes the text of the number
    code, when there is one. *)
Definition defaultTransform (beforeTransform _inputObject : JsValue) : Exn JsValue :=
  (newCode <- member beforeTransform "code" ;;
   newCode' <-
     (if is_nullish newCode then
        value <- member beforeTransform "numberCode" ;;
        if negb (is_nullish value) then Ret (JString (toString value))
        else Ret newCode
      else Ret newCode) ;;
   Ret (JObject (define_property (spread beforeTransform) "code" newCode')))%exn.

Definition DEFAULT_BUILD_OPTIONS : ErrorObjectBuildOptions := {|
  checkInputObjectForValues := None;
  checkInputObjectForTypes := None;
  checkInputObjectForKeys := None;
  pathToErrors := Some (JArray [JString "errors"; JString "errs"]);
  pathToCode := Some (JArray (addPrefixPathVariants (JString "error")
    [JString "code"; JString "err_code"; JString "errorCode"; JString "error_code"]));
  pathToNumberCode := Some (JArray (addPrefixPathVariants (JString "error")
    [JString "numberCode"; JString "err_number_code"; JString "errorNumberCode";
     JString "error_number_code"]));
  pathToMessage := Some (JArray (addPrefixPathVariants (JString "error")
    [JString "message"; JString "err_message"; JString "errorMessage";
     JString "error_message"]));
  pathToDetails := Some (JArray (addPrefixPathVariants (JString "error")
    [JString "details"; JString "err_details"; JString "errorDetails";
     JString "error_details"]));
  pathToDomain := Some (JArray (addPrefixPathVariants (JString "error")
    [JString "domain"; JString "errorDomain"; JString "error_domain";
     JString "err_domain"; JString "type"]));
  transform := Some (Function defaultTransform)
|}.

(** [withOptions ?? { ...DEFAULT_BUILD_OPTIONS }] *)
Definition orDefault (withOptions : option ErrorObjectBuildOptions) : ErrorObjectBuildOptions :=
  match withOptions with
  | Some options => options
  | None => DEFAULT_BUILD_OPTIONS
  end.

(* ===================================================================== *)
(** * src/builder/index.ts: the path resolver *)
(* ===================================================================== *)

(** One step of the [reduce] over the segments of a path. *)
Definition resolveSegment (acc : JsValue) (key : string) : JsValue :=
  if (String.length key =? 0)%nat then acc
  else
    let numericKey := Number key in
    let resolvedKey : string + JsNumber :=
      if isNaN numericKey then inl key else inr numericKey in
    if truthy acc && JsType_eqb (typeof acc) TObject
    then get acc (ToPropertyKey resolvedKey)
    else JUndefined.

Definition findNestedValueForPath (value : JsValue) (path : string) : JsValue :=
  if is_empty path || negb (truthy value) then JUndefined
  else
    let normalizedPath := String_replace (String_replace path "[" EmptyString) "]" EmptyString in
    if is_empty normalizedPath then JUndefined
    else fold_left resolveSegment (String_split "." normalizedPath) value.

(* ===================================================================== *)
(** * src/builder/valuesFromPaths.ts: the field extractor *)
(* ===================================================================== *)

Record ValuesFromPaths : Type := {
  codeBeforeTransform : option string;
  codePath : option string;
  numberCodeBeforeTransform : option JsNumber;
  numberCodePath : option string;
  messageBeforeTransform : option string;
  messagePath : option string;
  detailsBeforeTransform : option string;
  detailsPath : option string;
  domainBeforeTransform : option string;
  domainPath : option string
}.

(** The [for (const path of options.pathToX)] loop of the four text
    fields (code, message, details, domain), which the source writes out
    once per field.  It returns the failure [notStrings] at the first entry
    that is not a string, and otherwise the winning path with the value
    kept for it ([break]), or nothing when the list runs out. *)
Fixpoint stringFromPaths (notStrings : ErrorObjectErrorResult) (objectToParse : JsValue)
    (paths : list JsValue)
  : ErrorObjectErrorResult + (option string * option string) :=
  match paths with
  | [] => inr (None, None)
  | JString path :: rest =>
      let found := findNestedValueForPath objectToParse path in
      if negb (is_nullish found) then
        match found with
        | JString text => inr (Some path, Some text)
        | _ =>
            if Array_isArray found || JsType_eqb (typeof found) TObject
            then inr (Some path, JSON_stringify found)
            else stringFromPaths notStrings objectToParse rest
        end
      else stringFromPaths notStrings objectToParse rest
  | _ :: _ => inl notStrings
  end.

(** The loop over [options.pathToNumberCode]. *)
Fixpoint numberFromPaths (objectToParse : JsValue) (paths : list JsValue)
  : ErrorObjectErrorResult + (option string * option JsNumber) :=
  match paths with
  | [] => inr (None, None)
  | JString path :: rest =>
      match findNestedValueForPath objectToParse path with
      | JNumber found =>
          if negb (isNaN found) then inr (Some path, Some found)
          else numberFromPaths objectToParse rest
      | _ => numberFromPaths objectToParse rest
      end
  | _ :: _ => inl pathToNumberCodeValuesAreNotStrings
  end.

(** The three guards in front of each loop: the key is there, it holds an
    array, and then the loop itself. *)
Definition withPaths {A : Type} (option_ : option JsValue)
    (isInvalid isNotAnArray_ : ErrorObjectErrorResult)
    (loop : list JsValue -> ErrorObjectErrorResult + A)
  : ErrorObjectErrorResult + A :=
  match option_ with
  | None => inl isInvalid
  | Some (JArray paths) => loop paths
  | Some _ => inl isNotAnArray_
  end.

Definition __processAllValuesFromPaths (objectToParse : JsValue)
    (options : ErrorObjectBuildOptions) : ErrorObjectErrorResult + ValuesFromPaths :=
  match withPaths (pathToCode options) pathToCodeIsInvalid pathToCodeIsNotAnArray
          (stringFromPaths pathToCodeValuesAreNotStrings objectToParse) with
  | inl e => inl e
  | inr (codePath, codeBeforeTransform) =>
  match withPaths (pathToNumberCode options) pathToNumberCodeIsInvalid
          pathToNumberCodeIsNotAnArray (numberFromPaths objectToParse) with
  | inl e => inl e
  | inr (numberCodePath, numberCodeBeforeTransform) =>
  match withPaths (pathToMessage options) pathToMessageIsInvalid pathToMessageIsNotAnArray
          (stringFromPaths pathToMessageValuesAreNotStrings objectToParse) with
  | inl e => inl e
  | inr (messagePath, messageBeforeTransform) =>
  match withPaths (pathToDetails options) pathToDetailsIsInvalid pathToDetailsIsNotAnArray
          (stringFromPaths pathToDetailsValuesAreNotStrings objectToParse) with
  | inl e => inl e
  | inr (detailsPath, detailsBeforeTransform) =>
  match withPaths (pathToDomain options) pathToDomainIsInvalid pathToDomainIsNotAnArray
          (stringFromPaths pathToDomainValuesAreNotStrings objectToParse) with
  | inl e => inl e
  | inr (domainPath, domainBeforeTransform) =>
      inr {| codeBeforeTransform := codeBeforeTransform;
             codePath := codePath;
             numberCodeBeforeTransform := numberCodeBeforeTransform;
             numberCodePath := numberCodePath;
             messageBeforeTransform := messageBeforeTransform;
             messagePath := messagePath;
             detailsBeforeTransform := detailsBeforeTransform;
             detailsPath := detailsPath;
             domainBeforeTransform := domainBeforeTransform;
             domainPath := domainPath |}
  end end end end end.

(* ===================================================================== *)
(** * src/builder/index.ts: summaries *)
(* ===================================================================== *)

(** Truthiness of a [string | undefined]. *)
Definition truthyString (o : option string) : bool :=
  match o with
  | Some s => negb (is_empty s)
  | None => false
  end.

Definition isSome {A : Type} (o : option A) : bool :=
  match o with Some _ => true | None => false end.

(** [beforeTransform]: the pre-transform Field State handed to the
    transform. *)
Definition beforeTransformState (v : ValuesFromPaths) : JsValue :=
  JObject [("code", optString (codeBeforeTransform v));
           ("numberCode", optNumber (numberCodeBeforeTransform v));
           ("message", optString (messageBeforeTransform v));
           ("details", optString (detailsBeforeTransform v));
           ("domain", optString (domainBeforeTransform v))].

(** [v && typeof v !== 'string'] *)
Definition truthyNotString (v : JsValue) : bool :=
  truthy v && negb (JsType_eqb (typeof v) TString).

(** The statements of [buildSummaryFromObject] that settle [objectToParse]
    for a candidate that is not nullish: a string is given to [JSON.parse]
    inside its own [try], and a decoded object replaces it; the synthetic
    [{ code: 'unknown', message }] object is built when [objectToParse]
    is identical to the string; whatever is still unset falls back to the
    candidate itself. *)
Definition decodeCandidate (maybeObject : JsValue) : Exn JsValue :=
  (objectToParse1 <-
     match maybeObject with
     | JString text =>
         parsed <- try_catch
                     (json <- JSON_parse text ;;
                      if negb (is_nullish json) && JsType_eqb (typeof json) TObject
                      then Ret json else Ret JUndefined)
                     (Ret JUndefined) ;;
         if strict_eqb parsed maybeObject
         then Ret (JObject [("code", JString "unknown"); ("message", maybeObject)])
         else Ret parsed
     | _ => Ret JUndefined
     end ;;
   Ret (if is_nullish objectToParse1 then maybeObject else objectToParse1))%exn.

(** The checks on what the transform returned, in the order of the
    source; [None] when all of them pass. *)
Definition transformResultFailure (values : JsValue) : option ErrorObjectErrorResult :=
  if is_nullish values || negb (JsType_eqb (typeof values) TObject)
  then Some transformResultIsNotAValidObject
  else if truthyNotString (get values "code")
  then Some transformCodeResultIsNotString
  else if negb (is_nullish (get values "numberCode"))
          && negb (JsType_eqb (typeof (get values "numberCode")) TNumber)
  then Some transformNumberCodeResultIsNotNumber
  else if negb (is_nullish (get values "numberCode"))
          && match get values "numberCode" with
             | JNumber n => isNaN n
             | _ => false
             end
  then Some transformNumberCodeResultIsNaN
  else if truthyNotString (get values "message")
  then Some transformMessageResultIsNotString
  else if truthyNotString (get values "details")
  then Some transformDetailsResultIsNotString
  else if truthyNotString (get values "domain")
  then Some transformDomainResultIsNotString
  else None.

(** [present ? { path, beforeTransform, value } : undefined] *)
Definition fieldTriple {V : Type} (present : bool) (p : option string) (b : option V)
    (x : JsValue) : option (PathValueAndTransform V) :=
  if present
  then Some {| pvt_path := p; pvt_beforeTransform := b; pvt_value := x |}
  else None.

(** The summary object [buildSummaryFromObject] returns on success. *)
Definition summaryOf (objectToParse : JsValue) (errorsPath : option string)
    (didDetectErrorsArray : bool) (v : ValuesFromPaths) (values : JsValue) : ErrorSummary :=
  {| didDetectErrorsArray := if didDetectErrorsArray then Some true else None;
     input := objectToParse;
     path := errorsPath;
     value := {|
       code :=
         fieldTriple (truthyString (codePath v) || truthyString (codeBeforeTransform v)
                      || truthy (get values "code"))
                     (codePath v) (codeBeforeTransform v) (get values "code");
       numberCode :=
         fieldTriple (truthyString (numberCodePath v)
                      || isSome (numberCodeBeforeTransform v)
                      || negb (is_nullish (get values "numberCode")))
                     (numberCodePath v) (numberCodeBeforeTransform v)
                     (get values "numberCode");
       message :=
         fieldTriple (truthyString (messagePath v)
                      || truthyString (messageBeforeTransform v)
                      || truthy (get values "message"))
                     (messagePath v) (messageBeforeTransform v) (get values "message");
       details :=
         fieldTriple (truthyString (detailsPath v)
                      || truthyString (detailsBeforeTransform v)
                      || truthy (get values "details"))
                     (detailsPath v) (detailsBeforeTransform v) (get values "details");
       domain :=
         fieldTriple (truthyString (domainPath v)
                      || truthyString (domainBeforeTransform v)
                      || truthy (get values "domain"))
                     (domainPath v) (domainBeforeTransform v) (get values "domain")
     |}
  |}.

(** The body of the [try] block of [buildSummaryFromObject]. *)
Definition buildSummaryFromObject_try (maybeObject : JsValue) (errorsPath : option string)
    (didDetectErrorsArray : bool) (withOptions : option ErrorObjectBuildOptions)
  : Exn SummaryOrError :=
  (let options := orDefault withOptions in
   if is_nullish maybeObject then Ret (inl buildSummaryIsNullish) else
   objectToParse <- decodeCandidate maybeObject ;;
   if negb (JsType_eqb (typeof objectToParse) TObject)
   then Ret (inl buildSummaryIsNotAnObject) else
   match __processAllValuesFromPaths objectToParse options with
   | inl valuesResult => Ret (inl valuesResult)
   | inr v =>
       match transform options with
       | Some (NotAFunction _) => Ret (inl transformIsNotAFunction)
       | transformOption =>
           let beforeTransform := beforeTransformState v in
           values <-
             match transformOption with
             | Some (Function f) => f beforeTransform objectToParse
             | _ => Ret beforeTransform
             end ;;
           match transformResultFailure values with
           | Some failure => Ret (inl failure)
           | None =>
               Ret (inr (summaryOf objectToParse errorsPath didDetectErrorsArray v values))
           end
       end
   end)%exn.

Definition buildSummaryFromObject (maybeObject : JsValue) (errorsPath : option string)
    (didDetectErrorsArray : bool) (withOptions : option ErrorObjectBuildOptions)
  : Exn SummaryOrError :=
  try_catch
    (buildSummaryFromObject_try maybeObject errorsPath didDetectErrorsArray withOptions)
    (Ret (inl generalBuildSummaryFromObjectError)).

(** The loop over [options.pathToErrors]: the collection found, the path
    it was found at and [didDetectErrorsArray]; or the failure at an entry
    that is not a string. *)
Fixpoint findErrorsArray (input : JsValue) (paths : list JsValue)
  : ErrorObjectErrorResult + (list JsValue * option string * bool) :=
  match paths with
  | [] => inr ([], None, false)
  | JString path :: rest =>
      let found := findNestedValueForPath input path in
      if truthy found && Array_isArray found then
        match found with
        | JArray errors => inr (errors, Some path, true)
        | _ => findErrorsArray input rest
        end
      else findErrorsArray input rest
  | _ :: _ => inl pathToErrorsValuesAreNotStrings
  end.

(** [for (const x of xs) { ys.push(f(x)) }] *)
Fixpoint forEachPush {A B : Type} (f : A -> Exn B) (xs : list A) : Exn (list B) :=
  match xs with
  | [] => Ret []
  | x :: rest =>
      (y <- f x ;;
       ys <- forEachPush f rest ;;
       Ret (y :: ys))%exn
  end.

(** The body of the [try] block of [buildSummariesFromObject]. *)
Definition buildSummariesFromObject_try (input : JsValue)
    (withOptions : option ErrorObjectBuildOptions) : Exn (list SummaryOrError) :=
  let options := orDefault withOptions in
  if is_nullish input then Ret [inl isNullish]
  else if negb (JsType_eqb (typeof input) TObject) then Ret [inl isNotAnObject]
  else
    let detected :=
      match pathToErrors options with
      | None => inr ([], None, false)
      | Some (JArray paths) => findErrorsArray input paths
      | Some _ => inl pathToErrorsIsNotAnArray
      end in
    match detected with
    | inl e => Ret [inl e]
    | inr (errors0, errorsPath, didDetectErrorsArray) =>
        let errors := if (List.length errors0 =? 0)%nat then [input] else errors0 in
        forEachPush
          (fun errorMaybeObject =>
             buildSummaryFromObject errorMaybeObject errorsPath didDetectErrorsArray
               (Some options))
          errors
    end.

Definition buildSummariesFromObject (input : JsValue)
    (withOptions : option ErrorObjectBuildOptions) : Exn (list SummaryOrError) :=
  try_catch (buildSummariesFromObject_try input withOptions)
            (Ret [inl generalBuildSummariesFromObjectError]).

(* ===================================================================== *)
(** * src/index.ts: the input validator *)
(* ===================================================================== *)

(** [cond ? !test : test], with [cond] taken for its truthiness. *)
Definition mismatch (cond : JsValue) (test : bool) : bool :=
  if truthy cond then negb test else test.

(** The loop over the value rules. *)
Fixpoint checkValues (input : JsValue) (entries : list (string * JsValue))
  : Exn (option ErrorObjectErrorResult) :=
  match entries with
  | [] => Ret None
  | (key, rule) :: rest =>
      (let foundValue := findNestedValueForPath input key in
       ruleExists <- member rule "exists" ;;
       ruleValue <- member rule "value" ;;
       if mismatch ruleExists (strict_eqb foundValue ruleValue)
       then Ret (Some checkInputObjectForValuesFailed)
       else checkValues input rest)%exn
  end.

(** The loop over the type rules. *)
Fixpoint checkTypes (input : JsValue) (entries : list (string * JsValue))
  : Exn (option ErrorObjectErrorResult) :=
  match entries with
  | [] => Ret None
  | (key, rule) :: rest =>
      (let foundValue := findNestedValueForPath input key in
       valueIsArray <- member rule "valueIsArray" ;;
       ruleExists <- member rule "exists" ;;
       if truthy valueIsArray && mismatch ruleExists (Array_isArray foundValue)
       then Ret (Some checkInputObjectForTypesValueIsArrayFailed)
       else
         ruleType <- member rule "type" ;;
         if mismatch ruleExists
              (strict_eqb (JString (typeof_name (typeof foundValue))) ruleType)
         then Ret (Some checkInputObjectForTypesFailed)
         else checkTypes input rest)%exn
  end.

(** The loop over the key rules. *)
Fixpoint checkKeys (input : JsValue) (entries : list (string * JsValue))
  : Exn (option ErrorObjectErrorResult) :=
  match entries with
  | [] => Ret None
  | (key, rule) :: rest =>
      (let foundValue := findNestedValueForPath input key in
       ruleExists <- member rule "exists" ;;
       if mismatch ruleExists (truthy foundValue)
       then Ret (Some checkInputObjectForKeysFailed)
       else checkKeys input rest)%exn
  end.

(** One configured rule set: skipped when its key is not in the options,
    a failure when it is not of object type, else the loop over its
    entries. *)
Definition checkRuleSet (rules : option JsValue) (isNotAnObject_ : ErrorObjectErrorResult)
    (loop : list (string * JsValue) -> Exn (option ErrorObjectErrorResult))
  : Exn (option ErrorObjectErrorResult) :=
  match rules with
  | None => Ret None
  | Some r =>
      if negb (JsType_eqb (typeof r) TObject) then Ret (Some isNotAnObject_)
      else (entries <- Object_entries r ;; loop entries)%exn
  end.

(** The body of the [try] block of [checkInputForInitialObject]; [None] is
    falling out of the block without a [return]. *)
Definition checkInputForInitialObject_try (input : JsValue)
    (withOptions : option ErrorObjectBuildOptions) : Exn (option ErrorObjectErrorResult) :=
  (let options := orDefault withOptions in
   if is_nullish input then Ret (Some checkIsNullish)
   else if negb (JsType_eqb (typeof input) TObject) then Ret (Some checkIsNotAnObject)
   else
     r1 <- checkRuleSet (checkInputObjectForValues options)
             checkInputObjectForValuesIsNotAnObject (checkValues input) ;;
     match r1 with
     | Some e => Ret (Some e)
     | None =>
         r2 <- checkRuleSet (checkInputObjectForTypes options)
                 checkInputObjectForTypesIsNotAnObject (checkTypes input) ;;
         match r2 with
         | Some e => Ret (Some e)
         | None =>
             checkRuleSet (checkInputObjectForKeys options)
               checkInputObjectForKeysIsNotAnObject (checkKeys input)
         end
     end)%exn.

(** A throw inside the block is swallowed and the check passes. *)
Definition checkInputForInitialObject (input : JsValue)
    (withOptions : option ErrorObjectBuildOptions) : Exn (option ErrorObjectErrorResult) :=
  try_catch (checkInputForInitialObject_try input withOptions) (Ret None).

(* ===================================================================== *)
(** * src/index.ts: the result aggregator *)
(* ===================================================================== *)

Local Open Scope list_scope.

(** [x?.value] of an optional field triple. *)
Definition valueOf {V : Type} (x : option (PathValueAndTransform V)) : JsValue :=
  match x with
  | Some t => pvt_value t
  | None => JUndefined
  end.

(** [x !== undefined && x !== null && typeof x === 'string'] *)
Definition isPresentString (x : JsValue) : bool :=
  negb (is_nullish x) && JsType_eqb (typeof x) TString.

(** The callback of [summaries.filter]: whether the entry is kept, and the
    notes array after the pushes the callback made.  An entry is a failure
    reason (a string in the source) or a summary object, so the
    ['invalidSummary'] branch for entries of any other type has no case
    here. *)
Definition filterCallback (processingErrors : list ErrorObjectProcessingError)
    (entry : SummaryOrError) : bool * list ErrorObjectProcessingError :=
  match entry with
  | inl reason =>
      (false, processingErrors ++ [{| errorCode := reason; summary := None |}])
  | inr s =>
      let code_ := valueOf (code (value s)) in
      let message_ := valueOf (message (value s)) in
      if isPresentString code_ && isPresentString message_
      then (true, processingErrors)
      else (false, processingErrors
                     ++ [{| errorCode := unknownCodeOrMessage; summary := Some s |}])
  end.

(** [summaries.filter(callback)], the notes array threaded through the
    calls in order. *)
Fixpoint filterSummaries (processingErrors : list ErrorObjectProcessingError)
    (summaries : list SummaryOrError)
  : list ErrorSummary * list ErrorObjectProcessingError :=
  match summaries with
  | [] => ([], processingErrors)
  | entry :: rest =>
      let (keep, processingErrors') := filterCallback processingErrors entry in
      let (kept, final) := filterSummaries processingErrors' rest in
      match entry, keep with
      | inr s, true => (s :: kept, final)
      | _, _ => (kept, final)
      end
  end.

(** The callback of [.map]: the record of a kept summary, or [null].  All
    records share the one notes array, complete by the time [map] runs. *)
Definition mapCallback (processingErrors : list ErrorObjectProcessingError)
    (s : ErrorSummary) : option ErrorObject.t :=
  match valueOf (code (value s)), valueOf (message (value s)) with
  | JString code_, JString message_ =>
      Some (ErrorObject.new code_ message_
              (valueOf (numberCode (value s)))
              (valueOf (details (value s)))
              (valueOf (domain (value s)))
              s processingErrors)
  | _, _ => None
  end.

(** [.filter((s) => s !== null && s !== undefined && s instanceof ErrorObject)] *)
Fixpoint dropNulls {A : Type} (l : list (option A)) : list A :=
  match l with
  | [] => []
  | Some a :: rest => a :: dropNulls rest
  | None :: rest => dropNulls rest
  end.

Definition validErrorsOf (summaries : list SummaryOrError)
  : list ErrorObject.t * list ErrorObjectProcessingError :=
  let (kept, processingErrors) := filterSummaries [] summaries in
  (dropNulls (map (mapCallback processingErrors) kept), processingErrors).

Record FromResult : Type := {
  error : option ErrorObject.t;
  force : ErrorObject.t
}.

(** [processErrorObjectResult].  Nothing in its [try] block throws on the
    values of this model (the block filters and maps lists and calls the
    record's constructor and setters), so its [catch] is never entered
    and the function is written without it. *)
Definition processErrorObjectResult (summaries : list SummaryOrError) (raw : JsValue)
    (fallbackError : ErrorObject.t) : FromResult :=
  let (validErrors, processingErrors) := validErrorsOf summaries in
  match validErrors with
  | firstError :: nextErrors =>
      let error_ :=
        ErrorObject.setRaw
          (ErrorObject.setNextErrors firstError
             (if (0 <? List.length nextErrors)%nat then Some nextErrors else None))
          raw in
      {| error := Some error_; force := error_ |}
  | [] =>
      {| error := None;
         force := if (0 <? List.length processingErrors)%nat
                  then ErrorObject.setProcessingErrors fallbackError processingErrors
                  else fallbackError |}
  end.

(* ===================================================================== *)
(** * src/index.ts: the entry point *)
(* ===================================================================== *)

(** [{ ...base, ...over }] on the keys of the options. *)
Definition mergeOptions (base over : ErrorObjectBuildOptions) : ErrorObjectBuildOptions :=
  let pick {A : Type} (b o : option A) : option A :=
    match o with Some _ => o | None => b end in
  {| checkInputObjectForValues :=
       pick (checkInputObjectForValues base) (checkInputObjectForValues over);
     checkInputObjectForTypes :=
       pick (checkInputObjectForTypes base) (checkInputObjectForTypes over);
     checkInputObjectForKeys :=
       pick (checkInputObjectForKeys base) (checkInputObjectForKeys over);
     pathToErrors := pick (pathToErrors base) (pathToErrors over);
     pathToCode := pick (pathToCode base) (pathToCode over);
     pathToNumberCode := pick (pathToNumberCode base) (pathToNumberCode over);
     pathToMessage := pick (pathToMessage base) (pathToMessage over);
     pathToDetails := pick (pathToDetails base) (pathToDetails over);
     pathToDomain := pick (pathToDomain base) (pathToDomain over);
     transform := pick (transform base) (transform over) |}.

(** [{}] *)
Definition noOptions : ErrorObjectBuildOptions :=
  {| checkInputObjectForValues := None; checkInputObjectForTypes := None;
     checkInputObjectForKeys := None; pathToErrors := None; pathToCode := None;
     pathToNumberCode := None; pathToMessage := None; pathToDetails := None;
     pathToDomain := None; transform := None |}.

(** [{ ...DEFAULT_BUILD_OPTIONS, ...(withOptions ?? {}) }] *)
Definition mergedOptions (withOptions : option ErrorObjectBuildOptions)
  : ErrorObjectBuildOptions :=
  mergeOptions DEFAULT_BUILD_OPTIONS
    (match withOptions with Some o => o | None => noOptions end).

Section EntryPoint.

(** Modelled from the spec: [ErrorObject.fallback()] of the external
    package, the diagnostics-only record that is "always constructible
    even when no valid record exists".  The spec does not fix its code and
    message, so the record is a parameter of the entry point. *)
Variable ErrorObject_fallback : ErrorObject.t.

Definition from (value_ : JsValue) (withOptions : option ErrorObjectBuildOptions)
  : Exn FromResult :=
  (let options := mergedOptions withOptions in
   let fallbackError := ErrorObject.setRaw ErrorObject_fallback value_ in
   checksFailed <- checkInputForInitialObject value_ (Some options) ;;
   match checksFailed with
   | Some reason =>
       Ret {| error := None;
              force := ErrorObject.setProcessingErrors fallbackError
                         [{| errorCode := reason; summary := None |}] |}
   | None =>
       summaries <-
         match pathToErrors options with
         | Some _ => buildSummariesFromObject value_ (Some options)
         | None =>
             s <- buildSummaryFromObject value_ None false (Some options) ;;
             Ret [s]
         end ;;
       Ret (processErrorObjectResult summaries value_ fallbackError)
   end)%exn.

End EntryPoint.

(* ===================================================================== *)
(** * The words of the specification *)
(* ===================================================================== *)

(** Definitions that say what the specification says, to be compared with
    the functions above, and the sample payloads of the examples. *)

(** ** Paths *)

Fixpoint remove_all (c : ascii) (s : string) : string :=
  match s with
  | EmptyString => EmptyString
  | String x rest =>
      if Ascii.eqb x c then remove_all c rest else String x (remove_all c rest)
  end.

Fixpoint count_char (c : ascii) (s : string) : nat :=
  match s with
  | EmptyString => O
  | String x rest => ((if Ascii.eqb x c then 1 else 0) + count_char c rest)%nat
  end.

(** The path with every bracket character deleted. *)
Definition strip_brackets (p : string) : string :=
  remove_all "]" (remove_all "[" p).

(** A path made only of separators. *)
Fixpoint only_dots (p : string) : bool :=
  match p with
  | EmptyString => true
  | String x rest => Ascii.eqb x "." && only_dots rest
  end.

(** ** Field search *)

(** A resolved value a text field accepts: a string, an array or an
    object. *)
Definition acceptedAsText (found : JsValue) : bool :=
  match found with
  | JString _ | JArray _ | JObject _ => true
  | _ => false
  end.

(** What is kept of it: the string itself, or the JSON text. *)
Definition keptText (found : JsValue) : option string :=
  match found with
  | JString text => Some text
  | _ => JSON_stringify found
  end.

(** The first path of the list, in order, whose resolved value is
    accepted, with what is kept for it. *)
Definition firstAcceptedText (objectToParse : JsValue) (paths : list string)
  : option string * option string :=
  match find (fun p => acceptedAsText (findNestedValueForPath objectToParse p)) paths with
  | Some p => (Some p, keptText (findNestedValueForPath objectToParse p))
  | None => (None, None)
  end.

Definition acceptedAsNumber (found : JsValue) : option JsNumber :=
  match found with
  | JNumber n => if isNaN n then None else Some n
  | _ => None
  end.

Definition firstAcceptedNumber (objectToParse : JsValue) (paths : list string)
  : option string * option JsNumber :=
  match find (fun p => isSome (acceptedAsNumber (findNestedValueForPath objectToParse p)))
          paths with
  | Some p => (Some p, acceptedAsNumber (findNestedValueForPath objectToParse p))
  | None => (None, None)
  end.

(** ** Candidates *)

(** The object a candidate is read as: a string that decodes to an object
    is that object, anything else is itself. *)
Definition decoded (maybeObject : JsValue) : JsValue :=
  match maybeObject with
  | JString text =>
      match JSON_parse text with
      | Ret json =>
          if negb (is_nullish json) && JsType_eqb (typeof json) TObject
          then json else maybeObject
      | Throw => maybeObject
      end
  | _ => maybeObject
  end.

(** The candidates of a payload with their metadata: the elements of the
    array at the first path that resolves to an array, or the payload when
    that array is empty or there is no such path. *)
Definition candidatesOf (input : JsValue) (paths : list string)
  : list JsValue * option string * bool :=
  match find (fun p => Array_isArray (findNestedValueForPath input p)) paths with
  | Some p =>
      match findNestedValueForPath input p with
      | JArray (e :: es) => (e :: es, Some p, true)
      | _ => ([input], Some p, true)
      end
  | None => ([input], None, false)
  end.

(** The candidates when only a non-empty array is accepted and the search
    goes past an empty one. *)
Definition candidatesIfNonEmptyOnly (input : JsValue) (paths : list string)
  : list JsValue :=
  match find (fun p => match findNestedValueForPath input p with
                       | JArray (_ :: _) => true
                       | _ => false
                       end) paths with
  | Some p =>
      match findNestedValueForPath input p with
      | JArray es => es
      | _ => [input]
      end
  | None => [input]
  end.

(** ** Transform output *)

(** A text field of the transform result that is set (truthy) and is not a
    string. *)
Definition NotText (x : JsValue) : Prop :=
  truthy x = true /\ typeof x <> TString.

(** A number code that is set (neither undefined nor null) and is not a
    number. *)
Definition NotNumber (x : JsValue) : Prop :=
  is_nullish x = false /\ typeof x <> TNumber.

(** What a candidate that reached the transform ends as. *)
Definition outcome (objectToParse : JsValue) (errorsPath : option string)
    (didDetect : bool) (v : ValuesFromPaths) (values : JsValue) : SummaryOrError :=
  match transformResultFailure values with
  | Some failure => inl failure
  | None => inr (summaryOf objectToParse errorsPath didDetect v values)
  end.

(** The pre-transform Field State: the number code is absent or a number
    other than NaN, every other field is absent or a string. *)
Definition PreStateWellTyped (state : JsValue) : Prop :=
  (get state "numberCode" = JUndefined \/
   exists n, get state "numberCode" = JNumber n /\ isNaN n = false) /\
  (forall k, In k ["code"; "message"; "details"; "domain"] ->
     get state k = JUndefined \/ exists t, get state k = JString t).

(** The post-transform Field State of a summary: the number code is
    undefined, null or a number other than NaN, and every other field that
    is truthy is a string. *)
Definition PostStateWellTyped (s : ErrorSummary) : Prop :=
  let n := valueOf (numberCode (value s)) in
  (is_nullish n = true \/ exists x, n = JNumber x /\ isNaN x = false) /\
  (forall x, In x [valueOf (code (value s)); valueOf (message (value s));
                   valueOf (details (value s)); valueOf (domain (value s))] ->
     truthy x = true -> exists t, x = JString t).

(** ** Aggregation *)

Definition isText (x : JsValue) : bool :=
  match x with JString _ => true | _ => false end.

Definition textOf (x : JsValue) : string :=
  match x with JString t => t | _ => EmptyString end.

(** A valid summary: its post-transform code and message are both
    strings. *)
Definition validSummary (s : ErrorSummary) : bool :=
  isText (valueOf (code (value s))) && isText (valueOf (message (value s))).

(** The Final Record of a valid summary, carrying the notes of the batch. *)
Definition finalRecord (notes : list ErrorObjectProcessingError) (s : ErrorSummary)
  : ErrorObject.t :=
  ErrorObject.new (textOf (valueOf (code (value s)))) (textOf (valueOf (message (value s))))
    (valueOf (numberCode (value s))) (valueOf (details (value s)))
    (valueOf (domain (value s))) s notes.

(** What an entry of the batch contributes: a record ... *)
Definition recordsOf (notes : list ErrorObjectProcessingError) (entry : SummaryOrError)
  : list ErrorObject.t :=
  match entry with
  | inr s => if validSummary s then [finalRecord notes s] else []
  | inl _ => []
  end.

(** ... or a Processing Note. *)
Definition notesOf (entry : SummaryOrError) : list ErrorObjectProcessingError :=
  match entry with
  | inl reason => [{| errorCode := reason; summary := None |}]
  | inr s =>
      if validSummary s then []
      else [{| errorCode := unknownCodeOrMessage; summary := Some s |}]
  end.

Definition keptOf (entry : SummaryOrError) : list ErrorSummary :=
  match entry with
  | inr s => if validSummary s then [s] else []
  | inl _ => []
  end.

(** No entry of the batch is a valid summary. *)
Definition noneValid (summaries : list SummaryOrError) : bool :=
  forallb (fun entry => match entry with
                        | inr s => negb (validSummary s)
                        | inl _ => true
                        end) summaries.

(** ** Sample payloads and options *)

Definition exampleFallback : ErrorObject.t :=
  ErrorObject.mk "generic" "Something went wrong" JUndefined JUndefined JUndefined
    None None JUndefined None.

(** [{ code: '', message: 'm' }] *)
Definition emptyCodePayload : JsValue :=
  JObject [("code", JString EmptyString); ("message", JString "m")].

(** [{ errors: [], errs: [{ code: 'c', message: 'm' }] }] *)
Definition emptyCollectionPayload : JsValue :=
  JObject [("errors", JArray []);
           ("errs", JArray [JObject [("code", JString "c"); ("message", JString "m")]])].

(** [{ a: [{ b: 'x' }] }] *)
Definition nestedPayload : JsValue :=
  JObject [("a", JArray [JObject [("b", JString "x")]])].

(** [{ code: 42, err_code: 'E' }] *)
Definition numericCodePayload : JsValue :=
  JObject [("code", JNumber (Dec 42 0)); ("err_code", JString "E")].

(** What the field extractor finds in it with the default paths. *)
Definition numericCodeValues : ValuesFromPaths :=
  {| codeBeforeTransform := Some "E"; codePath := Some "err_code";
     numberCodeBeforeTransform := None; numberCodePath := None;
     messageBeforeTransform := None; messagePath := None;
     detailsBeforeTransform := None; detailsPath := None;
     domainBeforeTransform := None; domainPath := None |}.

(** What it finds in [{}]. *)
Definition noValues : ValuesFromPaths :=
  {| codeBeforeTransform := None; codePath := None;
     numberCodeBeforeTransform := None; numberCodePath := None;
     messageBeforeTransform := None; messagePath := None;
     detailsBeforeTransform := None; detailsPath := None;
     domainBeforeTransform := None; domainPath := None |}.

(** [{ numberCode: Infinity }] *)
Definition infinitePayload : JsValue :=
  JObject [("numberCode", JNumber (Infinity false))].

(** The default options with [transform: f]. *)
Definition onlyTransform (f : JsValue -> JsValue -> Exn JsValue) : ErrorObjectBuildOptions :=
  mergeOptions DEFAULT_BUILD_OPTIONS
    {| checkInputObjectForValues := None; checkInputObjectForTypes := None;
       checkInputObjectForKeys := None; pathToErrors := None; pathToCode := None;
       pathToNumberCode := None; pathToMessage := None; pathToDetails := None;
       pathToDomain := None; transform := Some (Function f) |}.

(** [() => ({ code: 'c', message: 'm', numberCode: Infinity })] *)
Definition infiniteNumberCode (_ _ : JsValue) : Exn JsValue :=
  Ret (JObject [("code", JString "c"); ("message", JString "m");
                ("numberCode", JNumber (Infinity false))]).

(** [() => ({ code: 5 })] *)
Definition numericCode (_ _ : JsValue) : Exn JsValue :=
  Ret (JObject [("code", JNumber (Dec 5 0))]).

(** Scenario B of the specification: a GraphQL error array. *)
Definition graphqlError (msg code_ : string) : JsValue :=
  JObject [("message", JString msg); ("extensions", JObject [("code", JString code_)])].

Definition graphqlPayload : JsValue :=
  JObject [("errors", JArray [graphqlError "m1" "C1"; graphqlError "m2" "C2"])].

Definition graphqlOptions : ErrorObjectBuildOptions :=
  {| checkInputObjectForValues := None; checkInputObjectForTypes := None;
     checkInputObjectForKeys := None; pathToErrors := None;
     pathToCode := Some (JArray [JString "extensions.code"]);
     pathToNumberCode := None;
     pathToMessage := Some (JArray [JString "message"]);
     pathToDetails := None; pathToDomain := None; transform := None |}.

Definition graphqlSummary (msg code_ : string) : ErrorSummary :=
  {| didDetectErrorsArray := Some true;
     input := graphqlError msg code_;
     path := Some "errors";
     value := {|
       code := Some {| pvt_path := Some "extensions.code";
                       pvt_beforeTransform := Some code_;
                       pvt_value := JString code_ |};
       numberCode := None;
       message := Some {| pvt_path := Some "message";
                          pvt_beforeTransform := Some msg;
                          pvt_value := JString msg |};
       details := None;
       domain := None |} |}.

(* ===================================================================== *)
(** * src/index.ts: the class [ErrorObjectFromPayload] *)
(* ===================================================================== *)

(** [key in obj]: a [TypeError] when [obj] is not an object.  Own
    properties only: the constructor asks for [code] and [message], which
    no prototype of a plain object or array has. *)
Definition has_property (key : string) (obj : JsValue) : Exn bool :=
  match obj with
  | JObject fields => Ret (isSome (lookup fields key))
  | JArray elements =>
      Ret (match array_index key with
           | Some i => (i <? List.length elements)%nat
           | None => String.eqb key "length"
           end)
  | _ => Throw
  end.

Module ErrorObjectFromPayload.

(** The object literal the [.map] callback of the static
    [processErrorObjectResult] returns; [raw] is
    [{ value, processingErrors, summary }]. *)
Record ValidError : Type := {
  ve_code : string;
  ve_message : string;
  ve_numberCode : JsValue;
  ve_details : JsValue;
  ve_domain : JsValue;
  ve_raw_value : JsValue;
  ve_raw_processingErrors : list ErrorObjectProcessingError;
  ve_raw_summary : ErrorSummary
}.

(** What the constructor is given: a payload, or one of the valid errors
    of the payload it was first called on. *)
Inductive Props : Type :=
| Payload (props : JsValue)
| Valid (props : ValidError).

(** The superclass [ErrorObject] belongs to the package
    [@smbcheeky/error-object], not to this repository: an instance is
    described by the call of the superclass constructor it is built with,
    which is taken to return.  The calls are [super(props)]; the ['INT-1']
    and ['INT-2'] records; the generic record with the fallback tag and
    [raw: { processingErrors, summary }]; the first valid error with
    [raw: { processingErrors, summary, value }]. *)
Inductive SuperCall : Type :=
| SuperProps (props : Props)
| SuperInternal (code : string)
| SuperFallback (processingErrors : option (list ErrorObjectProcessingError))
                (summary : option (list SummaryOrError))
| SuperFirstError (firstError : ValidError)
                  (processingErrors : list ErrorObjectProcessingError)
                  (summary : list SummaryOrError) (value : JsValue).

(** An instance: its super call and [this.nextErrors]. *)
Inductive t : Type :=
  mk (superCall : SuperCall) (nextErrors : option (list t)).

Definition superCall (e : t) : SuperCall := let (s, _) := e in s.
Definition nextErrors (e : t) : option (list t) := let (_, n) := e in n.

(** The static [checkInputForInitialObject]: statement by statement the
    [try] block of the function of the same name, without the [try]. *)
Definition checkInputForInitialObject (input : JsValue)
    (withOptions : option ErrorObjectBuildOptions) : Exn (option ErrorObjectErrorResult) :=
  checkInputForInitialObject_try input withOptions.

(** The callback of [.map] in the static [processErrorObjectResult]. *)
Definition mapCallback (props : JsValue)
    (processingErrors : list ErrorObjectProcessingError) (s : ErrorSummary)
  : option ValidError :=
  match valueOf (code (value s)), valueOf (message (value s)) with
  | JString code_, JString message_ =>
      Some {| ve_code := code_;
              ve_message := message_;
              ve_numberCode := valueOf (numberCode (value s));
              ve_details := valueOf (details (value s));
              ve_domain := valueOf (domain (value s));
              ve_raw_value := props;
              ve_raw_processingErrors := processingErrors;
              ve_raw_summary := s |}
  | _, _ => None
  end.

Record Processed : Type := {
  validErrors : list ValidError;
  summaries : list SummaryOrError;
  processingErrors : list ErrorObjectProcessingError
}.

(** The static [processErrorObjectResult]; its [.filter] callback is the
    one of the function of the same name. *)
Definition processErrorObjectResult (props : JsValue) (options : ErrorObjectBuildOptions)
  : Exn Processed :=
  (summaries_ <-
     match pathToErrors options with
     | Some _ => buildSummariesFromObject props (Some options)
     | None =>
         s <- buildSummaryFromObject props None false (Some options) ;;
         Ret [s]
     end ;;
   let (kept, processingErrors_) := filterSummaries [] summaries_ in
   Ret {| validErrors := dropNulls (map (mapCallback props processingErrors_) kept);
          summaries := summaries_;
          processingErrors := processingErrors_ |})%exn.

(** The test of the constructor's first [if]. *)
Definition hasCodeAndMessage (props : JsValue) : Exn bool :=
  (inCode <- has_property "code" props ;;
   if inCode && negb (is_nullish (get props "code"))
      && JsType_eqb (typeof (get props "code")) TString
   then
     inMessage <- has_property "message" props ;;
     Ret (inMessage && negb (is_nullish (get props "message"))
          && JsType_eqb (typeof (get props "message")) TString)
   else Ret false)%exn.

(** [new ErrorObjectFromPayload(p)] for a valid error [p]: its [code] and
    [message] are strings, so the first branch is taken. *)
Definition constructorOfValid (p : ValidError) : t := mk (SuperProps (Valid p)) None.

(** [new ErrorObjectFromPayload(props, withOptions)] for a payload. *)
Definition constructor (props : JsValue) (withOptions : option ErrorObjectBuildOptions)
  : Exn t :=
  (direct <- hasCodeAndMessage props ;;
   if direct then Ret (mk (SuperProps (Payload props)) None)
   else
     let options := mergedOptions withOptions in
     match checkInputForInitialObject props (Some options) with
     | Throw => Ret (mk (SuperInternal "INT-1") None)
     | Ret (Some checksFailed) =>
         Ret (mk (SuperFallback (Some [{| errorCode := checksFailed; summary := None |}])
                                None)
                 None)
     | Ret None =>
         try_catch
           (r <- processErrorObjectResult props options ;;
            match validErrors r with
            | firstError :: rawNextErrors =>
                Ret (mk (SuperFirstError firstError (processingErrors r) (summaries r) props)
                        (if (0 <? List.length rawNextErrors)%nat
                         then Some (map constructorOfValid rawNextErrors)
                         else None))
            | [] =>
                Ret (mk (SuperFallback
                           (if (0 <? List.length (processingErrors r))%nat
                            then Some (processingErrors r) else None)
                           (Some (summaries r)))
                        None)
            end)
           (Ret (mk (SuperInternal "INT-2") None))
     end)%exn.

End ErrorObjectFromPayload.

(* ===================================================================== *)
(** * More words of the specification *)
(* ===================================================================== *)

(** ** Paths *)

(** The path holds no bracket. *)
Definition bracketFree (p : string) : bool :=
  (count_char "[" p =? 0)%nat && (count_char "]" p =? 0)%nat.

(** A segment the resolver does not skip. *)
Definition nonEmptySegment (seg : string) : bool := negb (is_empty seg).

(** A path that is one plain key: not empty, no separator, no bracket, and
    not the text of a number. *)
Definition plainKey (k : string) : bool :=
  negb (is_empty k) && bracketFree k && (count_char "." k =? 0)%nat && isNaN (Number k).

(** A decimal numeral: digits only, at least one. *)
Fixpoint allDigits (k : string) : bool :=
  match k with
  | EmptyString => true
  | String c rest => is_digit c && allDigits rest
  end.

Definition isNumeral (k : string) : bool := negb (is_empty k) && allDigits k.

(** The number a numeral denotes, leading zeros included. *)
Fixpoint numeralFrom (acc : Z) (k : string) : Z :=
  match k with
  | EmptyString => acc
  | String c rest => numeralFrom (10 * acc + digit_value c) rest
  end.

Definition numeralValue (k : string) : Z := numeralFrom 0 k.

(** [`${prefix}.${s}`] *)
Definition prefixed (prefix s : string) : string := (prefix ++ "." ++ s)%string.

(** ** Field extraction *)

(** [typeof x === 'string'] *)
Definition isString (x : JsValue) : bool :=
  match x with JString _ => true | _ => false end.

(** The reasons the searches after the one for the code can fail with. *)
Definition laterFieldReasons : list ErrorObjectErrorResult :=
  [pathToNumberCodeIsInvalid; pathToNumberCodeIsNotAnArray; pathToNumberCodeValuesAreNotStrings;
   pathToMessageIsInvalid; pathToMessageIsNotAnArray; pathToMessageValuesAreNotStrings;
   pathToDetailsIsInvalid; pathToDetailsIsNotAnArray; pathToDetailsValuesAreNotStrings;
   pathToDomainIsInvalid; pathToDomainIsNotAnArray; pathToDomainValuesAreNotStrings].

(** The entries of a path list of the options. *)
Definition defaultPaths (o : option JsValue) : list JsValue :=
  match o with Some (JArray l) => l | _ => [] end.

(** ... as the strings they are. *)
Definition stringsOf (l : list JsValue) : list string :=
  map textOf l.

(** The five path lists of the default options. *)
Definition defaultCodePaths : list string :=
  stringsOf (defaultPaths (pathToCode DEFAULT_BUILD_OPTIONS)).
Definition defaultNumberCodePaths : list string :=
  stringsOf (defaultPaths (pathToNumberCode DEFAULT_BUILD_OPTIONS)).
Definition defaultMessagePaths : list string :=
  stringsOf (defaultPaths (pathToMessage DEFAULT_BUILD_OPTIONS)).
Definition defaultDetailsPaths : list string :=
  stringsOf (defaultPaths (pathToDetails DEFAULT_BUILD_OPTIONS)).
Definition defaultDomainPaths : list string :=
  stringsOf (defaultPaths (pathToDomain DEFAULT_BUILD_OPTIONS)).

(** What the field extractor finds with the default paths. *)
Definition defaultValues (obj : JsValue) : ValuesFromPaths :=
  {| codeBeforeTransform := snd (firstAcceptedText obj defaultCodePaths);
     codePath := fst (firstAcceptedText obj defaultCodePaths);
     numberCodeBeforeTransform := snd (firstAcceptedNumber obj defaultNumberCodePaths);
     numberCodePath := fst (firstAcceptedNumber obj defaultNumberCodePaths);
     messageBeforeTransform := snd (firstAcceptedText obj defaultMessagePaths);
     messagePath := fst (firstAcceptedText obj defaultMessagePaths);
     detailsBeforeTransform := snd (firstAcceptedText obj defaultDetailsPaths);
     detailsPath := fst (firstAcceptedText obj defaultDetailsPaths);
     domainBeforeTransform := snd (firstAcceptedText obj defaultDomainPaths);
     domainPath := fst (firstAcceptedText obj defaultDomainPaths) |}.

(** The code after the default transform: the code found, else the text of
    the number code found. *)
Definition defaultCode (v : ValuesFromPaths) : JsValue :=
  match codeBeforeTransform v, numberCodeBeforeTransform v with
  | Some c, _ => JString c
  | None, Some n => JString (Number_toString n)
  | None, None => JUndefined
  end.

(** The Field State the default transform returns. *)
Definition defaultTransformed (v : ValuesFromPaths) : JsValue :=
  JObject [("code", defaultCode v);
           ("numberCode", optNumber (numberCodeBeforeTransform v));
           ("message", optString (messageBeforeTransform v));
           ("details", optString (detailsBeforeTransform v));
           ("domain", optString (domainBeforeTransform v))].

(** The text of the code a record gets under the default options. *)
Definition defaultCodeText (v : ValuesFromPaths) : string :=
  textOf (defaultCode v).

(** A path and a text are found together or not at all, and a path that
    is found is not empty. *)
Definition FoundTogether (path text : option string) : Prop :=
  (path = None /\ text = None) \/
  (exists p t, path = Some p /\ text = Some t /\ is_empty p = false).

(** ** Decoded candidates *)




(** ** Validation *)

(** The reason the validator gives for a payload that is not an object. *)
Definition nullishOrPrimitiveReason (payload : JsValue) : ErrorObjectErrorResult :=
  if is_nullish payload then checkIsNullish else checkIsNotAnObject.

(** The rules of a rule set: none when the set is not configured. *)
Definition ruleEntries (rules : option JsValue) : list (string * JsValue) :=
  match rules with
  | Some (JObject entries) => entries
  | _ => []
  end.

(** A rule set is well formed when it is not configured, or is an object
    whose rules are neither [undefined] nor [null]. *)
Definition wellFormedRules (rules : option JsValue) : bool :=
  match rules with
  | None => true
  | Some (JObject entries) => forallb (fun e => negb (is_nullish (snd e))) entries
  | Some _ => false
  end.

(** A value rule, a type rule and a key rule that the payload fails. *)
Definition valueRuleFails (input : JsValue) (e : string * JsValue) : bool :=
  mismatch (get (snd e) "exists")
           (strict_eqb (findNestedValueForPath input (fst e)) (get (snd e) "value")).

Definition typeRuleFailure (input : JsValue) (e : string * JsValue)
  : option ErrorObjectErrorResult :=
  let found := findNestedValueForPath input (fst e) in
  if truthy (get (snd e) "valueIsArray")
     && mismatch (get (snd e) "exists") (Array_isArray found)
  then Some checkInputObjectForTypesValueIsArrayFailed
  else if mismatch (get (snd e) "exists")
            (strict_eqb (JString (typeof_name (typeof found))) (get (snd e) "type"))
  then Some checkInputObjectForTypesFailed
  else None.

Definition keyRuleFails (input : JsValue) (e : string * JsValue) : bool :=
  mismatch (get (snd e) "exists") (truthy (findNestedValueForPath input (fst e))).

(** The first failure of a list of rules. *)
Fixpoint firstFailure {A : Type} (f : A -> option ErrorObjectErrorResult) (l : list A)
  : option ErrorObjectErrorResult :=
  match l with
  | [] => None
  | x :: rest => match f x with Some e => Some e | None => firstFailure f rest end
  end.

(** The verdict in the words of the documentation: the value rules, then
    the type rules, then the key rules; the first rule that fails names
    the reason. *)
Definition verdict (input : JsValue) (options : ErrorObjectBuildOptions)
  : option ErrorObjectErrorResult :=
  if existsb (valueRuleFails input) (ruleEntries (checkInputObjectForValues options))
  then Some checkInputObjectForValuesFailed
  else match firstFailure (typeRuleFailure input)
               (ruleEntries (checkInputObjectForTypes options)) with
       | Some e => Some e
       | None =>
           if existsb (keyRuleFails input) (ruleEntries (checkInputObjectForKeys options))
           then Some checkInputObjectForKeysFailed
           else None
       end.

(** ** Reasons *)

(** The reasons of [ErrorObjectErrorResult] that no call of the entry
    point reports. *)
Definition unreported (reason : ErrorObjectErrorResult) : bool :=
  match reason with
  | isNullish | isNotAnObject | isNotAnArray
  | pathToCodeIsInvalid | pathToNumberCodeIsInvalid | pathToMessageIsInvalid
  | pathToDetailsIsInvalid | pathToDomainIsInvalid
  | generalBuildSummariesFromObjectError | generalCheckInputObjectForValuesError
  | invalidSummary => true
  | _ => false
  end.

(** Every field's path list is configured. *)
Definition pathsConfigured (options : ErrorObjectBuildOptions) : bool :=
  isSome (pathToCode options) && isSome (pathToNumberCode options)
  && isSome (pathToMessage options) && isSome (pathToDetails options)
  && isSome (pathToDomain options).

(** An entry of a batch that is a summary, or a reason that is reported. *)
Definition reported (entry : SummaryOrError) : Prop :=
  match entry with
  | inl e => unreported e = false
  | inr _ => True
  end.

(** ** The class and the entry point *)



(** ** More sample payloads and options *)

(** [{ '01': 'padded', '1': 'canonical' }] *)
Definition paddedKeys : JsValue :=
  JObject [("01", JString "padded"); ("1", JString "canonical")].



(** [{ response: { error: { code: 'E1', message: 'boom' } } }] *)
Definition wrappedError : JsValue :=
  JObject [("response",
            JObject [("error", JObject [("code", JString "E1");
                                        ("message", JString "boom")])])].

(** [{ code: 'E1', message: 'boom' }] *)
Definition plainError : JsValue :=
  JObject [("code", JString "E1"); ("message", JString "boom")].

(** The default options with [pathToCode: ['code', 5]]. *)
Definition lazyOptions : ErrorObjectBuildOptions :=
  mergeOptions DEFAULT_BUILD_OPTIONS
    {| checkInputObjectForValues := None; checkInputObjectForTypes := None;
       checkInputObjectForKeys := None; pathToErrors := None;
       pathToCode := Some (JArray [JString "code"; JNumber (Dec 5 0)]);
       pathToNumberCode := None; pathToMessage := None; pathToDetails := None;
       pathToDomain := None; transform := None |}.

(** [{ errors: [{ code: 'E1', message: 'boom' }] }] *)
Definition singleErrorPayload : JsValue :=
  JObject [("errors", JArray [plainError])].

(** [() => { throw new Error() }] *)
Definition throwingTransform (_ _ : JsValue) : Exn JsValue := Throw.

(** [{ checkInputObjectForKeys: { code: { exists: true } } }], and the same
    with [checkInputObjectForValues: null]. *)
Definition codeKeyRule : ErrorObjectBuildOptions :=
  {| checkInputObjectForValues := None; checkInputObjectForTypes := None;
     checkInputObjectForKeys :=
       Some (JObject [("code", JObject [("exists", JBool true)])]);
     pathToErrors := None; pathToCode := None; pathToNumberCode := None;
     pathToMessage := None; pathToDetails := None; pathToDomain := None;
     transform := None |}.

Definition nullValueRules : ErrorObjectBuildOptions :=
  {| checkInputObjectForValues := Some JNull; checkInputObjectForTypes := None;
     checkInputObjectForKeys :=
       Some (JObject [("code", JObject [("exists", JBool true)])]);
     pathToErrors := None; pathToCode := None; pathToNumberCode := None;
     pathToMessage := None; pathToDetails := None; pathToDomain := None;
     transform := None |}.

(* ===================================================================== *)
(** * The path resolver *)
(* ===================================================================== *)

Unset Implicit Arguments.
Local Open Scope string_scope.

Lemma replace_absent c s : count_char c s = O -> String_replace s c EmptyString = s.
Proof.
  induction s as [|x s IH]; simpl; [reflexivity|].
  destruct (Ascii.eqb x c); simpl; [discriminate|].
  intros H. now rewrite IH.
Qed.

Lemma remove_all_absent c s : count_char c s = O -> remove_all c s = s.
Proof.
  induction s as [|x s IH]; simpl; [reflexivity|].
  destruct (Ascii.eqb x c); simpl; [discriminate|].
  intros H. now rewrite IH.
Qed.

(** [replace] deletes one occurrence; with at most one there, that is all
    of them. *)
Lemma replace_once c s :
  (count_char c s <= 1)%nat -> String_replace s c EmptyString = remove_all c s.
Proof.
  induction s as [|x s IH]; simpl; [reflexivity|].
  destruct (Ascii.eqb x c); simpl; intros H.
  - symmetry. apply remove_all_absent. lia.
  - now rewrite IH.
Qed.

Lemma count_remove_all c s : count_char c (remove_all c s) = O.
Proof.
  induction s as [|x s IH]; simpl; [reflexivity|].
  destruct (Ascii.eqb x c) eqn:E; simpl; [assumption|].
  now rewrite E.
Qed.

Lemma count_remove_other c d s :
  (count_char c (remove_all d s) <= count_char c s)%nat.
Proof.
  induction s as [|x s IH]; simpl; [lia|].
  destruct (Ascii.eqb x d); simpl; lia.
Qed.

Lemma count_remove_other_zero c d s :
  count_char c s = O -> count_char c (remove_all d s) = O.
Proof. pose proof (count_remove_other c d s). lia. Qed.

Lemma normalized_once p :
  (count_char "[" p <= 1)%nat -> (count_char "]" p <= 1)%nat ->
  String_replace (String_replace p "[" EmptyString) "]" EmptyString = strip_brackets p.
Proof.
  intros H1 H2. unfold strip_brackets.
  rewrite (replace_once _ _ H1).
  apply replace_once.
  pose proof (count_remove_other "]" "[" p). lia.
Qed.

Lemma normalized_stripped p :
  String_replace (String_replace (strip_brackets p) "[" EmptyString) "]" EmptyString
  = strip_brackets p.
Proof.
  unfold strip_brackets.
  rewrite (replace_absent "[").
  - apply replace_absent. apply count_remove_all.
  - apply count_remove_other_zero. apply count_remove_all.
Qed.

Lemma strip_brackets_empty p : is_empty p = true -> is_empty (strip_brackets p) = true.
Proof. destruct p; [reflexivity|discriminate]. Qed.

Lemma findNested_brackets v p :
  (count_char "[" p <= 1)%nat -> (count_char "]" p <= 1)%nat ->
  findNestedValueForPath v p = findNestedValueForPath v (strip_brackets p).
Proof.
  intros H1 H2. unfold findNestedValueForPath.
  rewrite normalized_stripped, (normalized_once _ H1 H2).
  destruct (is_empty p) eqn:Ep.
  - now rewrite (strip_brackets_empty _ Ep).
  - simpl. destruct (truthy v); simpl.
    + destruct (is_empty (strip_brackets p)); reflexivity.
    + now rewrite orb_true_r.
Qed.

(** C4 (amended): the first "[" and the first "]" of a path are deleted
    before it is split, and nothing is put in their place.  For every value
    and every path with at most one of each bracket, the path resolves as
    the path without its brackets does; so [a[0].b] resolves as [a0.b], and
    it is [a.[0].b] that resolves as [a.0.b]. *)
Theorem C4_brackets_deleted_without_separator :
  (forall v p,
     (count_char "[" p <= 1)%nat -> (count_char "]" p <= 1)%nat ->
     findNestedValueForPath v p = findNestedValueForPath v (strip_brackets p)) /\
  strip_brackets "a[0].b" = "a0.b" /\
  strip_brackets "a.[0].b" = "a.0.b".
Proof. split; [exact findNested_brackets|split; reflexivity]. Qed.

Lemma C4_witness :
  (count_char "[" "a.[0].b" <= 1)%nat /\ (count_char "]" "a.[0].b" <= 1)%nat /\
  findNestedValueForPath nestedPayload "a.[0].b"
    = findNestedValueForPath nestedPayload (strip_brackets "a.[0].b").
Proof.
  split; [cbn; lia|]. split; [cbn; lia|].
  apply (proj1 C4_brackets_deleted_without_separator); cbn; lia.
Defined.

(** C4 as stated fails: on [{ a: [{ b: 'x' }] }] the dotted path finds
    ['x'] and the bracketed path, read as [a0.b], finds nothing. *)
Lemma C4_bracket_path_differs :
  findNestedValueForPath nestedPayload "a[0].b" = JUndefined /\
  findNestedValueForPath nestedPayload "a.0.b" = JString "x".
Proof. split; reflexivity. Qed.

Lemma split_not_nil c s : String_split c s <> [].
Proof.
  destruct s as [|x s]; simpl; [discriminate|].
  destruct (Ascii.eqb x c); [discriminate|].
  destruct (String_split c s); discriminate.
Qed.

Lemma split_app_sep c p q :
  String_split c (p ++ String c q) = (String_split c p ++ String_split c q)%list.
Proof.
  induction p as [|x p IH]; simpl.
  - now rewrite Ascii.eqb_refl.
  - destruct (Ascii.eqb x c); [now rewrite IH|].
    rewrite IH. pose proof (split_not_nil c p) as Hn.
    destruct (String_split c p); [contradiction|reflexivity].
Qed.

Lemma replace_cons_other x s c r :
  Ascii.eqb x c = false ->
  String_replace (String x s) c r = String x (String_replace s c r).
Proof. intros H. cbn [String_replace]. now rewrite H. Qed.

(** Deleting the first [c] (not a dot) acts on the two sides of a dot the
    same way whether the dot is doubled or not. *)
Lemma replace_around_dot c p q :
  Ascii.eqb "." c = false ->
  exists P Q,
    String_replace (p ++ String "." (String "." q)) c EmptyString
      = P ++ String "." (String "." Q) /\
    String_replace (p ++ String "." q) c EmptyString = P ++ String "." Q.
Proof.
  intros Hc. induction p as [|x p IH]; cbn [append].
  - rewrite !(replace_cons_other _ _ _ _ Hc).
    exists EmptyString, (String_replace q c EmptyString). split; reflexivity.
  - cbn [String_replace]. destruct (Ascii.eqb x c).
    + exists p, q. split; reflexivity.
    + destruct IH as (P & Q & H1 & H2).
      exists (String x P), Q. rewrite H1, H2. split; reflexivity.
Qed.

Lemma normalized_around_dot p q :
  exists P Q,
    String_replace (String_replace (p ++ String "." (String "." q)) "[" EmptyString)
        "]" EmptyString = P ++ String "." (String "." Q) /\
    String_replace (String_replace (p ++ String "." q) "[" EmptyString)
        "]" EmptyString = P ++ String "." Q.
Proof.
  destruct (replace_around_dot "[" p q eq_refl) as (P1 & Q1 & H1 & H2).
  destruct (replace_around_dot "]" P1 Q1 eq_refl) as (P2 & Q2 & H3 & H4).
  exists P2, Q2. rewrite H1, H2. split; assumption.
Qed.

Lemma is_empty_app_dot p q : is_empty (p ++ String "." q) = false.
Proof. destruct p; reflexivity. Qed.

Lemma findNested_double_dot v p q :
  findNestedValueForPath v (p ++ String "." (String "." q))
  = findNestedValueForPath v (p ++ String "." q).
Proof.
  unfold findNestedValueForPath.
  destruct (normalized_around_dot p q) as (P & Q & H1 & H2).
  rewrite H1, H2, !is_empty_app_dot. simpl.
  destruct (truthy v); simpl; [|reflexivity].
  rewrite (split_app_sep "." P (String "." Q)), (split_app_sep "." P Q), !fold_left_app.
  change (String_split "." (String "." Q)) with (EmptyString :: String_split "." Q).
  reflexivity.
Qed.

Lemma only_dots_count c p :
  Ascii.eqb "." c = false -> only_dots p = true -> count_char c p = O.
Proof.
  intros Hc. induction p as [|x p IH]; cbn [only_dots count_char]; [reflexivity|].
  destruct (Ascii.eqb_spec x "."); cbn [andb]; [|discriminate].
  subst x. rewrite Hc. auto.
Qed.

Lemma fold_only_dots v p :
  only_dots p = true -> fold_left resolveSegment (String_split "." p) v = v.
Proof.
  induction p as [|x p IH]; simpl; [reflexivity|].
  destruct (Ascii.eqb x "."); simpl; [|discriminate].
  exact IH.
Qed.

Lemma findNested_only_dots v p :
  only_dots p = true -> p <> EmptyString ->
  findNestedValueForPath v p = if truthy v then v else JUndefined.
Proof.
  intros Hd Hne. unfold findNestedValueForPath.
  rewrite (replace_absent "[" p) by (now apply only_dots_count).
  rewrite (replace_absent "]" p) by (now apply only_dots_count).
  destruct p as [|x p]; [contradiction|]. simpl is_empty. simpl.
  destruct (truthy v); simpl; [|reflexivity].
  now apply (fold_only_dots v (String x p)).
Qed.

(** C10 (amended): for every truthy value v and every non-empty path made
    only of separators, the resolver returns v itself; for a falsy v
    (undefined, null, false, 0, NaN, the empty string) it returns
    undefined whatever the path.  Empty segments are skipped: for every v a
    doubled separator resolves as a single one, so [a..b] resolves as
    [a.b]. *)
Theorem C10_empty_segments_are_skipped :
  (forall v p,
     only_dots p = true -> p <> EmptyString -> truthy v = true ->
     findNestedValueForPath v p = v) /\
  (forall v p,
     truthy v = false -> findNestedValueForPath v p = JUndefined) /\
  (forall v p q,
     findNestedValueForPath v (p ++ String "." (String "." q))
     = findNestedValueForPath v (p ++ String "." q)) /\
  (forall v, findNestedValueForPath v "a..b" = findNestedValueForPath v "a.b").
Proof.
  repeat apply conj.
  - intros v p Hd Hne Hv. rewrite (findNested_only_dots v p Hd Hne). now rewrite Hv.
  - intros v p Hv. unfold findNestedValueForPath. rewrite Hv. cbn. now rewrite orb_true_r.
  - exact findNested_double_dot.
  - intros v. exact (findNested_double_dot v "a" "b").
Qed.

Lemma C10_witness :
  only_dots ".." = true /\ truthy nestedPayload = true /\
  findNestedValueForPath nestedPayload ".." = nestedPayload.
Proof.
  split; [reflexivity|]. split; [reflexivity|].
  apply (proj1 C10_empty_segments_are_skipped); [reflexivity|discriminate|reflexivity].
Defined.

(** C10 as stated fails: resolving the path [.] against [false], or
    against [0], returns undefined and not the value. *)
Lemma C10_falsy_value_is_lost :
  findNestedValueForPath (JBool false) "." = JUndefined /\
  findNestedValueForPath (JNumber (Dec 0 0)) "." = JUndefined /\
  only_dots "." = true.
Proof. repeat split. Qed.

(* ===================================================================== *)
(** * The field extractor *)
(* ===================================================================== *)

Lemma stringFromPaths_first e obj paths :
  stringFromPaths e obj (map JString paths) = inr (firstAcceptedText obj paths).
Proof.
  unfold firstAcceptedText.
  induction paths as [|p paths IH]; [reflexivity|].
  cbn [map stringFromPaths find].
  destruct (findNestedValueForPath obj p) as [| |b|n|t|l|fs] eqn:E;
    cbn; rewrite ?E; try exact IH; reflexivity.
Qed.

Lemma numberFromPaths_first obj paths :
  numberFromPaths obj (map JString paths) = inr (firstAcceptedNumber obj paths).
Proof.
  unfold firstAcceptedNumber.
  induction paths as [|p paths IH]; [reflexivity|].
  cbn [map numberFromPaths find].
  destruct (findNestedValueForPath obj p) as [| |b|n|t|l|fs] eqn:E; cbn; try exact IH.
  destruct (isNaN n) eqn:En; cbn; [exact IH|].
  rewrite E. cbn. now rewrite En.
Qed.

Lemma numberFromPaths_notNaN obj paths p n :
  numberFromPaths obj paths = inr (p, Some n) -> isNaN n = false.
Proof.
  induction paths as [|x paths IH]; cbn; [discriminate|].
  destruct x; try discriminate.
  destruct (findNestedValueForPath obj s) as [| |b|k|t|l|fs]; try exact IH.
  destruct (isNaN k) eqn:Ek; cbn; [exact IH|].
  intros H. injection H as _ <-. exact Ek.
Qed.

Lemma withPaths_inr A (o : option JsValue) e1 e2
    (loop : list JsValue -> ErrorObjectErrorResult + A) r :
  withPaths o e1 e2 loop = inr r -> exists paths, o = Some (JArray paths) /\ loop paths = inr r.
Proof.
  unfold withPaths. destruct o as [[]|]; try discriminate. eauto.
Qed.

Lemma withPaths_strings A (o : option JsValue) e1 e2
    (loop : list JsValue -> ErrorObjectErrorResult + A) ps :
  o = Some (JArray (map JString ps)) -> withPaths o e1 e2 loop = loop (map JString ps).
Proof. intros ->. reflexivity. Qed.

(** A successful extraction is the five searches, each successful. *)
Lemma process_inr obj options r :
  __processAllValuesFromPaths obj options = inr r ->
  withPaths (pathToCode options) pathToCodeIsInvalid pathToCodeIsNotAnArray
    (stringFromPaths pathToCodeValuesAreNotStrings obj)
    = inr (codePath r, codeBeforeTransform r) /\
  withPaths (pathToNumberCode options) pathToNumberCodeIsInvalid pathToNumberCodeIsNotAnArray
    (numberFromPaths obj)
    = inr (numberCodePath r, numberCodeBeforeTransform r) /\
  withPaths (pathToMessage options) pathToMessageIsInvalid pathToMessageIsNotAnArray
    (stringFromPaths pathToMessageValuesAreNotStrings obj)
    = inr (messagePath r, messageBeforeTransform r) /\
  withPaths (pathToDetails options) pathToDetailsIsInvalid pathToDetailsIsNotAnArray
    (stringFromPaths pathToDetailsValuesAreNotStrings obj)
    = inr (detailsPath r, detailsBeforeTransform r) /\
  withPaths (pathToDomain options) pathToDomainIsInvalid pathToDomainIsNotAnArray
    (stringFromPaths pathToDomainValuesAreNotStrings obj)
    = inr (domainPath r, domainBeforeTransform r).
Proof.
  unfold __processAllValuesFromPaths.
  destruct (withPaths (pathToCode options) _ _ _) as [?|[? ?]]; [discriminate|].
  destruct (withPaths (pathToNumberCode options) _ _ _) as [?|[? ?]]; [discriminate|].
  destruct (withPaths (pathToMessage options) _ _ _) as [?|[? ?]]; [discriminate|].
  destruct (withPaths (pathToDetails options) _ _ _) as [?|[? ?]]; [discriminate|].
  destruct (withPaths (pathToDomain options) _ _ _) as [?|[? ?]]; [discriminate|].
  intros H. injection H as <-. cbn. repeat split.
Qed.

(** C6 (amended): for every candidate object and every configured list of
    path strings, the paths of a text field (code, message, details,
    domain) are searched in list order and the first path whose resolved
    value is a string, an array or an object is accepted; a path that
    resolves to undefined, null, a number or a boolean is passed over, so a
    later path can win after it.  A string is kept as it is, an array or
    object as its JSON text.  The number code takes the first path that
    resolves to a number other than NaN. *)
Theorem C6_first_acceptable_path_wins :
  forall objectToParse options r,
    __processAllValuesFromPaths objectToParse options = inr r ->
    (forall ps, pathToCode options = Some (JArray (map JString ps)) ->
       (codePath r, codeBeforeTransform r) = firstAcceptedText objectToParse ps) /\
    (forall ps, pathToMessage options = Some (JArray (map JString ps)) ->
       (messagePath r, messageBeforeTransform r) = firstAcceptedText objectToParse ps) /\
    (forall ps, pathToDetails options = Some (JArray (map JString ps)) ->
       (detailsPath r, detailsBeforeTransform r) = firstAcceptedText objectToParse ps) /\
    (forall ps, pathToDomain options = Some (JArray (map JString ps)) ->
       (domainPath r, domainBeforeTransform r) = firstAcceptedText objectToParse ps) /\
    (forall ps, pathToNumberCode options = Some (JArray (map JString ps)) ->
       (numberCodePath r, numberCodeBeforeTransform r)
       = firstAcceptedNumber objectToParse ps).
Proof.
  intros obj options r H.
  destruct (process_inr _ _ _ H) as (Hc & Hn & Hm & Hd & Ho).
  repeat split; intros ps Hps.
  - rewrite (withPaths_strings _ _ _ _ _ _ Hps), stringFromPaths_first in Hc. congruence.
  - rewrite (withPaths_strings _ _ _ _ _ _ Hps), stringFromPaths_first in Hm. congruence.
  - rewrite (withPaths_strings _ _ _ _ _ _ Hps), stringFromPaths_first in Hd. congruence.
  - rewrite (withPaths_strings _ _ _ _ _ _ Hps), stringFromPaths_first in Ho. congruence.
  - rewrite (withPaths_strings _ _ _ _ _ _ Hps), numberFromPaths_first in Hn. congruence.
Qed.

Lemma C6_witness :
  __processAllValuesFromPaths numericCodePayload DEFAULT_BUILD_OPTIONS
    = inr numericCodeValues /\
  (codePath numericCodeValues, codeBeforeTransform numericCodeValues)
    = firstAcceptedText numericCodePayload
        ["code"; "err_code"; "errorCode"; "error_code"; "error.code"; "error.err_code";
         "error.errorCode"; "error.error_code"].
Proof.
  split; [reflexivity|].
  apply (proj1 (C6_first_acceptable_path_wins numericCodePayload DEFAULT_BUILD_OPTIONS
                  numericCodeValues eq_refl)).
  reflexivity.
Defined.

(** C6 as stated fails: in [{ code: 42, err_code: 'E' }] the earlier path
    [code] resolves to the non-null value 42, and the later path
    [err_code] wins. *)
Lemma C6_later_path_wins_after_a_number :
  exists r,
    __processAllValuesFromPaths numericCodePayload DEFAULT_BUILD_OPTIONS = inr r /\
    findNestedValueForPath numericCodePayload "code" = JNumber (Dec 42 0) /\
    codePath r = Some "err_code" /\
    codeBeforeTransform r = Some "E".
Proof. eexists. split; [vm_compute; reflexivity|]. repeat split. Qed.

(* ===================================================================== *)
(** * Summaries *)
(* ===================================================================== *)

Lemma try_catch_ret A (body : Exn A) (h : A) : exists a, try_catch body (Ret h) = Ret a.
Proof. destruct body; cbn; eauto. Qed.

Lemma decodeCandidate_decoded m : decodeCandidate m = Ret (decoded m).
Proof.
  unfold decodeCandidate, decoded.
  destruct m as [| |b|n|t|l|fs]; try reflexivity.
  cbn [bind try_catch].
  destruct (JSON_parse t) as [json|]; cbn [bind try_catch]; [|reflexivity].
  destruct json as [| |b|n|t'|l|fs]; reflexivity.
Qed.

Lemma build_after_transform m p d w obj v f values :
  is_nullish m = false ->
  decodeCandidate m = Ret obj ->
  typeof obj = TObject ->
  __processAllValuesFromPaths obj (orDefault w) = inr v ->
  transform (orDefault w) = Some (Function f) ->
  f (beforeTransformState v) obj = Ret values ->
  buildSummaryFromObject m p d w = Ret (outcome obj p d v values).
Proof.
  intros Hm Hd Ht Hv Hf Hr.
  unfold buildSummaryFromObject, buildSummaryFromObject_try, outcome.
  rewrite Hm, Hd. cbn [bind]. rewrite Ht. cbn [JsType_eqb negb].
  rewrite Hv, Hf, Hr. cbn [bind].
  destruct (transformResultFailure values); reflexivity.
Qed.

(** A summary comes out of a candidate only through the checks on the
    transform result. *)
Lemma build_summary_inv m p d w s :
  buildSummaryFromObject m p d w = Ret (inr s) ->
  exists obj v values,
    __processAllValuesFromPaths obj (orDefault w) = inr v /\
    transformResultFailure values = None /\
    s = summaryOf obj p d v values.
Proof.
  unfold buildSummaryFromObject, buildSummaryFromObject_try.
  destruct (is_nullish m); [discriminate|].
  rewrite decodeCandidate_decoded. cbn [bind].
  destruct (negb _); [discriminate|].
  destruct (__processAllValuesFromPaths _ _) as [e|v] eqn:Hv; [discriminate|].
  destruct (transform (orDefault w)) as [[x|f]|].
  - discriminate.
  - destruct (f _ _) as [values|]; cbn [bind try_catch]; [|discriminate].
    destruct (transformResultFailure values) eqn:Hf; [discriminate|].
    intros H. injection H as <-. eauto 8.
  - cbn [bind try_catch].
    destruct (transformResultFailure _) eqn:Hf; [discriminate|].
    intros H. injection H as <-. eauto 8.
Qed.

(** [buildSummaryFromObject] returns: what its [try] block throws, its
    [catch] turns into a failure reason. *)
Lemma buildSummaryFromObject_returns m p d w :
  exists r, buildSummaryFromObject m p d w = Ret r.
Proof. apply try_catch_ret. Qed.

(** C5 (the code departs from the claim): a string candidate that does
    not decode to an object is not replaced by the synthetic
    [{ code: 'unknown', message }] object.  The test that guards the
    replacement compares [objectToParse], still unset, with the string, so
    it never holds; the string itself becomes [objectToParse] and the
    candidate ends as the failure [buildSummaryIsNotAnObject]. *)
Theorem C5_string_candidate_is_rejected :
  forall text errorsPath didDetect withOptions,
    (JSON_parse text = Throw \/
     exists json, JSON_parse text = Ret json /\
                  (is_nullish json = true \/ typeof json <> TObject)) ->
    buildSummaryFromObject (JString text) errorsPath didDetect withOptions
      = Ret (inl buildSummaryIsNotAnObject).
Proof.
  intros text p d w H.
  unfold buildSummaryFromObject, buildSummaryFromObject_try.
  rewrite decodeCandidate_decoded. cbn [is_nullish bind decoded].
  assert (Hd : match JSON_parse text with
               | Ret json =>
                   if negb (is_nullish json) && JsType_eqb (typeof json) TObject
                   then json else JString text
               | Throw => JString text
               end = JString text).
  { destruct H as [->|(json & -> & [Hn|Ht])]; [reflexivity| |].
    - now rewrite Hn.
    - destruct json; cbn in *; try reflexivity; congruence. }
  rewrite Hd. reflexivity.
Qed.

Lemma C5_witness :
  JSON_parse "oops" = Throw /\
  buildSummaryFromObject (JString "oops") None false None
    = Ret (inl buildSummaryIsNotAnObject).
Proof.
  split; [reflexivity|].
  apply C5_string_candidate_is_rejected. left. reflexivity.
Defined.

Lemma truthyNotString_true x : truthyNotString x = true <-> NotText x.
Proof.
  unfold truthyNotString, NotText. rewrite andb_true_iff, negb_true_iff.
  destruct (typeof x); cbn; intuition congruence.
Qed.

Lemma truthyNotString_false x : truthyNotString x = false <-> ~ NotText x.
Proof.
  rewrite <- truthyNotString_true. destruct (truthyNotString x); intuition congruence.
Qed.

Lemma notNumber_true x :
  negb (is_nullish x) && negb (JsType_eqb (typeof x) TNumber) = true <-> NotNumber x.
Proof.
  unfold NotNumber. rewrite andb_true_iff, !negb_true_iff.
  destruct (typeof x); cbn; intuition congruence.
Qed.

Lemma notNumber_false x :
  negb (is_nullish x) && negb (JsType_eqb (typeof x) TNumber) = false <-> ~ NotNumber x.
Proof.
  rewrite <- notNumber_true. destruct (_ && _); intuition congruence.
Qed.

Lemma isNaN_check_true x :
  negb (is_nullish x) && match x with JNumber n => isNaN n | _ => false end = true
  <-> x = JNumber NaN.
Proof.
  destruct x as [| |b|[]|t|l|fs]; cbn; intuition congruence.
Qed.

Lemma isNaN_check_false x :
  negb (is_nullish x) && match x with JNumber n => isNaN n | _ => false end = false
  <-> x <> JNumber NaN.
Proof.
  rewrite <- isNaN_check_true. destruct (_ && _); intuition congruence.
Qed.

Lemma notObject_true x :
  is_nullish x || negb (JsType_eqb (typeof x) TObject) = true
  <-> (is_nullish x = true \/ typeof x <> TObject).
Proof.
  rewrite orb_true_iff, negb_true_iff.
  destruct (typeof x); cbn; intuition congruence.
Qed.

(** The chain of checks, read field by field. *)
Lemma transformResultFailure_spec values :
  let c := get values "code" in
  let n := get values "numberCode" in
  let m := get values "message" in
  let d := get values "details" in
  let o := get values "domain" in
  ((is_nullish values = true \/ typeof values <> TObject) ->
     transformResultFailure values = Some transformResultIsNotAValidObject) /\
  (is_nullish values = false -> typeof values = TObject ->
     (NotText c -> transformResultFailure values = Some transformCodeResultIsNotString) /\
     (~ NotText c -> NotNumber n ->
        transformResultFailure values = Some transformNumberCodeResultIsNotNumber) /\
     (~ NotText c -> n = JNumber NaN ->
        transformResultFailure values = Some transformNumberCodeResultIsNaN) /\
     (~ NotText c -> ~ NotNumber n -> n <> JNumber NaN -> NotText m ->
        transformResultFailure values = Some transformMessageResultIsNotString) /\
     (~ NotText c -> ~ NotNumber n -> n <> JNumber NaN -> ~ NotText m -> NotText d ->
        transformResultFailure values = Some transformDetailsResultIsNotString) /\
     (~ NotText c -> ~ NotNumber n -> n <> JNumber NaN -> ~ NotText m -> ~ NotText d ->
      NotText o ->
        transformResultFailure values = Some transformDomainResultIsNotString) /\
     (transformResultFailure values = None <->
        ~ NotText c /\ ~ NotNumber n /\ n <> JNumber NaN /\
        ~ NotText m /\ ~ NotText d /\ ~ NotText o)).
Proof.
  intros c n m d o. unfold transformResultFailure.
  fold c n m d o.
  split.
  - intros H. apply notObject_true in H. now rewrite H.
  - intros Hn Ht.
    assert (Hobj : is_nullish values || negb (JsType_eqb (typeof values) TObject) = false)
      by (rewrite Hn, Ht; reflexivity).
    rewrite Hobj.
    destruct (truthyNotString c) eqn:Ec;
      [apply truthyNotString_true in Ec | apply truthyNotString_false in Ec].
    { repeat split; try tauto; intros; discriminate. }
    destruct (negb (is_nullish n) && negb (JsType_eqb (typeof n) TNumber)) eqn:En;
      [apply notNumber_true in En | apply notNumber_false in En].
    { repeat split; try tauto; try (intros; discriminate).
      intros _ ->. destruct En as [_ En]. now elim En. }
    destruct (negb (is_nullish n) && match n with JNumber x => isNaN x | _ => false end) eqn:Ea;
      [apply isNaN_check_true in Ea | apply isNaN_check_false in Ea].
    { repeat split; try tauto; intros; discriminate. }
    destruct (truthyNotString m) eqn:Em;
      [apply truthyNotString_true in Em | apply truthyNotString_false in Em].
    { repeat split; try tauto; intros; discriminate. }
    destruct (truthyNotString d) eqn:Ed;
      [apply truthyNotString_true in Ed | apply truthyNotString_false in Ed].
    { repeat split; try tauto; intros; discriminate. }
    destruct (truthyNotString o) eqn:Eo;
      [apply truthyNotString_true in Eo | apply truthyNotString_false in Eo].
    { repeat split; try tauto; intros; discriminate. }
    repeat split; tauto.
Qed.

(** C7 (amended): for every candidate that reaches a configured transform
    function, the output is validated field by field, in the order code,
    numberCode, message, details, domain.  A code, message, details or
    domain that is truthy and not a string, or a numberCode that is neither
    undefined nor null and is not a number or is NaN, makes the extraction
    return the failure reason of the first such field, and no summary; an
    output that is not an object has a reason of its own.  A summary is
    produced exactly when no field offends; an infinite numberCode does not
    offend. *)
Theorem C7_transform_output_validated :
  forall maybeObject errorsPath didDetect withOptions obj v f values,
    is_nullish maybeObject = false ->
    decodeCandidate maybeObject = Ret obj ->
    typeof obj = TObject ->
    __processAllValuesFromPaths obj (orDefault withOptions) = inr v ->
    transform (orDefault withOptions) = Some (Function f) ->
    f (beforeTransformState v) obj = Ret values ->
    let result := buildSummaryFromObject maybeObject errorsPath didDetect withOptions in
    let c := get values "code" in
    let n := get values "numberCode" in
    let m := get values "message" in
    let d := get values "details" in
    let o := get values "domain" in
    ((is_nullish values = true \/ typeof values <> TObject) ->
       result = Ret (inl transformResultIsNotAValidObject)) /\
    (is_nullish values = false -> typeof values = TObject ->
       (NotText c -> result = Ret (inl transformCodeResultIsNotString)) /\
       (~ NotText c -> NotNumber n ->
          result = Ret (inl transformNumberCodeResultIsNotNumber)) /\
       (~ NotText c -> n = JNumber NaN ->
          result = Ret (inl transformNumberCodeResultIsNaN)) /\
       (~ NotText c -> ~ NotNumber n -> n <> JNumber NaN -> NotText m ->
          result = Ret (inl transformMessageResultIsNotString)) /\
       (~ NotText c -> ~ NotNumber n -> n <> JNumber NaN -> ~ NotText m -> NotText d ->
          result = Ret (inl transformDetailsResultIsNotString)) /\
       (~ NotText c -> ~ NotNumber n -> n <> JNumber NaN -> ~ NotText m -> ~ NotText d ->
        NotText o ->
          result = Ret (inl transformDomainResultIsNotString)) /\
       ((exists s, result = Ret (inr s)) <->
          ~ NotText c /\ ~ NotNumber n /\ n <> JNumber NaN /\
          ~ NotText m /\ ~ NotText d /\ ~ NotText o)).
Proof.
  intros m0 p dd w obj v f values Hm Hd Ht Hv Hf Hr result c n m d o.
  assert (Hres : result = Ret (outcome obj p dd v values))
    by (apply (build_after_transform _ _ _ _ _ _ _ _ Hm Hd Ht Hv Hf Hr)).
  destruct (transformResultFailure_spec values) as [Hbad Hgood].
  fold c n m d o in Hgood.
  rewrite Hres. unfold outcome. split.
  - intros H. now rewrite (Hbad H).
  - intros Hn Hty.
    destruct (Hgood Hn Hty) as (H1 & H2 & H3 & H4 & H5 & H6 & H7).
    repeat apply conj.
    + intros H. now rewrite (H1 H).
    + intros Ha Hb. now rewrite (H2 Ha Hb).
    + intros Ha Hb. now rewrite (H3 Ha Hb).
    + intros Ha Hb Hc Hd'. now rewrite (H4 Ha Hb Hc Hd').
    + intros Ha Hb Hc Hd' He. now rewrite (H5 Ha Hb Hc Hd' He).
    + intros Ha Hb Hc Hd' He Hg. now rewrite (H6 Ha Hb Hc Hd' He Hg).
    + intros [s Hs]. apply H7. revert Hs.
      destruct (transformResultFailure values); intros Hs; [discriminate Hs|reflexivity].
    + intros H. apply H7 in H. rewrite H. eauto.
Qed.

Lemma C7_witness :
  NotText (JNumber (Dec 5 0)) /\
  buildSummaryFromObject (JObject []) None false (Some (onlyTransform numericCode))
    = Ret (inl transformCodeResultIsNotString).
Proof.
  assert (H : NotText (JNumber (Dec 5 0))) by (split; [reflexivity|discriminate]).
  split; [exact H|].
  refine (proj1 (proj2 (C7_transform_output_validated (JObject []) None false
                          (Some (onlyTransform numericCode)) (JObject []) noValues
                          numericCode (JObject [("code", JNumber (Dec 5 0))])
                          eq_refl eq_refl eq_refl eq_refl eq_refl eq_refl)
                  eq_refl eq_refl) H).
Defined.

(** C7 as stated fails: a transform that returns the numberCode Infinity,
    which is present and not finite, gets its summary. *)
Lemma C7_infinite_number_code_passes :
  exists s,
    buildSummaryFromObject (JObject []) None false (Some (onlyTransform infiniteNumberCode))
      = Ret (inr s) /\
    valueOf (numberCode (value s)) = JNumber (Infinity false) /\
    isFinite (Infinity false) = false.
Proof. eexists. split; [vm_compute; reflexivity|]. repeat split. Qed.

Lemma optString_cases o : optString o = JUndefined \/ exists t, optString o = JString t.
Proof. destruct o; cbn; eauto. Qed.

Lemma valueOf_fieldTriple_ind V (P : JsValue -> Prop) present p (b : option V) x :
  P x -> P JUndefined -> P (valueOf (fieldTriple present p b x)).
Proof. destruct present; cbn; auto. Qed.

Lemma not_NotText x : ~ NotText x -> truthy x = true -> exists t, x = JString t.
Proof.
  intros H Ht. destruct x as [| |b|n|t|l|fs]; try discriminate; eauto;
    exfalso; apply H; split; try assumption; discriminate.
Qed.

Lemma number_field_ok n :
  ~ NotNumber n -> n <> JNumber NaN ->
  is_nullish n = true \/ exists x, n = JNumber x /\ isNaN x = false.
Proof.
  intros H1 H2. destruct n as [| |b|x|t|l|fs]; cbn; auto;
    try (exfalso; apply H1; split; [reflexivity|discriminate]).
  right. exists x. split; [reflexivity|]. destruct x; cbn; congruence.
Qed.

(** C8 (amended): in the pre-transform Field State of every extraction the
    numberCode, when present, is a number other than NaN (it may be
    infinite) and every other present field is a string; in the
    post-transform Field State of every summary the numberCode, when
    neither undefined nor null, is a number other than NaN, and every other
    field that is truthy is a string. *)
Theorem C8_field_states_well_typed :
  (forall objectToParse options v,
     __processAllValuesFromPaths objectToParse options = inr v ->
     PreStateWellTyped (beforeTransformState v)) /\
  (forall maybeObject errorsPath didDetect withOptions s,
     buildSummaryFromObject maybeObject errorsPath didDetect withOptions = Ret (inr s) ->
     PostStateWellTyped s).
Proof.
  split.
  - intros obj options v H. split.
    + cbn. destruct (numberCodeBeforeTransform v) as [n|] eqn:En; cbn; [|auto].
      right. exists n. split; [reflexivity|].
      destruct (process_inr _ _ _ H) as (_ & Hn & _).
      apply withPaths_inr in Hn. destruct Hn as (paths & _ & Hn).
      rewrite En in Hn. exact (numberFromPaths_notNaN _ _ _ _ Hn).
    + intros k Hk. cbn in Hk.
      destruct Hk as [<-|[<-|[<-|[<-|[]]]]]; cbn; apply optString_cases.
  - intros m p d w s H.
    destruct (build_summary_inv _ _ _ _ _ H) as (obj & v & values & _ & Hf & ->).
    assert (Hobj : is_nullish values = false /\ typeof values = TObject).
    { unfold transformResultFailure in Hf.
      destruct (is_nullish values); [discriminate|].
      destruct (typeof values); try discriminate. auto. }
    destruct Hobj as [Hn Ht].
    destruct (transformResultFailure_spec values) as [_ Hgood].
    destruct (Hgood Hn Ht) as (_ & _ & _ & _ & _ & _ & H7).
    apply H7 in Hf. destruct Hf as (Hc & Hnn & Hnan & Hm & Hd & Ho).
    split.
    + cbn [summaryOf value numberCode].
      apply valueOf_fieldTriple_ind; [now apply number_field_ok | now left].
    + intros x Hx. cbn [summaryOf value code message details domain In] in Hx.
      destruct Hx as [<-|[<-|[<-|[<-|[]]]]];
        apply valueOf_fieldTriple_ind;
        solve [ discriminate | intros Hx; now apply not_NotText ].
Qed.

Lemma C8_witness :
  PreStateWellTyped (beforeTransformState numericCodeValues) /\
  PostStateWellTyped (summaryOf emptyCodePayload None false
                        {| codeBeforeTransform := Some EmptyString; codePath := Some "code";
                           numberCodeBeforeTransform := None; numberCodePath := None;
                           messageBeforeTransform := Some "m"; messagePath := Some "message";
                           detailsBeforeTransform := None; detailsPath := None;
                           domainBeforeTransform := None; domainPath := None |}
                        (JObject [("code", JString EmptyString); ("numberCode", JUndefined);
                                  ("message", JString "m"); ("details", JUndefined);
                                  ("domain", JUndefined)])).
Proof.
  split.
  - exact (proj1 C8_field_states_well_typed numericCodePayload DEFAULT_BUILD_OPTIONS
             numericCodeValues eq_refl).
  - exact (proj2 C8_field_states_well_typed emptyCodePayload None false None _ eq_refl).
Defined.

(** C8 as stated fails: from [{ numberCode: Infinity }] the pre-transform
    state and the summary both hold the numberCode Infinity, which is not
    finite. *)
Lemma C8_infinite_number_code_is_kept :
  exists v s,
    __processAllValuesFromPaths infinitePayload DEFAULT_BUILD_OPTIONS = inr v /\
    get (beforeTransformState v) "numberCode" = JNumber (Infinity false) /\
    buildSummaryFromObject infinitePayload None false None = Ret (inr s) /\
    valueOf (numberCode (value s)) = JNumber (Infinity false) /\
    isFinite (Infinity false) = false.
Proof.
  eexists. eexists. split; [vm_compute; reflexivity|].
  split; [reflexivity|]. split; [vm_compute; reflexivity|]. repeat split.
Qed.

(* ===================================================================== *)
(** * The collection detector *)
(* ===================================================================== *)

Local Open Scope list_scope.

Lemma forEachPush_total A B (f : A -> Exn B) :
  (forall x, exists y, f x = Ret y) ->
  forall xs, exists ys, forEachPush f xs = Ret ys /\ Forall2 (fun x y => f x = Ret y) xs ys.
Proof.
  intros Hf. induction xs as [|x xs (ys & Hys & HF)]; cbn.
  - exists []. split; [reflexivity|constructor].
  - destruct (Hf x) as [y Hy]. rewrite Hy, Hys. cbn.
    exists (y :: ys). split; [reflexivity|]. now constructor.
Qed.

Lemma forEachPush_Forall2 A B (f : A -> Exn B) xs ys :
  Forall2 (fun x y => f x = Ret y) xs ys -> forEachPush f xs = Ret ys.
Proof.
  induction 1 as [|x y xs ys Hxy _ IH]; cbn; [reflexivity|].
  now rewrite Hxy, IH.
Qed.

Lemma forEachPush_nonempty A B (f : A -> Exn B) x xs ys :
  forEachPush f (x :: xs) = Ret ys -> ys <> [].
Proof.
  cbn. destruct (f x); cbn; [|discriminate].
  destruct (forEachPush f xs); cbn; [|discriminate].
  intros H. injection H as <-. discriminate.
Qed.

Lemma findErrorsArray_spec input paths :
  findErrorsArray input (map JString paths)
  = inr (match find (fun p => Array_isArray (findNestedValueForPath input p)) paths with
         | Some p =>
             (match findNestedValueForPath input p with JArray es => es | _ => [] end,
              Some p, true)
         | None => ([], None, false)
         end).
Proof.
  induction paths as [|p paths IH]; [reflexivity|].
  cbn [map findErrorsArray find].
  destruct (findNestedValueForPath input p) as [| |b|n|t|l|fs] eqn:E;
    cbn [Array_isArray]; rewrite ?andb_false_r; try exact IH.
  cbn. now rewrite E.
Qed.

Lemma buildSummaries_unfold input w paths :
  is_nullish input = false ->
  typeof input = TObject ->
  pathToErrors (orDefault w) = Some (JArray paths) ->
  buildSummariesFromObject input w =
    match findErrorsArray input paths with
    | inl e => Ret [inl e]
    | inr (errors0, errorsPath, detected) =>
        try_catch
          (forEachPush
             (fun c => buildSummaryFromObject c errorsPath detected (Some (orDefault w)))
             (if (List.length errors0 =? 0)%nat then [input] else errors0))
          (Ret [inl generalBuildSummariesFromObjectError])
    end.
Proof.
  intros Hn Ht Hp. unfold buildSummariesFromObject, buildSummariesFromObject_try.
  rewrite Hn, Ht, Hp. cbn [JsType_eqb negb].
  destruct (findErrorsArray input paths) as [e|[[errors0 errorsPath] detected]]; reflexivity.
Qed.

Lemma buildSummaries_returns input w :
  exists summaries, buildSummariesFromObject input w = Ret summaries.
Proof. apply try_catch_ret. Qed.

Lemma buildSummaries_nonempty input w summaries :
  buildSummariesFromObject input w = Ret summaries -> summaries <> [].
Proof.
  unfold buildSummariesFromObject, buildSummariesFromObject_try.
  destruct (is_nullish input); [cbn; intros H; injection H as <-; discriminate|].
  destruct (negb _); [cbn; intros H; injection H as <-; discriminate|].
  destruct (match pathToErrors (orDefault w) with
            | Some (JArray paths) => findErrorsArray input paths
            | Some _ => inl pathToErrorsIsNotAnArray
            | None => inr ([], None, false)
            end) as [e|[[errors0 errorsPath] detected]];
    [cbn; intros H; injection H as <-; discriminate|].
  set (errors := if (List.length errors0 =? 0)%nat then [input] else errors0).
  assert (Hne : exists x xs, errors = x :: xs).
  { subst errors. destruct errors0; cbn; eauto. }
  destruct Hne as (x & xs & ->).
  destruct (forEachPush _ (x :: xs)) eqn:E; cbn.
  - intros H. injection H as <-. exact (forEachPush_nonempty _ _ _ _ _ _ E).
  - intros H. injection H as <-. discriminate.
Qed.

(** C2 (amended): for every object payload and every configured list of
    collection path strings, the paths are tried in list order and the
    first path whose resolved value is an array ends the search, empty or
    not.  When that array is not empty, every element of it is a
    candidate, in order; when it is empty, or no path resolves to an array,
    the payload itself is the sole candidate. *)
Theorem C2_first_array_is_the_collection :
  forall input withOptions paths,
    is_nullish input = false ->
    typeof input = TObject ->
    pathToErrors (orDefault withOptions) = Some (JArray (map JString paths)) ->
    exists summaries,
      buildSummariesFromObject input withOptions = Ret summaries /\
      Forall2 (fun candidate s =>
                 buildSummaryFromObject candidate (snd (fst (candidatesOf input paths)))
                   (snd (candidatesOf input paths)) (Some (orDefault withOptions)) = Ret s)
              (fst (fst (candidatesOf input paths))) summaries.
Proof.
  intros input w paths Hn Ht Hp.
  rewrite (buildSummaries_unfold _ _ _ Hn Ht Hp), findErrorsArray_spec.
  unfold candidatesOf.
  destruct (find _ paths) as [p|].
  - destruct (findNestedValueForPath input p) as [| |b|n|t|[|e es]|fs]; cbn [List.length Nat.eqb fst snd];
      match goal with
      | |- context [forEachPush ?f ?xs] =>
          destruct (forEachPush_total _ _ f (fun x => buildSummaryFromObject_returns x _ _ _) xs)
            as (ys & Hys & HF); rewrite Hys; cbn [try_catch]; eauto
      end.
  - cbn [List.length Nat.eqb fst snd].
    match goal with
    | |- context [forEachPush ?f ?xs] =>
        destruct (forEachPush_total _ _ f (fun x => buildSummaryFromObject_returns x _ _ _) xs)
          as (ys & Hys & HF); rewrite Hys; cbn [try_catch]; eauto
    end.
Qed.

Lemma C2_witness :
  exists summaries,
    buildSummariesFromObject graphqlPayload None = Ret summaries /\
    List.length summaries = 2%nat.
Proof.
  destruct (C2_first_array_is_the_collection graphqlPayload None ["errors"; "errs"]
              eq_refl eq_refl eq_refl) as (summaries & H & HF).
  exists summaries. split; [exact H|].
  apply Forall2_length in HF. symmetry. exact HF.
Defined.

(** C2 as stated fails: in [{ errors: [], errs: [{ ... }] }] the second
    path yields a non-empty array, yet the empty array at the first path is
    accepted and the payload itself is the sole candidate. *)
Lemma C2_empty_array_ends_the_search :
  exists s,
    buildSummariesFromObject emptyCollectionPayload None = Ret [inr s] /\
    input s = emptyCollectionPayload /\
    path s = Some "errors" /\
    candidatesIfNonEmptyOnly emptyCollectionPayload ["errors"; "errs"]
      = [JObject [("code", JString "c"); ("message", JString "m")]].
Proof.
  eexists. split; [vm_compute; reflexivity|].
  repeat split.
Qed.

(* ===================================================================== *)
(** * The result aggregator *)
(* ===================================================================== *)

Lemma isPresentString_isText x : isPresentString x = isText x.
Proof. destruct x; reflexivity. Qed.

Lemma filterCallback_spec pe entry :
  filterCallback pe entry
  = (match entry with inr s => validSummary s | inl _ => false end, pe ++ notesOf entry).
Proof.
  destruct entry as [e|s]; cbn; [reflexivity|].
  rewrite !isPresentString_isText. unfold validSummary.
  destruct (isText _ && isText _); cbn; [now rewrite app_nil_r|reflexivity].
Qed.

Lemma filterSummaries_spec summaries : forall pe,
  filterSummaries pe summaries
  = (flat_map keptOf summaries, pe ++ flat_map notesOf summaries).
Proof.
  induction summaries as [|entry rest IH]; intros pe; cbn [filterSummaries flat_map].
  - now rewrite app_nil_r.
  - rewrite filterCallback_spec, IH, <- app_assoc.
    destruct entry as [e|s]; cbn; [reflexivity|].
    destruct (validSummary s); reflexivity.
Qed.

Lemma mapCallback_spec notes s :
  mapCallback notes s = if validSummary s then Some (finalRecord notes s) else None.
Proof.
  unfold mapCallback, validSummary, finalRecord.
  destruct (valueOf (code (value s))); try reflexivity.
  destruct (valueOf (message (value s))); reflexivity.
Qed.

Lemma records_of_kept notes summaries :
  dropNulls (map (mapCallback notes) (flat_map keptOf summaries))
  = flat_map (recordsOf notes) summaries.
Proof.
  induction summaries as [|entry rest IH]; [reflexivity|].
  cbn [flat_map]. rewrite map_app.
  assert (Happ : forall (a b : list (option ErrorObject.t)),
             dropNulls (a ++ b) = dropNulls a ++ dropNulls b).
  { induction a as [|[x|] a IHa]; intros b; cbn; [reflexivity| |]; now rewrite ?IHa. }
  rewrite Happ, IH. f_equal.
  destruct entry as [e|s]; cbn; [reflexivity|].
  destruct (validSummary s) eqn:Hv; cbn; [|reflexivity].
  now rewrite mapCallback_spec, Hv.
Qed.

Lemma validErrorsOf_spec summaries :
  validErrorsOf summaries
  = (flat_map (recordsOf (flat_map notesOf summaries)) summaries,
     flat_map notesOf summaries).
Proof.
  unfold validErrorsOf. rewrite filterSummaries_spec. cbn [app].
  now rewrite records_of_kept.
Qed.

Lemma one_record_or_note notes summaries :
  (List.length (flat_map (recordsOf notes) summaries)
   + List.length (flat_map notesOf summaries) = List.length summaries)%nat.
Proof.
  induction summaries as [|entry rest IH]; cbn; [reflexivity|].
  rewrite !length_app.
  destruct entry as [e|s]; cbn; [lia|].
  destruct (validSummary s); cbn; lia.
Qed.

Lemma noneValid_records notes summaries :
  noneValid summaries = true -> flat_map (recordsOf notes) summaries = [].
Proof.
  induction summaries as [|entry rest IH]; cbn; [reflexivity|].
  rewrite andb_true_iff. intros [H1 H2]. rewrite (IH H2), app_nil_r.
  destruct entry as [e|s]; cbn; [reflexivity|].
  destruct (validSummary s); [discriminate|reflexivity].
Qed.

Lemma all_valid_notes ss :
  forallb validSummary ss = true -> flat_map notesOf (map inr ss) = [].
Proof.
  induction ss as [|s ss IH]; cbn; [reflexivity|].
  rewrite andb_true_iff. intros [-> H]. now apply IH.
Qed.

Lemma all_valid_records notes ss :
  forallb validSummary ss = true ->
  flat_map (recordsOf notes) (map inr ss) = map (finalRecord notes) ss.
Proof.
  induction ss as [|s ss IH]; cbn; [reflexivity|].
  rewrite andb_true_iff. intros [-> H]. cbn. now rewrite IH.
Qed.

(** C1 (amended): for every batch of extraction summaries passed to the
    result aggregator, a summary is classified as valid, and a Final Record
    is built from it, if and only if its post-transform code and message
    are both present strings (an empty string counts); every other entry
    contributes one Processing Note instead of a record, and the call has
    a primary record exactly when the batch holds a valid summary. *)
Theorem C1_valid_iff_string_code_and_message :
  forall summaries raw fallbackError,
    let notes := flat_map notesOf summaries in
    validErrorsOf summaries = (flat_map (recordsOf notes) summaries, notes) /\
    (forall entry,
       (recordsOf notes entry <> [] <->
          exists s c m, entry = inr s /\ valueOf (code (value s)) = JString c /\
                        valueOf (message (value s)) = JString m) /\
       (List.length (recordsOf notes entry) + List.length (notesOf entry) = 1)%nat) /\
    (error (processErrorObjectResult summaries raw fallbackError) <> None <->
       exists s, In (inr s) summaries /\ validSummary s = true).
Proof.
  intros summaries raw fb notes. split; [apply validErrorsOf_spec|]. split.
  - intros entry. split.
    + destruct entry as [e|s]; cbn.
      * split; [congruence|]. intros (s & c & m & H & _). discriminate.
      * unfold validSummary.
        destruct (valueOf (code (value s))) eqn:Ec; cbn;
          try (split; [congruence | intros (s' & c & m & H & Hc & _); injection H as <-; congruence]).
        destruct (valueOf (message (value s))) eqn:Em; cbn;
          try (split; [congruence | intros (s' & c & m & H & _ & Hm); injection H as <-; congruence]).
        split; [|discriminate]. intros _. exists s. eauto.
    + destruct entry as [e|s]; cbn; [reflexivity|].
      destruct (validSummary s); reflexivity.
  - unfold processErrorObjectResult. rewrite validErrorsOf_spec. fold notes.
    assert (Hne : flat_map (recordsOf notes) summaries <> []
                  <-> exists s, In (inr s) summaries /\ validSummary s = true).
    { clearbody notes. induction summaries as [|entry rest IH]; cbn.
      - split; [congruence|]. intros (s & [] & _).
      - destruct entry as [e|s]; cbn.
        + rewrite IH. split.
          * intros (s & Hin & Hv). eauto.
          * intros (s & [Hin|Hin] & Hv); [discriminate|eauto].
        + destruct (validSummary s) eqn:Hv; cbn.
          * split; [|discriminate]. intros _. exists s. auto.
          * rewrite IH. split.
            -- intros (s' & Hin & Hv'). eauto.
            -- intros (s' & [Hin|Hin] & Hv'); [|eauto]. injection Hin as <-. congruence. }
    destruct (flat_map (recordsOf notes) summaries) eqn:E; cbn.
    + rewrite <- Hne. split; congruence.
    + rewrite <- Hne. split; intros _; discriminate.
Qed.

Lemma C1_witness :
  validErrorsOf [inl buildSummaryIsNullish; inr (graphqlSummary "m1" "C1")]
  = ([finalRecord [{| errorCode := buildSummaryIsNullish; summary := None |}]
        (graphqlSummary "m1" "C1")],
     [{| errorCode := buildSummaryIsNullish; summary := None |}]).
Proof.
  exact (proj1 (C1_valid_iff_string_code_and_message
                  [inl buildSummaryIsNullish; inr (graphqlSummary "m1" "C1")]
                  JNull exampleFallback)).
Defined.

(** C1 as stated fails: the summary of [{ code: '', message: 'm' }] has an
    empty code, and it is classified as valid and a record is built from
    it. *)
Lemma C1_empty_code_is_valid :
  exists s record,
    buildSummaryFromObject emptyCodePayload None false None = Ret (inr s) /\
    valueOf (code (value s)) = JString EmptyString /\
    validErrorsOf [inr s] = ([record], []) /\
    ErrorObject.code record = EmptyString.
Proof.
  eexists. eexists. split; [vm_compute; reflexivity|].
  split; [reflexivity|]. split; reflexivity.
Qed.

(* ===================================================================== *)
(** * The entry point *)
(* ===================================================================== *)

(** The validator returns: what its [try] block throws, its [catch]
    swallows. *)
Lemma checkInput_returns value w : exists r, checkInputForInitialObject value w = Ret r.
Proof. apply try_catch_ret. Qed.

Lemma checkInput_passed_object value w :
  checkInputForInitialObject value w = Ret None ->
  is_nullish value = false /\ typeof value = TObject.
Proof.
  unfold checkInputForInitialObject, checkInputForInitialObject_try.
  destruct (is_nullish value); [discriminate|].
  destruct (typeof value); cbn; try discriminate. auto.
Qed.

Lemma merged_pathToErrors w : exists x, pathToErrors (mergedOptions w) = Some x.
Proof.
  unfold mergedOptions, mergeOptions. cbn [pathToErrors].
  destruct (pathToErrors _); cbn; eauto.
Qed.

Lemma from_checks_failed fb value w reason :
  checkInputForInitialObject value (Some (mergedOptions w)) = Ret (Some reason) ->
  from fb value w =
    Ret {| error := None;
           force := ErrorObject.setProcessingErrors (ErrorObject.setRaw fb value)
                      [{| errorCode := reason; summary := None |}] |}.
Proof. intros H. unfold from. now rewrite H. Qed.

Lemma from_checks_passed fb value w summaries :
  checkInputForInitialObject value (Some (mergedOptions w)) = Ret None ->
  buildSummariesFromObject value (Some (mergedOptions w)) = Ret summaries ->
  from fb value w =
    Ret (processErrorObjectResult summaries value (ErrorObject.setRaw fb value)).
Proof.
  intros Hc Hs. unfold from. rewrite Hc. cbn [bind].
  destruct (merged_pathToErrors w) as [x ->]. now rewrite Hs.
Qed.

(** Only inside a non-null object is anything found. *)
Lemma fold_resolve_array segs : forall acc l,
  fold_left resolveSegment segs acc = JArray l ->
  truthy acc = true /\ typeof acc = TObject.
Proof.
  induction segs as [|seg segs IH]; intros acc l; cbn [fold_left].
  - intros ->. split; reflexivity.
  - unfold resolveSegment at 2.
    destruct (String.length seg =? 0)%nat; [apply IH|].
    destruct (truthy acc && JsType_eqb (typeof acc) TObject) eqn:E.
    + intros _. apply andb_true_iff in E. destruct E as [Ht Ho].
      split; [exact Ht|]. destruct (typeof acc); try discriminate. reflexivity.
    + intros H. apply IH in H. destruct H as [H _]. discriminate.
Qed.

Lemma findNested_array_object v p l :
  findNestedValueForPath v p = JArray l ->
  is_nullish v = false /\ typeof v = TObject.
Proof.
  unfold findNestedValueForPath.
  destruct (is_empty p || negb (truthy v)); [discriminate|].
  destruct (is_empty _); [discriminate|].
  intros H. apply fold_resolve_array in H. destruct H as [Ht Ho].
  split; [|exact Ho]. destruct v; try reflexivity; discriminate.
Qed.

Lemma findErrorsArray_found input paths errors p d :
  findErrorsArray input paths = inr (errors, Some p, d) ->
  findNestedValueForPath input p = JArray errors.
Proof.
  induction paths as [|x paths IH]; cbn [findErrorsArray]; [discriminate|].
  destruct x; try discriminate.
  destruct (findNestedValueForPath input s) as [| |b|n|t|l|fs] eqn:E;
    cbn [Array_isArray]; rewrite ?andb_false_r; try exact IH.
  cbn. intros H. injection H as <- <- _. exact E.
Qed.

Lemma checkInput_without_rules input options :
  is_nullish input = false -> typeof input = TObject ->
  checkInputObjectForValues options = None ->
  checkInputObjectForTypes options = None ->
  checkInputObjectForKeys options = None ->
  checkInputForInitialObject input (Some options) = Ret None.
Proof.
  intros Hn Ht Hv Hty Hk.
  unfold checkInputForInitialObject, checkInputForInitialObject_try.
  cbn [orDefault]. rewrite Hn, Ht, Hv, Hty, Hk. reflexivity.
Qed.

(** C3 (amended): for every payload that the input validator lets through
    and every configured list of collection path strings, when the first
    path of the list (in list order) that resolves to an array resolves to
    an array of N >= 1 candidates, each yielding a valid summary (string
    code and message), the entry point returns one primary record, built
    from the first element, with the records of the remaining N-1 elements
    attached to it as the secondary-errors list in array order (no list at
    all when N = 1), and the raw payload attached to the primary; the
    forced record is the primary, and no record carries a note. *)
Theorem C3_collection_gives_primary_and_chain :
  forall fallback payload withOptions paths p e1 rest s1 ss,
    let options := mergedOptions withOptions in
    pathToErrors options = Some (JArray (map JString paths)) ->
    find (fun q => Array_isArray (findNestedValueForPath payload q)) paths = Some p ->
    findNestedValueForPath payload p = JArray (e1 :: rest) ->
    checkInputForInitialObject payload (Some options) = Ret None ->
    Forall2 (fun candidate s =>
               buildSummaryFromObject candidate (Some p) true (Some options) = Ret (inr s)
               /\ validSummary s = true)
            (e1 :: rest) (s1 :: ss) ->
    let primary :=
      ErrorObject.setRaw
        (ErrorObject.setNextErrors (finalRecord [] s1)
           (match ss with
            | [] => None
            | _ :: _ => Some (map (finalRecord []) ss)
            end))
        payload in
    List.length ss = List.length rest /\
    buildSummariesFromObject payload (Some options) = Ret (map inr (s1 :: ss)) /\
    from fallback payload withOptions = Ret {| error := Some primary; force := primary |}.
Proof.
  intros fb payload w paths p e1 rest s1 ss options Hp Hfind Harr Hc HF primary.
  destruct (findNested_array_object _ _ _ Harr) as [Hn Ht].
  assert (Hf : findErrorsArray payload (map JString paths) = inr (e1 :: rest, Some p, true)).
  { now rewrite findErrorsArray_spec, Hfind, Harr. }
  assert (Hall : forallb validSummary (s1 :: ss) = true).
  { clear - HF. induction HF as [|e s es ss' [_ Hv] _ IH]; cbn; [reflexivity|].
    now rewrite Hv, IH. }
  assert (Hsum : buildSummariesFromObject payload (Some options)
                 = Ret (map inr (s1 :: ss))).
  { rewrite (buildSummaries_unfold payload (Some options) _ Hn Ht Hp), Hf.
    change (List.length (e1 :: rest) =? 0)%nat with false. cbn iota.
    assert (HF' : Forall2
                    (fun x (y : SummaryOrError) =>
                       buildSummaryFromObject x (Some p) true
                         (Some (orDefault (Some options))) = Ret y)
                    (e1 :: rest) (map inr (s1 :: ss))).
    { clear - HF. induction HF as [|e s es ss' [He _] _ IH]; cbn; constructor; assumption. }
    now rewrite (forEachPush_Forall2 _ _ _ _ _ HF'). }
  repeat apply conj.
  - apply Forall2_length in HF. cbn in HF. lia.
  - exact Hsum.
  - rewrite (from_checks_passed fb payload w _ Hc Hsum).
    unfold processErrorObjectResult.
    rewrite validErrorsOf_spec, (all_valid_notes _ Hall), (all_valid_records [] _ Hall).
    cbn [map]. unfold primary. destruct ss; reflexivity.
Qed.

Lemma C3_witness :
  from exampleFallback graphqlPayload (Some graphqlOptions)
  = Ret {| error :=
             Some (ErrorObject.setRaw
                     (ErrorObject.setNextErrors (finalRecord [] (graphqlSummary "m1" "C1"))
                        (Some [finalRecord [] (graphqlSummary "m2" "C2")]))
                     graphqlPayload);
           force :=
             ErrorObject.setRaw
               (ErrorObject.setNextErrors (finalRecord [] (graphqlSummary "m1" "C1"))
                  (Some [finalRecord [] (graphqlSummary "m2" "C2")]))
               graphqlPayload |}.
Proof.
  refine (proj2 (proj2
            (C3_collection_gives_primary_and_chain exampleFallback graphqlPayload
               (Some graphqlOptions) ["errors"; "errs"] "errors"
               (graphqlError "m1" "C1") [graphqlError "m2" "C2"]
               (graphqlSummary "m1" "C1") [graphqlSummary "m2" "C2"]
               eq_refl eq_refl eq_refl eq_refl _))).
  repeat constructor.
Defined.

(** C3 as stated fails in two ways.  In
    [{ errors: [], errs: [{ code: 'c', message: 'm' }] }] the configured
    path [errs] resolves to an array of one candidate with a valid summary,
    but the search has stopped at the empty array at [errors]: the payload
    is the sole candidate and there is no record.  In
    [{ errors: [{ code: 'E1', message: 'boom' }] }] with the key rule
    [{ code: { exists: true } }] the path [errors] resolves to such an
    array, but the validator rejects the payload and nothing is
    summarised. *)
Lemma C3_collection_without_record :
  (findNestedValueForPath emptyCollectionPayload "errs"
   = JArray [JObject [("code", JString "c"); ("message", JString "m")]] /\
   (exists s,
      buildSummaryFromObject (JObject [("code", JString "c"); ("message", JString "m")])
        (Some "errs") true (Some (mergedOptions None)) = Ret (inr s) /\
      validSummary s = true) /\
   exists r, from exampleFallback emptyCollectionPayload None = Ret r /\ error r = None) /\
  (findNestedValueForPath singleErrorPayload "errors" = JArray [plainError] /\
   (exists s,
      buildSummaryFromObject plainError (Some "errors") true
        (Some (mergedOptions (Some codeKeyRule))) = Ret (inr s) /\
      validSummary s = true) /\
   from exampleFallback singleErrorPayload (Some codeKeyRule)
   = Ret {| error := None;
            force := ErrorObject.setProcessingErrors
                       (ErrorObject.setRaw exampleFallback singleErrorPayload)
                       [{| errorCode := checkInputObjectForKeysFailed;
                           summary := None |}] |}).
Proof.
  split; (split; [vm_compute; reflexivity|]); split.
  - eexists. split; vm_compute; reflexivity.
  - eexists. split; vm_compute; reflexivity.
  - eexists. split; vm_compute; reflexivity.
  - vm_compute. reflexivity.
Qed.

(** C9: for every payload and every options value the entry point returns
    a result and no exception escapes it.  The result always carries a
    forced record: the primary record when there is one; otherwise the
    record field is absent and the forced record is the fallback carrying
    the accumulated Processing Notes, of which there is at least one (the
    reason of the validator, or the notes of a batch without a valid
    summary). *)
Theorem C9_from_always_returns :
  forall fallback payload withOptions,
    let fallbackError := ErrorObject.setRaw fallback payload in
    exists r,
      from fallback payload withOptions = Ret r /\
      (forall e, error r = Some e -> force r = e) /\
      (error r = None ->
         exists notes, notes <> [] /\
                       force r = ErrorObject.setProcessingErrors fallbackError notes) /\
      (forall reason,
         checkInputForInitialObject payload (Some (mergedOptions withOptions))
           = Ret (Some reason) ->
         error r = None /\
         force r = ErrorObject.setProcessingErrors fallbackError
                     [{| errorCode := reason; summary := None |}]) /\
      (forall summaries,
         checkInputForInitialObject payload (Some (mergedOptions withOptions)) = Ret None ->
         buildSummariesFromObject payload (Some (mergedOptions withOptions)) = Ret summaries ->
         noneValid summaries = true ->
         error r = None /\
         force r = ErrorObject.setProcessingErrors fallbackError
                     (flat_map notesOf summaries)).
Proof.
  intros fb payload w fallbackError.
  destruct (checkInput_returns payload (Some (mergedOptions w))) as [[reason|] Hc].
  - eexists. split; [apply (from_checks_failed _ _ _ _ Hc)|]. cbn [error force].
    repeat apply conj.
    + discriminate.
    + intros _. eexists. split; [|reflexivity]. discriminate.
    + intros reason' H. rewrite Hc in H. injection H as <-. auto.
    + intros summaries H. rewrite Hc in H. discriminate.
  - destruct (buildSummaries_returns payload (Some (mergedOptions w))) as [summaries Hs].
    eexists. split; [apply (from_checks_passed _ _ _ _ Hc Hs)|].
    pose proof (buildSummaries_nonempty _ _ _ Hs) as Hne.
    pose proof (one_record_or_note (flat_map notesOf summaries) summaries) as Hcount.
    unfold processErrorObjectResult. rewrite validErrorsOf_spec.
    destruct (flat_map (recordsOf (flat_map notesOf summaries)) summaries)
      as [|first next] eqn:Hrec.
    + assert (Hnotes : flat_map notesOf summaries <> []).
      { intros E. rewrite E in Hcount. cbn in Hcount.
        destruct summaries; [contradiction|discriminate]. }
      assert (Hlen : (0 <? List.length (flat_map notesOf summaries))%nat = true).
      { destruct (flat_map notesOf summaries); [contradiction|reflexivity]. }
      rewrite Hlen. cbn [error force]. repeat apply conj.
      * discriminate.
      * intros _. eauto.
      * intros reason H. rewrite Hc in H. discriminate.
      * intros summaries' _ H _. rewrite Hs in H. injection H as <-. auto.
    + cbn [error force]. repeat apply conj.
      * intros e H. now injection H as <-.
      * discriminate.
      * intros reason H. rewrite Hc in H. discriminate.
      * intros summaries' _ H Hnone. rewrite Hs in H. injection H as <-.
        rewrite (noneValid_records _ _ Hnone) in Hrec. discriminate.
Qed.

Lemma C9_witness :
  exists r,
    from exampleFallback (JString "x") None = Ret r /\
    error r = None /\
    force r = ErrorObject.setProcessingErrors
                (ErrorObject.setRaw exampleFallback (JString "x"))
                [{| errorCode := checkIsNotAnObject; summary := None |}].
Proof.
  destruct (C9_from_always_returns exampleFallback (JString "x") None)
    as (r & H & _ & _ & Hfail & _).
  exists r. split; [exact H|].
  exact (Hfail checkIsNotAnObject eq_refl).
Defined.

(* ===================================================================== *)
(** * More on the path resolver *)
(* ===================================================================== *)

Local Open Scope string_scope.

Lemma bracketFree_normalized p :
  bracketFree p = true ->
  String_replace (String_replace p "[" EmptyString) "]" EmptyString = p.
Proof.
  unfold bracketFree. rewrite andb_true_iff, !Nat.eqb_eq. intros [H1 H2].
  rewrite (replace_absent "[" p H1). exact (replace_absent "]" p H2).
Qed.

Lemma count_char_app c p q :
  count_char c (p ++ q) = (count_char c p + count_char c q)%nat.
Proof. induction p as [|x p IH]; cbn; [reflexivity|]. rewrite IH. lia. Qed.

Lemma bracketFree_app_dot p q :
  bracketFree p = true -> bracketFree q = true -> bracketFree (p ++ String "." q) = true.
Proof.
  unfold bracketFree. rewrite !andb_true_iff, !Nat.eqb_eq. intros [H1 H2] [H3 H4].
  rewrite !count_char_app. cbn. lia.
Qed.

Lemma fold_undefined segs : fold_left resolveSegment segs JUndefined = JUndefined.
Proof.
  induction segs as [|seg segs IH]; [reflexivity|]. cbn [fold_left].
  unfold resolveSegment at 2. destruct (String.length seg =? 0)%nat; exact IH.
Qed.

Lemma length_zero_is_empty s : (String.length s =? 0)%nat = is_empty s.
Proof. destruct s; reflexivity. Qed.

Lemma fold_not_object segs x :
  truthy x && JsType_eqb (typeof x) TObject = false ->
  existsb nonEmptySegment segs = true ->
  fold_left resolveSegment segs x = JUndefined.
Proof.
  intros Hx. induction segs as [|seg segs IH]; cbn [existsb fold_left]; [discriminate|].
  unfold resolveSegment at 2, nonEmptySegment at 1.
  rewrite length_zero_is_empty.
  destruct (is_empty seg); cbn [negb orb].
  - exact IH.
  - intros _. rewrite Hx. apply fold_undefined.
Qed.

Lemma only_dots_segments q :
  only_dots q = false -> existsb nonEmptySegment (String_split "." q) = true.
Proof.
  induction q as [|c q IH]; cbn [only_dots String_split]; [discriminate|].
  destruct (Ascii.eqb c ".") eqn:E; cbn [andb].
  - intros H. cbn [existsb]. rewrite (IH H). apply orb_true_r.
  - intros _. destruct (String_split "." q); reflexivity.
Qed.

Lemma only_dots_nonempty q : only_dots q = false -> is_empty q = false.
Proof. destruct q; [discriminate|reflexivity]. Qed.

Lemma findNested_bracketFree v p :
  bracketFree p = true -> is_empty p = false ->
  findNestedValueForPath v p
  = if truthy v then fold_left resolveSegment (String_split "." p) v else JUndefined.
Proof.
  intros Hb Hp. unfold findNestedValueForPath.
  rewrite (bracketFree_normalized p Hb), Hp. cbn [orb].
  destruct (truthy v); reflexivity.
Qed.

(** X1: resolution composes along the separator.  For every value and
    every two paths without brackets, the first not empty and the second
    with at least one segment that is not empty, resolving [p.q] is
    resolving [q] against what [p] resolves to. *)
Theorem X1_path_composition :
  forall v p q,
    bracketFree p = true -> bracketFree q = true ->
    p <> EmptyString -> only_dots q = false ->
    findNestedValueForPath v (p ++ String "." q)
    = findNestedValueForPath (findNestedValueForPath v p) q.
Proof.
  intros v p q Hp Hq Hne Hd.
  assert (Hpe : is_empty p = false) by (destruct p; [contradiction|reflexivity]).
  rewrite (findNested_bracketFree v _ (bracketFree_app_dot p q Hp Hq) (is_empty_app_dot p q)).
  rewrite (findNested_bracketFree v p Hp Hpe).
  rewrite (findNested_bracketFree _ q Hq (only_dots_nonempty q Hd)).
  destruct (truthy v); [|reflexivity].
  rewrite split_app_sep, fold_left_app.
  set (x := fold_left resolveSegment (String_split "." p) v).
  destruct (truthy x) eqn:Hx; [reflexivity|].
  apply fold_not_object; [now rewrite Hx|now apply only_dots_segments].
Qed.

(** [response.error.code] is [error.code] inside what [response] resolves
    to. *)
Lemma X1_witness :
  findNestedValueForPath wrappedError "response.error.code"
  = findNestedValueForPath (findNestedValueForPath wrappedError "response") "error.code" /\
  findNestedValueForPath wrappedError "response.error.code" = JString "E1".
Proof.
  split; [|vm_compute; reflexivity].
  apply (X1_path_composition wrappedError "response" "error.code");
    [reflexivity|reflexivity|discriminate|reflexivity].
Defined.

(** X2: no path reads into a primitive.  Against a string, a number, a
    boolean or [undefined], every path without brackets that has a segment
    which is not empty resolves to [undefined]: the guard
    [typeof acc === 'object'] hides even the length of a string. *)
Theorem X2_primitives_hold_nothing :
  forall v p,
    typeof v <> TObject -> bracketFree p = true -> only_dots p = false ->
    findNestedValueForPath v p = JUndefined.
Proof.
  intros v p Hv Hb Hd.
  rewrite (findNested_bracketFree v p Hb (only_dots_nonempty p Hd)).
  destruct (truthy v) eqn:Ht; [|reflexivity].
  apply fold_not_object; [|now apply only_dots_segments].
  rewrite Ht. destruct (typeof v); try reflexivity. now elim Hv.
Qed.

(** The length of ['abc'] is 3, and the path [length] does not find it. *)
Lemma X2_witness :
  findNestedValueForPath (JString "abc") "length" = JUndefined /\
  get (JString "abc") "length" = JNumber (Dec 3 0).
Proof.
  split; [|vm_compute; reflexivity].
  apply (X2_primitives_hold_nothing (JString "abc") "length");
    [discriminate|reflexivity|reflexivity].
Defined.

Local Open Scope list_scope.

Lemma object_truthy v : is_nullish v = false -> typeof v = TObject -> truthy v = true.
Proof. destruct v; try discriminate; reflexivity. Qed.

Lemma split_no_sep c k : count_char c k = O -> String_split c k = [k].
Proof.
  induction k as [|x k IH]; cbn; [reflexivity|].
  destruct (Ascii.eqb x c); cbn; [discriminate|].
  intros H. now rewrite (IH H).
Qed.

Lemma findNested_plain_key v k :
  is_nullish v = false -> typeof v = TObject -> plainKey k = true ->
  findNestedValueForPath v k = get v k.
Proof.
  intros Hn Ht. unfold plainKey. rewrite !andb_true_iff, negb_true_iff, Nat.eqb_eq.
  intros [[[He Hb] Hd] Hnan].
  rewrite (findNested_bracketFree v k Hb He), (object_truthy v Hn Ht), (split_no_sep _ _ Hd).
  cbn [fold_left]. unfold resolveSegment.
  rewrite length_zero_is_empty, He, Hnan, (object_truthy v Hn Ht), Ht. reflexivity.
Qed.

Lemma digit_is_plain c :
  is_digit c = true ->
  is_space c = false /\ Ascii.eqb c "[" = false /\ Ascii.eqb c "]" = false /\
  Ascii.eqb c "." = false /\ Ascii.eqb c "-" = false /\ Ascii.eqb c "+" = false /\
  Ascii.eqb c "I" = false /\ Ascii.eqb c "x" = false /\ Ascii.eqb c "X" = false /\
  Ascii.eqb c "o" = false /\ Ascii.eqb c "O" = false /\ Ascii.eqb c "b" = false /\
  Ascii.eqb c "B" = false.
Proof.
  destruct c as [[] [] [] [] [] [] [] []]; intros H; try discriminate H;
    repeat split; reflexivity.
Qed.

Lemma allDigits_count c k :
  is_digit c = false -> allDigits k = true -> count_char c k = O.
Proof.
  intros Hc. induction k as [|x k IH]; cbn [allDigits count_char]; [reflexivity|].
  rewrite andb_true_iff. intros [Hx Hk].
  destruct (Ascii.eqb_spec x c) as [->|_]; [congruence|]. exact (IH Hk).
Qed.

Lemma allDigits_trim k : allDigits k = true -> trim k = k.
Proof.
  intros H. unfold trim.
  assert (Hl : trim_left k = k).
  { destruct k as [|c k]; [reflexivity|]. cbn in *.
    apply andb_true_iff in H. destruct H as [Hc _].
    destruct (digit_is_plain c Hc) as [-> _]. reflexivity. }
  rewrite Hl. induction k as [|c k IH]; [reflexivity|].
  cbn [allDigits] in H. apply andb_true_iff in H. destruct H as [Hc Hk].
  cbn [trim_right]. destruct (digit_is_plain c Hc) as [-> _]. cbn [andb].
  f_equal. apply IH; [exact Hk|].
  destruct k as [|c' k']; [reflexivity|]. cbn in *.
  apply andb_true_iff in Hk. destruct Hk as [Hc' _].
  destruct (digit_is_plain c' Hc') as [-> _]. reflexivity.
Qed.

Lemma take_digits_all k : forall acc len,
  allDigits k = true ->
  take_digits k acc len = (numeralFrom acc k, (len + String.length k)%nat, EmptyString).
Proof.
  induction k as [|c k IH]; intros acc len; cbn [allDigits take_digits numeralFrom String.length].
  - intros _. now rewrite Nat.add_0_r.
  - rewrite andb_true_iff. intros [Hc Hk]. rewrite Hc, (IH _ _ Hk).
    now rewrite Nat.add_succ_r.
Qed.

Lemma unsigned_decimal_numeral k :
  isNumeral k = true -> unsigned_decimal k = Some (numeralValue k, 0).
Proof.
  unfold isNumeral. rewrite andb_true_iff, negb_true_iff. intros [He Hk].
  unfold unsigned_decimal. rewrite (take_digits_all k 0 O Hk). cbn iota.
  destruct k as [|c k]; [discriminate|reflexivity].
Qed.

(** A numeral is read as the number it denotes. *)
Lemma Number_numeral k : isNumeral k = true -> Number k = ofZ (numeralValue k).
Proof.
  intros H. pose proof (unsigned_decimal_numeral k H) as Hu.
  unfold isNumeral in H. apply andb_true_iff in H. destruct H as [He Hk].
  unfold Number. rewrite (allDigits_trim k Hk).
  destruct k as [|c k]; [discriminate|].
  cbn [allDigits] in Hk. apply andb_true_iff in Hk. destruct Hk as [Hc Hk].
  assert (Hrest : (let '(neg, u) :=
                     match String c k with
                     | String "-" r => (true, r)
                     | String "+" r => (false, r)
                     | _ => (false, String c k)
                     end in
                   if String.eqb u "Infinity" then Infinity neg
                   else match unsigned_decimal u with
                        | Some (m, e) => mkDec (if neg then - m else m) e
                        | None => NaN
                        end) = ofZ (numeralValue (String c k))).
  { destruct c as [[] [] [] [] [] [] [] []]; try discriminate Hc;
      cbn [String.eqb Ascii.eqb Bool.eqb]; rewrite Hu; reflexivity. }
  destruct c as [[] [] [] [] [] [] [] []]; try discriminate Hc; try exact Hrest.
  destruct k as [|p rest]; [exact Hrest|].
  cbn [allDigits] in Hk. apply andb_true_iff in Hk. destruct Hk as [Hp _].
  destruct (digit_is_plain p Hp) as (_ & _ & _ & _ & _ & _ & _ & -> & -> & -> & -> & -> & ->).
  cbn [orb]. rewrite Hu. reflexivity.
Qed.

Lemma ofZ_notNaN z : isNaN (ofZ z) = false.
Proof. unfold ofZ, mkDec. destruct (normalize z 0). reflexivity. Qed.

(** X3: a segment that is a decimal numeral is used as the number it
    denotes.  Against a non-null object or array, a path that is one
    numeral of value below 2^53 (where a numeral is a double, read
    exactly) reads the property named by the decimal text of that number,
    not the property named by the numeral: leading zeros are lost. *)
Theorem X3_numeric_segment_reads_canonical_key :
  forall v k,
    is_nullish v = false -> typeof v = TObject ->
    isNumeral k = true -> numeralValue k < 2 ^ 53 ->
    findNestedValueForPath v k = get v (Number_toString (ofZ (numeralValue k))).
Proof.
  intros v k Hn Ht Hk _. pose proof (Number_numeral k Hk) as Hnum.
  unfold isNumeral in Hk. apply andb_true_iff in Hk. destruct Hk as [He Hd].
  apply negb_true_iff in He.
  assert (Hb : bracketFree k = true).
  { unfold bracketFree.
    now rewrite (allDigits_count "[" k eq_refl Hd), (allDigits_count "]" k eq_refl Hd). }
  rewrite (findNested_bracketFree v k Hb He), (object_truthy v Hn Ht),
    (split_no_sep _ _ (allDigits_count "." k eq_refl Hd)).
  cbn [fold_left]. unfold resolveSegment.
  rewrite length_zero_is_empty, He, Hnum, ofZ_notNaN, (object_truthy v Hn Ht), Ht.
  reflexivity.
Qed.

(** In [{ '01': 'padded', '1': 'canonical' }] the path [01] reads the key
    [1]; the key [01] is out of reach. *)
Lemma X3_witness :
  findNestedValueForPath paddedKeys "01" = JString "canonical" /\
  get paddedKeys "01" = JString "padded".
Proof.
  split; [|reflexivity].
  rewrite (X3_numeric_segment_reads_canonical_key paddedKeys "01"
             eq_refl eq_refl eq_refl eq_refl).
  vm_compute. reflexivity.
Defined.

(* ===================================================================== *)
(** * More on the field extractor *)
(* ===================================================================== *)

Lemma stringFromPaths_bad_entry e obj ps x rest :
  isString x = false ->
  stringFromPaths e obj (map JString ps ++ x :: rest)
  = match fst (firstAcceptedText obj ps) with
    | Some _ => inr (firstAcceptedText obj ps)
    | None => inl e
    end.
Proof.
  intros Hx. unfold firstAcceptedText.
  induction ps as [|p ps IH]; cbn [map app stringFromPaths find].
  - destruct x; try reflexivity. discriminate.
  - destruct (findNestedValueForPath obj p) as [| |b|n|t|l|fs] eqn:E;
      cbn; rewrite ?E; try exact IH; reflexivity.
Qed.

Lemma stringFromPaths_inl e0 obj paths e :
  stringFromPaths e0 obj paths = inl e -> e = e0.
Proof.
  induction paths as [|x paths IH]; cbn; [discriminate|].
  destruct x; try (intros H; injection H as <-; reflexivity).
  destruct (findNestedValueForPath obj s); cbn; try exact IH; discriminate.
Qed.

Lemma numberFromPaths_inl obj paths e :
  numberFromPaths obj paths = inl e -> e = pathToNumberCodeValuesAreNotStrings.
Proof.
  induction paths as [|x paths IH]; cbn; [discriminate|].
  destruct x; try (intros H; injection H as <-; reflexivity).
  destruct (findNestedValueForPath obj s); try exact IH.
  destruct (isNaN n); cbn; [exact IH|discriminate].
Qed.

Lemma withPaths_inl A (o : option JsValue) e1 e2
    (loop : list JsValue -> ErrorObjectErrorResult + A) e :
  withPaths o e1 e2 loop = inl e ->
  (o = None /\ e = e1) \/ (exists x, o = Some x /\ Array_isArray x = false /\ e = e2)
  \/ (exists paths, o = Some (JArray paths) /\ loop paths = inl e).
Proof.
  unfold withPaths. destruct o as [x|].
  - destruct x; try (intros H; injection H as <-; right; left; eexists; repeat split; reflexivity).
    intros H. right. right. eauto.
  - intros H. injection H as <-. auto.
Qed.

(** The reasons a field's search can fail with. *)
Lemma withPaths_string_reasons (o : option JsValue) e1 e2 e3 obj e :
  withPaths o e1 e2 (stringFromPaths e3 obj) = inl e -> In e [e1; e2; e3].
Proof.
  intros H. apply withPaths_inl in H.
  destruct H as [[_ ->]|[(x & _ & _ & ->)|(paths & _ & H)]]; cbn; auto.
  apply stringFromPaths_inl in H. auto.
Qed.

Lemma withPaths_number_reasons (o : option JsValue) e1 e2 obj e :
  withPaths o e1 e2 (numberFromPaths obj) = inl e ->
  In e [e1; e2; pathToNumberCodeValuesAreNotStrings].
Proof.
  intros H. apply withPaths_inl in H.
  destruct H as [[_ ->]|[(x & _ & _ & ->)|(paths & _ & H)]]; cbn; auto.
  apply numberFromPaths_inl in H. auto.
Qed.

Lemma process_after_code obj options c e :
  withPaths (pathToCode options) pathToCodeIsInvalid pathToCodeIsNotAnArray
    (stringFromPaths pathToCodeValuesAreNotStrings obj) = inr c ->
  __processAllValuesFromPaths obj options = inl e ->
  In e laterFieldReasons.
Proof.
  intros Hc. unfold __processAllValuesFromPaths. rewrite Hc. destruct c as [cp cb].
  destruct (withPaths (pathToNumberCode options) _ _ _) as [e1|[? ?]] eqn:E1.
  { intros H. injection H as <-. apply withPaths_number_reasons in E1.
    unfold laterFieldReasons. cbn in *. intuition. }
  destruct (withPaths (pathToMessage options) _ _ _) as [e1|[? ?]] eqn:E2.
  { intros H. injection H as <-. apply withPaths_string_reasons in E2.
    unfold laterFieldReasons. cbn in *. intuition. }
  destruct (withPaths (pathToDetails options) _ _ _) as [e1|[? ?]] eqn:E3.
  { intros H. injection H as <-. apply withPaths_string_reasons in E3.
    unfold laterFieldReasons. cbn in *. intuition. }
  destruct (withPaths (pathToDomain options) _ _ _) as [e1|[? ?]] eqn:E4.
  { intros H. injection H as <-. apply withPaths_string_reasons in E4.
    unfold laterFieldReasons. cbn in *. intuition. }
  discriminate.
Qed.

(** X4: the entries of [pathToCode] are checked one at a time, as the
    search reaches them.  When the list starts with the strings [ps] and
    goes on with an entry that is not a string, then: if no path of [ps]
    is accepted, the result is [pathToCodeValuesAreNotStrings]; if one is,
    the bad entry is never looked at, the result is not that failure, and
    the code is the one found with [ps] alone. *)
Theorem X4_path_entries_checked_lazily :
  forall objectToParse options ps x rest,
    pathToCode options = Some (JArray (map JString ps ++ x :: rest)) ->
    isString x = false ->
    (fst (firstAcceptedText objectToParse ps) = None ->
       __processAllValuesFromPaths objectToParse options
       = inl pathToCodeValuesAreNotStrings) /\
    (fst (firstAcceptedText objectToParse ps) <> None ->
       __processAllValuesFromPaths objectToParse options
         <> inl pathToCodeValuesAreNotStrings /\
       forall r, __processAllValuesFromPaths objectToParse options = inr r ->
                 (codePath r, codeBeforeTransform r) = firstAcceptedText objectToParse ps).
Proof.
  intros obj options ps x rest Hp Hx.
  assert (Hw : withPaths (pathToCode options) pathToCodeIsInvalid pathToCodeIsNotAnArray
                 (stringFromPaths pathToCodeValuesAreNotStrings obj)
               = match fst (firstAcceptedText obj ps) with
                 | Some _ => inr (firstAcceptedText obj ps)
                 | None => inl pathToCodeValuesAreNotStrings
                 end).
  { rewrite Hp. cbn [withPaths]. now apply stringFromPaths_bad_entry. }
  split.
  - intros Hn. rewrite Hn in Hw. unfold __processAllValuesFromPaths. now rewrite Hw.
  - intros Hs. destruct (fst (firstAcceptedText obj ps)) eqn:E; [|contradiction].
    split.
    + intros H. apply (process_after_code _ _ _ _ Hw) in H.
      unfold laterFieldReasons in H. cbn in H.
      repeat (destruct H as [H|H]; [discriminate|]). exact H.
    + intros r H. destruct (process_inr _ _ _ H) as (Hc & _). congruence.
Qed.

(** With [pathToCode: ['code', 5]], the payload [{}] fails on the entry 5
    and [{ code: 'E1', message: 'boom' }] does not reach it. *)
Lemma X4_witness :
  __processAllValuesFromPaths (JObject []) lazyOptions = inl pathToCodeValuesAreNotStrings /\
  exists r,
    __processAllValuesFromPaths plainError lazyOptions = inr r /\
    (codePath r, codeBeforeTransform r) = (Some "code", Some "E1").
Proof.
  split.
  - apply (X4_path_entries_checked_lazily (JObject []) lazyOptions ["code"]
             (JNumber (Dec 5 0)) [] eq_refl eq_refl).
    reflexivity.
  - eexists. split; [vm_compute; reflexivity|].
    apply (X4_path_entries_checked_lazily plainError lazyOptions ["code"]
             (JNumber (Dec 5 0)) [] eq_refl eq_refl).
    + discriminate.
    + vm_compute. reflexivity.
Defined.

Lemma variants_strings p ps :
  map (fun s => match s with
                | JString t => JString (toString p ++ "." ++ t)%string
                | _ => s
                end) (map JString ps)
  = map JString (map (prefixed (toString p)) ps).
Proof. rewrite !map_map. reflexivity. Qed.

Lemma fold_variants ps : forall qs acc,
  fold_left (fun result p =>
               result ++ map (fun s => match s with
                                       | JString t => JString (toString p ++ "." ++ t)%string
                                       | _ => s
                                       end) (map JString ps))
            (map JString qs) (map JString acc)
  = map JString (acc ++ flat_map (fun q => map (prefixed q) ps) qs).
Proof.
  induction qs as [|q qs IH]; intros acc; cbn [map fold_left flat_map].
  - now rewrite app_nil_r.
  - rewrite variants_strings, <- map_app, IH, <- app_assoc. reflexivity.
Qed.

(** X5: [addPrefixPathVariants] keeps the given paths first, in order, and
    appends, for each prefix in turn, the paths [prefix.path]; a prefix
    given as one string is the list of that one prefix. *)
Theorem X5_prefix_variants_follow_the_originals :
  forall q qs ps,
    addPrefixPathVariants (JArray (map JString (q :: qs))) (map JString ps)
    = map JString (ps ++ flat_map (fun q' => map (prefixed q') ps) (q :: qs)) /\
    addPrefixPathVariants (JString q) (map JString ps)
    = addPrefixPathVariants (JArray [JString q]) (map JString ps).
Proof.
  intros q qs ps. split.
  - unfold addPrefixPathVariants. cbn [map].
    exact (fold_variants ps (q :: qs) ps).
  - unfold addPrefixPathVariants. cbn [fold_left]. reflexivity.
Qed.

(* ===================================================================== *)
(** * More on summaries *)
(* ===================================================================== *)

Lemma process_default obj :
  __processAllValuesFromPaths obj DEFAULT_BUILD_OPTIONS = inr (defaultValues obj).
Proof.
  unfold __processAllValuesFromPaths.
  rewrite (withPaths_strings _ (pathToCode DEFAULT_BUILD_OPTIONS) _ _ _ defaultCodePaths eq_refl).
  rewrite (withPaths_strings _ (pathToNumberCode DEFAULT_BUILD_OPTIONS) _ _ _
             defaultNumberCodePaths eq_refl).
  rewrite (withPaths_strings _ (pathToMessage DEFAULT_BUILD_OPTIONS) _ _ _
             defaultMessagePaths eq_refl).
  rewrite (withPaths_strings _ (pathToDetails DEFAULT_BUILD_OPTIONS) _ _ _
             defaultDetailsPaths eq_refl).
  rewrite (withPaths_strings _ (pathToDomain DEFAULT_BUILD_OPTIONS) _ _ _
             defaultDomainPaths eq_refl).
  rewrite !stringFromPaths_first, numberFromPaths_first.
  unfold defaultValues.
  destruct (firstAcceptedText obj defaultCodePaths), (firstAcceptedNumber obj defaultNumberCodePaths),
    (firstAcceptedText obj defaultMessagePaths), (firstAcceptedText obj defaultDetailsPaths),
    (firstAcceptedText obj defaultDomainPaths). reflexivity.
Qed.

Lemma defaultTransform_state v obj :
  defaultTransform (beforeTransformState v) obj = Ret (defaultTransformed v).
Proof.
  unfold defaultTransform, beforeTransformState, defaultTransformed, defaultCode.
  destruct (codeBeforeTransform v) as [c|]; [reflexivity|].
  destruct (numberCodeBeforeTransform v) as [n|]; reflexivity.
Qed.

Lemma firstAcceptedNumber_notNaN obj ps n :
  snd (firstAcceptedNumber obj ps) = Some n -> isNaN n = false.
Proof.
  intros H. pose proof (numberFromPaths_first obj ps) as Hf.
  destruct (firstAcceptedNumber obj ps) as [p o]. cbn in H. subst o.
  exact (numberFromPaths_notNaN _ _ _ _ Hf).
Qed.

Lemma defaultTransformed_valid v :
  (forall n, numberCodeBeforeTransform v = Some n -> isNaN n = false) ->
  transformResultFailure (defaultTransformed v) = None.
Proof.
  intros Hn. unfold transformResultFailure, defaultTransformed, defaultCode.
  destruct v as [cb cp nb np mb mp db dp ob op]. cbn in Hn |- *.
  destruct nb as [n|].
  - pose proof (Hn n eq_refl) as Hnan.
    destruct n; [discriminate| |]; destruct cb, mb, db, ob;
      unfold truthyNotString; cbn; repeat (rewrite andb_false_r; cbn); reflexivity.
  - destruct cb, mb, db, ob;
      unfold truthyNotString; cbn; repeat (rewrite andb_false_r; cbn); reflexivity.
Qed.

Lemma default_passes_validation obj :
  transformResultFailure (defaultTransformed (defaultValues obj)) = None.
Proof.
  apply defaultTransformed_valid. intros n H.
  exact (firstAcceptedNumber_notNaN _ _ _ H).
Qed.

Lemma decode_object obj :
  typeof obj = TObject -> decodeCandidate obj = Ret obj.
Proof.
  intros H. rewrite decodeCandidate_decoded. destruct obj; try discriminate; reflexivity.
Qed.

Lemma build_default obj p d w :
  is_nullish obj = false -> typeof obj = TObject ->
  orDefault w = DEFAULT_BUILD_OPTIONS ->
  buildSummaryFromObject obj p d w
  = Ret (inr (summaryOf obj p d (defaultValues obj) (defaultTransformed (defaultValues obj)))).
Proof.
  intros Hn Ht Hw.
  rewrite (build_after_transform obj p d w obj (defaultValues obj) defaultTransform
             (defaultTransformed (defaultValues obj)) Hn (decode_object obj Ht) Ht).
  - unfold outcome. now rewrite default_passes_validation.
  - rewrite Hw. apply process_default.
  - now rewrite Hw.
  - apply defaultTransform_state.
Qed.

Lemma is_empty_app a b : is_empty (a ++ b)%string = is_empty a && is_empty b.
Proof. destruct a; reflexivity. Qed.

Lemma string_of_Z_nonempty z : is_empty (string_of_Z z) = false.
Proof.
  unfold string_of_Z. destruct (Z.to_int z) as [u|u]; cbn; [|reflexivity].
  destruct u; reflexivity.
Qed.

Lemma Number_toString_nonempty n : is_empty (Number_toString n) = false.
Proof.
  destruct n as [|[]|m e]; try reflexivity.
  unfold Number_toString. destruct (normalize m e) as [m' e'].
  destruct (m' =? 0)%Z; [reflexivity|].
  rewrite is_empty_app.
  match goal with |- _ && is_empty ?body = false => assert (Hb : is_empty body = false) end.
  { repeat match goal with
           | |- is_empty (if ?c then _ else _) = false => destruct c
           end;
    rewrite ?is_empty_app, ?string_of_Z_nonempty; cbn; rewrite ?andb_false_r; reflexivity. }
  rewrite Hb. apply andb_false_r.
Qed.

Lemma keptText_accepted x : acceptedAsText x = true -> isSome (keptText x) = true.
Proof. destruct x; try discriminate; reflexivity. Qed.

(** A text field is found at a path that is not empty, and then something
    is kept for it. *)
Lemma firstAcceptedText_cases obj ps :
  (firstAcceptedText obj ps = (None, None)) \/
  (exists p t, firstAcceptedText obj ps = (Some p, Some t) /\ is_empty p = false).
Proof.
  unfold firstAcceptedText.
  destruct (find _ ps) as [p|] eqn:E; [|auto].
  right. apply find_some in E. destruct E as [_ E].
  pose proof (keptText_accepted _ E) as Hk.
  destruct (keptText (findNestedValueForPath obj p)) as [t|]; [|discriminate].
  exists p, t. split; [reflexivity|].
  destruct p; [discriminate E|reflexivity].
Qed.

Lemma validSummary_transformed obj p d v :
  FoundTogether (codePath v) (codeBeforeTransform v) ->
  FoundTogether (messagePath v) (messageBeforeTransform v) ->
  validSummary (summaryOf obj p d v (defaultTransformed v))
  = (isSome (codeBeforeTransform v) || isSome (numberCodeBeforeTransform v))
    && isSome (messageBeforeTransform v).
Proof.
  destruct v as [cb cp nb np mb mp db dp ob op].
  unfold validSummary, summaryOf, defaultTransformed, defaultCode. cbn.
  intros [[-> ->]|(p1 & t1 & -> & -> & H1)] [[-> ->]|(p2 & t2 & -> & -> & H2)];
    cbn; rewrite ?H1, ?H2; cbn; destruct nb as [n|]; cbn;
    rewrite ?Number_toString_nonempty; cbn; rewrite ?orb_true_r; reflexivity.
Qed.

Lemma firstAcceptedText_together obj ps :
  FoundTogether (fst (firstAcceptedText obj ps)) (snd (firstAcceptedText obj ps)).
Proof.
  destruct (firstAcceptedText_cases obj ps) as [->|(p & t & -> & H)]; [left; auto|].
  right. exists p, t. auto.
Qed.

Lemma validSummary_default obj p d :
  let v := defaultValues obj in
  validSummary (summaryOf obj p d v (defaultTransformed v))
  = (isSome (codeBeforeTransform v) || isSome (numberCodeBeforeTransform v))
    && isSome (messageBeforeTransform v).
Proof.
  intros v. apply validSummary_transformed; apply firstAcceptedText_together.
Qed.

(** X6: with the default options a candidate that is a non-null object
    always gets a summary.  The summary is valid exactly when a message is
    found and a code or a number code is found; the record built from it
    then has the code found, or else the decimal text of the number code
    found, the message found and the number code found. *)
Theorem X6_default_record_needs_message_and_code :
  forall candidate errorsPath didDetect,
    is_nullish candidate = false -> typeof candidate = TObject ->
    let v := defaultValues candidate in
    exists s,
      buildSummaryFromObject candidate errorsPath didDetect None = Ret (inr s) /\
      validSummary s
      = (isSome (codeBeforeTransform v) || isSome (numberCodeBeforeTransform v))
        && isSome (messageBeforeTransform v) /\
      (validSummary s = true ->
         ErrorObject.code (finalRecord [] s) = defaultCodeText v /\
         Some (ErrorObject.message (finalRecord [] s)) = messageBeforeTransform v /\
         ErrorObject.numberCode (finalRecord [] s) = optNumber (numberCodeBeforeTransform v)).
Proof.
  intros obj p d Hn Ht v. subst v. eexists.
  split; [apply (build_default obj p d None Hn Ht eq_refl)|].
  split; [apply validSummary_default|].
  rewrite (validSummary_default obj p d).
  set (v := defaultValues obj).
  pose proof (firstAcceptedText_together obj defaultCodePaths) as Hc.
  pose proof (firstAcceptedText_together obj defaultMessagePaths) as Hm.
  change (fst (firstAcceptedText obj defaultCodePaths)) with (codePath v) in Hc.
  change (snd (firstAcceptedText obj defaultCodePaths)) with (codeBeforeTransform v) in Hc.
  change (fst (firstAcceptedText obj defaultMessagePaths)) with (messagePath v) in Hm.
  change (snd (firstAcceptedText obj defaultMessagePaths)) with (messageBeforeTransform v) in Hm.
  clearbody v. destruct v as [cb cp nb np mb mp db dp ob op].
  unfold finalRecord, summaryOf, defaultTransformed, defaultCodeText, defaultCode. cbn in *.
  destruct Hc as [[-> ->]|(p1 & t1 & -> & -> & H1)];
    destruct Hm as [[-> ->]|(p2 & t2 & -> & -> & H2)];
    cbn; rewrite ?H1, ?H2; cbn; destruct nb as [n|]; cbn;
    rewrite ?Number_toString_nonempty; cbn; try discriminate;
    intros _; repeat apply conj; try reflexivity;
    rewrite ?orb_true_r, ?orb_false_r; cbn; try reflexivity;
    destruct (truthyString np); reflexivity.
Qed.

(** [{ error: { code: 'E1', message: 'boom' } }] gives the record with code
    [E1] and message [boom]. *)
Lemma X6_witness :
  exists s,
    buildSummaryFromObject (JObject [("error", plainError)]) None false None = Ret (inr s) /\
    validSummary s = true /\
    ErrorObject.code (finalRecord [] s) = "E1" /\
    ErrorObject.message (finalRecord [] s) = "boom".
Proof.
  destruct (X6_default_record_needs_message_and_code (JObject [("error", plainError)])
              None false eq_refl eq_refl) as (s & Hs & Hv & Hrec).
  assert (Hvalid : validSummary s = true) by (rewrite Hv; vm_compute; reflexivity).
  destruct (Hrec Hvalid) as (Hc & Hm & _).
  exists s. split; [exact Hs|]. split; [exact Hvalid|]. split.
  - rewrite Hc. vm_compute. reflexivity.
  - assert (Some (ErrorObject.message (finalRecord [] s)) = Some "boom") as H
      by (rewrite Hm; vm_compute; reflexivity).
    now injection H.
Defined.



(** X8: an exception thrown by the transform does not escape
    [buildSummaryFromObject]: the result for that candidate is
    [generalBuildSummaryFromObjectError]. *)
Theorem X8_throwing_transform_is_contained :
  forall candidate errorsPath didDetect options f v,
    is_nullish candidate = false -> typeof candidate = TObject ->
    __processAllValuesFromPaths candidate options = inr v ->
    transform options = Some (Function f) ->
    f (beforeTransformState v) candidate = Throw ->
    buildSummaryFromObject candidate errorsPath didDetect (Some options)
    = Ret (inl generalBuildSummaryFromObjectError).
Proof.
  intros m p d o f v Hn Ht Hv Hf Hthrow.
  unfold buildSummaryFromObject, buildSummaryFromObject_try.
  rewrite Hn, decodeCandidate_decoded. cbn [bind orDefault].
  assert (Hd : decoded m = m) by (destruct m; try discriminate; reflexivity).
  rewrite Hd, Ht. cbn [JsType_eqb negb]. rewrite Hv, Hf, Hthrow. reflexivity.
Qed.

(** The default options with a transform that throws. *)
Lemma X8_witness :
  buildSummaryFromObject plainError None false (Some (onlyTransform throwingTransform))
  = Ret (inl generalBuildSummaryFromObjectError).
Proof.
  apply (X8_throwing_transform_is_contained plainError None false
           (onlyTransform throwingTransform) throwingTransform (defaultValues plainError)
           eq_refl eq_refl);
    [vm_compute; reflexivity|reflexivity|reflexivity].
Defined.

(** X9: [buildSummariesFromObject] always returns, and never the empty
    list.  For a payload that is [undefined] or [null] the list is
    [['isNullish']]; for any other payload that is not of object type it is
    [['isNotAnObject']]. *)
Theorem X9_summaries_never_empty :
  forall input withOptions,
    exists first rest,
      buildSummariesFromObject input withOptions = Ret (first :: rest) /\
      (is_nullish input = true -> first = inl isNullish /\ rest = []) /\
      (is_nullish input = false -> typeof input <> TObject ->
         first = inl isNotAnObject /\ rest = []).
Proof.
  intros input w.
  destruct (buildSummaries_returns input w) as [summaries Hs].
  pose proof (buildSummaries_nonempty _ _ _ Hs) as Hne.
  destruct summaries as [|first rest]; [contradiction|].
  exists first, rest. split; [exact Hs|].
  revert Hs. unfold buildSummariesFromObject, buildSummariesFromObject_try.
  destruct (is_nullish input).
  - cbn. intros H. injection H as <- <-. split; [auto|discriminate].
  - destruct (typeof input) eqn:Ht; cbn; intros H;
      try (injection H as <- <-; split; [discriminate|auto]).
    split; [discriminate|]. intros _ Hc. contradiction.
Qed.

(* ===================================================================== *)
(** * More on the result aggregator *)
(* ===================================================================== *)

(** X10: the first valid summary of a batch becomes the primary record,
    whatever entries without a record precede it.  The valid summaries
    after it become its secondary errors, in order; the primary and every
    secondary record carry the notes of all the other entries of the batch,
    those before and those after; and every entry of the batch gives a
    record or a note. *)
Theorem X10_first_valid_summary_is_primary :
  forall before s after raw fallbackError,
    noneValid before = true ->
    validSummary s = true ->
    let summaries := before ++ inr s :: after in
    let notes := flat_map notesOf before ++ flat_map notesOf after in
    let next := flat_map (recordsOf notes) after in
    let primary :=
      ErrorObject.setRaw
        (ErrorObject.setNextErrors (finalRecord notes s)
           (match next with [] => None | _ :: _ => Some next end))
        raw in
    processErrorObjectResult summaries raw fallbackError
      = {| error := Some primary; force := primary |} /\
    (List.length notes + List.length next + 1 = List.length summaries)%nat.
Proof.
  intros pre s post raw fb Hpre Hs summaries notes next primary.
  assert (Hnotes : flat_map notesOf summaries = notes).
  { unfold summaries, notes. rewrite flat_map_app. cbn [flat_map notesOf].
    rewrite Hs. reflexivity. }
  assert (Hrec : flat_map (recordsOf notes) summaries = finalRecord notes s :: next).
  { unfold summaries. rewrite flat_map_app, (noneValid_records notes pre Hpre).
    cbn [flat_map recordsOf app]. rewrite Hs. reflexivity. }
  split.
  - unfold processErrorObjectResult. rewrite validErrorsOf_spec, Hnotes, Hrec.
    unfold primary. destruct next; reflexivity.
  - pose proof (one_record_or_note notes summaries) as H.
    rewrite Hrec, Hnotes in H. cbn [List.length] in H. lia.
Qed.

(** A failure, then two valid summaries: the second entry is the primary
    record, with one secondary error and the one note. *)
Lemma X10_witness :
  exists primary,
    processErrorObjectResult
      [inl buildSummaryIsNullish; inr (graphqlSummary "m1" "C1");
       inr (graphqlSummary "m2" "C2")] graphqlPayload exampleFallback
    = {| error := Some primary; force := primary |} /\
    ErrorObject.code primary = "C1" /\
    option_map (@List.length _) (ErrorObject.nextErrors primary) = Some 1%nat /\
    ErrorObject.processingErrors primary
    = Some [{| errorCode := buildSummaryIsNullish; summary := None |}].
Proof.
  destruct (X10_first_valid_summary_is_primary [inl buildSummaryIsNullish]
              (graphqlSummary "m1" "C1") [inr (graphqlSummary "m2" "C2")]
              graphqlPayload exampleFallback eq_refl eq_refl) as [H _].
  eexists. split; [exact H|]. repeat split.
Defined.

(* ===================================================================== *)
(** * More on the input validator *)
(* ===================================================================== *)

(** X11: a payload that is [undefined], [null] or not of object type is
    rejected before any option is read.  Whatever the options, the result
    has no record and its forced record is the fallback with the single
    note [checkIsNullish], respectively [checkIsNotAnObject]; a payload
    given as JSON text is not decoded by the entry point. *)
Theorem X11_primitive_payload_is_rejected_first :
  forall fallback payload withOptions,
    (is_nullish payload = true \/ typeof payload <> TObject) ->
    from fallback payload withOptions
    = Ret {| error := None;
             force := ErrorObject.setProcessingErrors (ErrorObject.setRaw fallback payload)
                        [{| errorCode := nullishOrPrimitiveReason payload;
                            summary := None |}] |}.
Proof.
  intros fb payload w H. apply from_checks_failed.
  unfold checkInputForInitialObject, checkInputForInitialObject_try, nullishOrPrimitiveReason.
  destruct (is_nullish payload) eqn:Hn; [reflexivity|].
  destruct H as [H|H]; [discriminate|].
  destruct (typeof payload); try reflexivity. contradiction.
Qed.

(** The text [{}] as a payload. *)
Lemma X11_witness :
  from exampleFallback (JString "{}") None
  = Ret {| error := None;
           force := ErrorObject.setProcessingErrors
                      (ErrorObject.setRaw exampleFallback (JString "{}"))
                      [{| errorCode := checkIsNotAnObject; summary := None |}] |}.
Proof.
  apply (X11_primitive_payload_is_rejected_first exampleFallback (JString "{}") None).
  right. discriminate.
Defined.

(** X12: a value rule set that is [null] lets every object payload pass.
    [typeof null] is ['object'], [Object.entries(null)] throws, the
    exception is swallowed, and the type rules and key rules are never
    checked. *)
Theorem X12_null_rule_set_disables_validation :
  forall input options,
    is_nullish input = false -> typeof input = TObject ->
    checkInputObjectForValues options = Some JNull ->
    checkInputForInitialObject input (Some options) = Ret None.
Proof.
  intros input options Hn Ht Hv.
  unfold checkInputForInitialObject, checkInputForInitialObject_try.
  cbn [orDefault]. rewrite Hn, Ht, Hv. reflexivity.
Qed.

(** The key rule [{ code: { exists: true } }] rejects [{}]; with
    [checkInputObjectForValues: null] beside it, [{}] passes. *)
Lemma X12_witness :
  checkInputForInitialObject (JObject []) (Some nullValueRules) = Ret None /\
  checkInputForInitialObject (JObject []) (Some codeKeyRule)
  = Ret (Some checkInputObjectForKeysFailed).
Proof.
  split; [|vm_compute; reflexivity].
  apply (X12_null_rule_set_disables_validation (JObject []) nullValueRules);
    reflexivity.
Defined.

Lemma member_not_nullish rule key : is_nullish rule = false -> member rule key = Ret (get rule key).
Proof. unfold member. now intros ->. Qed.

Lemma checkValues_spec input entries :
  forallb (fun e => negb (is_nullish (snd e))) entries = true ->
  checkValues input entries
  = Ret (if existsb (valueRuleFails input) entries
         then Some checkInputObjectForValuesFailed else None).
Proof.
  induction entries as [|[key rule] rest IH]; cbn [forallb existsb checkValues]; [reflexivity|].
  rewrite andb_true_iff, negb_true_iff. cbn [snd]. intros [Hr Hrest].
  rewrite !(member_not_nullish _ _ Hr). cbn [bind].
  unfold valueRuleFails at 1. cbn [fst snd].
  destruct (mismatch _ _); cbn [orb]; [reflexivity|]. exact (IH Hrest).
Qed.

Lemma checkTypes_spec input entries :
  forallb (fun e => negb (is_nullish (snd e))) entries = true ->
  checkTypes input entries = Ret (firstFailure (typeRuleFailure input) entries).
Proof.
  induction entries as [|[key rule] rest IH]; cbn [forallb firstFailure checkTypes]; [reflexivity|].
  rewrite andb_true_iff, negb_true_iff. cbn [snd]. intros [Hr Hrest].
  rewrite !(member_not_nullish _ _ Hr). cbn [bind].
  unfold typeRuleFailure at 1. cbn [fst snd].
  destruct (truthy (get rule "valueIsArray") && _); [reflexivity|].
  destruct (mismatch _ _); [reflexivity|]. exact (IH Hrest).
Qed.

Lemma checkKeys_spec input entries :
  forallb (fun e => negb (is_nullish (snd e))) entries = true ->
  checkKeys input entries
  = Ret (if existsb (keyRuleFails input) entries
         then Some checkInputObjectForKeysFailed else None).
Proof.
  induction entries as [|[key rule] rest IH]; cbn [forallb existsb checkKeys]; [reflexivity|].
  rewrite andb_true_iff, negb_true_iff. cbn [snd]. intros [Hr Hrest].
  rewrite !(member_not_nullish _ _ Hr). cbn [bind].
  unfold keyRuleFails at 1. cbn [fst snd].
  destruct (mismatch _ _); cbn [orb]; [reflexivity|]. exact (IH Hrest).
Qed.

Lemma checkRuleSet_spec rules e loop spec :
  wellFormedRules rules = true ->
  (forall entries, forallb (fun e => negb (is_nullish (snd e))) entries = true ->
                   loop entries = Ret (spec entries)) ->
  spec [] = None ->
  checkRuleSet rules e loop = Ret (spec (ruleEntries rules)).
Proof.
  intros Hw Hloop Hnil. destruct rules as [r|]; cbn; [|now rewrite Hnil].
  destruct r; try discriminate. cbn in *. now apply Hloop.
Qed.

(** X13: for an object payload and rule sets that are each absent or an
    object whose rules are neither [undefined] nor [null], the validator
    returns the first failure in the order value rules, type rules, key
    rules, each rule set in the order of its entries, and passes when no
    rule fails. *)
Theorem X13_validation_verdict :
  forall input options,
    is_nullish input = false -> typeof input = TObject ->
    wellFormedRules (checkInputObjectForValues options) = true ->
    wellFormedRules (checkInputObjectForTypes options) = true ->
    wellFormedRules (checkInputObjectForKeys options) = true ->
    checkInputForInitialObject input (Some options) = Ret (verdict input options).
Proof.
  intros input options Hn Ht Hv Hty Hk.
  unfold checkInputForInitialObject, checkInputForInitialObject_try, verdict.
  cbn [orDefault]. rewrite Hn, Ht. cbn [JsType_eqb negb].
  rewrite (checkRuleSet_spec _ _ _
             (fun es => if existsb (valueRuleFails input) es
                        then Some checkInputObjectForValuesFailed else None)
             Hv (checkValues_spec input) eq_refl).
  cbn [bind].
  destruct (existsb (valueRuleFails input) _); [reflexivity|].
  rewrite (checkRuleSet_spec _ _ _ (firstFailure (typeRuleFailure input))
             Hty (checkTypes_spec input) eq_refl).
  cbn [bind].
  destruct (firstFailure _ _); [reflexivity|].
  rewrite (checkRuleSet_spec _ _ _
             (fun es => if existsb (keyRuleFails input) es
                        then Some checkInputObjectForKeysFailed else None)
             Hk (checkKeys_spec input) eq_refl).
  reflexivity.
Qed.

(** The key rule [{ code: { exists: true } }] on [{}] and on a payload with
    a code. *)
Lemma X13_witness :
  checkInputForInitialObject (JObject []) (Some codeKeyRule)
  = Ret (Some checkInputObjectForKeysFailed) /\
  checkInputForInitialObject plainError (Some codeKeyRule) = Ret None.
Proof.
  split.
  - rewrite (X13_validation_verdict (JObject []) codeKeyRule
               eq_refl eq_refl eq_refl eq_refl eq_refl).
    vm_compute. reflexivity.
  - rewrite (X13_validation_verdict plainError codeKeyRule
               eq_refl eq_refl eq_refl eq_refl eq_refl).
    vm_compute. reflexivity.
Defined.

(* ===================================================================== *)
(** * More on the entry point *)
(* ===================================================================== *)

(** X14: a payload that is a non-null object with a string [code] and a
    string [message], and whose [errors] and [errs] are not arrays, comes
    back under the default options as the record with that code and that
    message, the payload as its raw value, no secondary errors and no
    notes. *)
Theorem X14_well_formed_error_round_trip :
  forall fallback payload c m,
    is_nullish payload = false -> typeof payload = TObject ->
    get payload "code" = JString c ->
    get payload "message" = JString m ->
    Array_isArray (get payload "errors") = false ->
    Array_isArray (get payload "errs") = false ->
    exists record,
      from fallback payload None = Ret {| error := Some record; force := record |} /\
      ErrorObject.code record = c /\
      ErrorObject.message record = m /\
      ErrorObject.raw record = payload /\
      ErrorObject.nextErrors record = None /\
      ErrorObject.processingErrors record = Some [].
Proof.
  intros fb payload c m Hn Ht Hc Hm He1 He2.
  assert (Hcheck : checkInputForInitialObject payload (Some (mergedOptions None)) = Ret None)
    by (apply checkInput_without_rules; auto).
  assert (Hfind : findErrorsArray payload [JString "errors"; JString "errs"]
                  = inr ([], None, false)).
  { cbn [findErrorsArray].
    rewrite (findNested_plain_key payload "errors" Hn Ht eq_refl),
            (findNested_plain_key payload "errs" Hn Ht eq_refl), He1, He2.
    rewrite !andb_false_r. reflexivity. }
  set (v := defaultValues payload).
  set (s := summaryOf payload None false v (defaultTransformed v)).
  assert (Hsum : buildSummariesFromObject payload (Some (mergedOptions None)) = Ret [inr s]).
  { rewrite (buildSummaries_unfold payload (Some (mergedOptions None))
               [JString "errors"; JString "errs"] Hn Ht eq_refl), Hfind.
    cbn [List.length Nat.eqb forEachPush].
    rewrite (build_default payload None false
               (Some (orDefault (Some (mergedOptions None)))) Hn Ht eq_refl).
    reflexivity. }
  assert (Hcode : firstAcceptedText payload defaultCodePaths = (Some "code", Some c)).
  { unfold firstAcceptedText.
    change defaultCodePaths with ("code" :: tl defaultCodePaths). cbn [find].
    rewrite (findNested_plain_key payload "code" Hn Ht eq_refl), Hc.
    cbn [acceptedAsText]. cbn iota.
    rewrite (findNested_plain_key payload "code" Hn Ht eq_refl), Hc. reflexivity. }
  assert (Hmsg : firstAcceptedText payload defaultMessagePaths = (Some "message", Some m)).
  { unfold firstAcceptedText.
    change defaultMessagePaths with ("message" :: tl defaultMessagePaths). cbn [find].
    rewrite (findNested_plain_key payload "message" Hn Ht eq_refl), Hm.
    cbn [acceptedAsText]. cbn iota.
    rewrite (findNested_plain_key payload "message" Hn Ht eq_refl), Hm. reflexivity. }
  assert (Hvalid : validSummary s = true).
  { unfold s, v. rewrite (validSummary_default payload None false).
    cbn [defaultValues codeBeforeTransform messageBeforeTransform numberCodeBeforeTransform].
    rewrite Hcode, Hmsg. reflexivity. }
  exists (ErrorObject.setRaw (ErrorObject.setNextErrors (finalRecord [] s) None) payload).
  split.
  - rewrite (from_checks_passed fb payload None _ Hcheck Hsum).
    unfold processErrorObjectResult. rewrite validErrorsOf_spec.
    cbn [flat_map notesOf recordsOf app]. rewrite Hvalid. reflexivity.
  - cbn [ErrorObject.setRaw ErrorObject.setNextErrors ErrorObject.code ErrorObject.message
         ErrorObject.raw ErrorObject.nextErrors ErrorObject.processingErrors finalRecord
         ErrorObject.new].
    unfold s, summaryOf, v, defaultTransformed, defaultCode.
    cbn [value code message defaultValues codeBeforeTransform codePath messageBeforeTransform
         messagePath numberCodeBeforeTransform].
    rewrite Hcode, Hmsg. repeat split; reflexivity.
Qed.

(** [{ code: 'E1', message: 'boom' }] *)
Lemma X14_witness :
  exists record,
    from exampleFallback plainError None
    = Ret {| error := Some record; force := record |} /\
    ErrorObject.code record = "E1" /\
    ErrorObject.message record = "boom" /\
    ErrorObject.raw record = plainError.
Proof.
  destruct (X14_well_formed_error_round_trip exampleFallback plainError "E1" "boom"
              eq_refl eq_refl eq_refl eq_refl eq_refl eq_refl)
    as (record & H & Hc & Hm & Hr & _).
  exists record. auto.
Defined.

Lemma bind_ret_inv A B (m : Exn A) (k : A -> Exn B) b :
  bind m k = Ret b -> exists a, m = Ret a /\ k a = Ret b.
Proof. destruct m; cbn; [eauto|discriminate]. Qed.

Lemma checkValues_reason input entries e :
  checkValues input entries = Ret (Some e) -> e = checkInputObjectForValuesFailed.
Proof.
  induction entries as [|[key rule] rest IH]; cbn [checkValues]; [discriminate|].
  intros H. apply bind_ret_inv in H. destruct H as (x & _ & H).
  apply bind_ret_inv in H. destruct H as (y & _ & H).
  destruct (mismatch _ _); [congruence|auto].
Qed.

Lemma checkTypes_reason input entries e :
  checkTypes input entries = Ret (Some e) ->
  e = checkInputObjectForTypesValueIsArrayFailed \/ e = checkInputObjectForTypesFailed.
Proof.
  induction entries as [|[key rule] rest IH]; cbn [checkTypes]; [discriminate|].
  intros H. apply bind_ret_inv in H. destruct H as (x & _ & H).
  apply bind_ret_inv in H. destruct H as (y & _ & H).
  destruct (truthy x && _); [left; congruence|].
  apply bind_ret_inv in H. destruct H as (z & _ & H).
  destruct (mismatch _ _); [right; congruence|auto].
Qed.

Lemma checkKeys_reason input entries e :
  checkKeys input entries = Ret (Some e) -> e = checkInputObjectForKeysFailed.
Proof.
  induction entries as [|[key rule] rest IH]; cbn [checkKeys]; [discriminate|].
  intros H. apply bind_ret_inv in H. destruct H as (x & _ & H).
  destruct (mismatch _ _); [congruence|auto].
Qed.

Lemma checkRuleSet_reason rules e0 loop e :
  checkRuleSet rules e0 loop = Ret (Some e) ->
  e = e0 \/ exists entries, loop entries = Ret (Some e).
Proof.
  unfold checkRuleSet. destruct rules as [r|]; [|discriminate].
  destruct (negb _); [left; congruence|].
  intros H. apply bind_ret_inv in H. destruct H as (entries & _ & H). eauto.
Qed.

Lemma try_catch_inv A (body : Exn A) h a :
  try_catch body (Ret h) = Ret a -> body = Ret a \/ (body = Throw /\ a = h).
Proof. destruct body; cbn; intros H; injection H as <-; auto. Qed.

Lemma checkInput_reason input w e :
  checkInputForInitialObject input w = Ret (Some e) -> unreported e = false.
Proof.
  unfold checkInputForInitialObject. intros H.
  apply try_catch_inv in H. destruct H as [H|[_ H]]; [|discriminate].
  unfold checkInputForInitialObject_try in H.
  destruct (is_nullish input); [injection H as <-; reflexivity|].
  destruct (negb _); [injection H as <-; reflexivity|].
  apply bind_ret_inv in H. destruct H as ([e1|] & H1 & H).
  { injection H as <-. apply checkRuleSet_reason in H1.
    destruct H1 as [->|(entries & H1)]; [reflexivity|].
    now rewrite (checkValues_reason _ _ _ H1). }
  apply bind_ret_inv in H. destruct H as ([e2|] & H2 & H).
  { injection H as <-. apply checkRuleSet_reason in H2.
    destruct H2 as [->|(entries & H2)]; [reflexivity|].
    destruct (checkTypes_reason _ _ _ H2) as [-> | ->]; reflexivity. }
  apply checkRuleSet_reason in H.
  destruct H as [->|(entries & H)]; [reflexivity|].
  now rewrite (checkKeys_reason _ _ _ H).
Qed.

Lemma withPaths_some_reason A (o : option JsValue) e1 e2
    (loop : list JsValue -> ErrorObjectErrorResult + A) e :
  isSome o = true ->
  withPaths o e1 e2 loop = inl e -> e = e2 \/ exists paths, loop paths = inl e.
Proof.
  intros Ho H. apply withPaths_inl in H.
  destruct H as [[-> _]|[(x & _ & _ & ->)|(paths & _ & H)]]; [discriminate|auto|eauto].
Qed.

Lemma process_reason obj options e :
  pathsConfigured options = true ->
  __processAllValuesFromPaths obj options = inl e -> unreported e = false.
Proof.
  unfold pathsConfigured. rewrite !andb_true_iff.
  intros [[[[H1 H2] H3] H4] H5]. unfold __processAllValuesFromPaths.
  destruct (withPaths (pathToCode options) _ _ _) as [e1|[? ?]] eqn:E1.
  { intros H. injection H as <-. apply (withPaths_some_reason _ _ _ _ _ _ H1) in E1.
    destruct E1 as [->|(paths & E)]; [reflexivity|].
    now rewrite (stringFromPaths_inl _ _ _ _ E). }
  destruct (withPaths (pathToNumberCode options) _ _ _) as [e1|[? ?]] eqn:E2.
  { intros H. injection H as <-. apply (withPaths_some_reason _ _ _ _ _ _ H2) in E2.
    destruct E2 as [->|(paths & E)]; [reflexivity|].
    now rewrite (numberFromPaths_inl _ _ _ E). }
  destruct (withPaths (pathToMessage options) _ _ _) as [e1|[? ?]] eqn:E3.
  { intros H. injection H as <-. apply (withPaths_some_reason _ _ _ _ _ _ H3) in E3.
    destruct E3 as [->|(paths & E)]; [reflexivity|].
    now rewrite (stringFromPaths_inl _ _ _ _ E). }
  destruct (withPaths (pathToDetails options) _ _ _) as [e1|[? ?]] eqn:E4.
  { intros H. injection H as <-. apply (withPaths_some_reason _ _ _ _ _ _ H4) in E4.
    destruct E4 as [->|(paths & E)]; [reflexivity|].
    now rewrite (stringFromPaths_inl _ _ _ _ E). }
  destruct (withPaths (pathToDomain options) _ _ _) as [e1|[? ?]] eqn:E5.
  { intros H. injection H as <-. apply (withPaths_some_reason _ _ _ _ _ _ H5) in E5.
    destruct E5 as [->|(paths & E)]; [reflexivity|].
    now rewrite (stringFromPaths_inl _ _ _ _ E). }
  discriminate.
Qed.

Lemma transformResultFailure_reason values e :
  transformResultFailure values = Some e -> unreported e = false.
Proof.
  unfold transformResultFailure.
  repeat match goal with
         | |- context [if ?b then _ else _] =>
             destruct b; [intros H; injection H as <-; reflexivity|]
         end.
  discriminate.
Qed.

Lemma buildSummary_reason m p d options e :
  pathsConfigured options = true ->
  buildSummaryFromObject m p d (Some options) = Ret (inl e) -> unreported e = false.
Proof.
  intros Hp H. unfold buildSummaryFromObject in H.
  apply try_catch_inv in H. destruct H as [H|[_ H]]; [|injection H as ->; reflexivity].
  unfold buildSummaryFromObject_try in H. cbn [orDefault] in H.
  destruct (is_nullish m); [injection H as <-; reflexivity|].
  apply bind_ret_inv in H. destruct H as (obj & _ & H).
  destruct (negb _); [injection H as <-; reflexivity|].
  destruct (__processAllValuesFromPaths obj options) as [e1|v] eqn:Ev.
  { injection H as <-. exact (process_reason _ _ _ Hp Ev). }
  destruct (transform options) as [[x|f]|].
  - injection H as <-. reflexivity.
  - apply bind_ret_inv in H. destruct H as (values & _ & H).
    destruct (transformResultFailure values) eqn:Et; [|discriminate].
    injection H as <-. exact (transformResultFailure_reason _ _ Et).
  - cbn [bind] in H.
    destruct (transformResultFailure _) eqn:Et; [|discriminate].
    injection H as <-. exact (transformResultFailure_reason _ _ Et).
Qed.

Lemma forEachPush_Forall A B (f : A -> Exn B) (P : B -> Prop) :
  (forall x y, f x = Ret y -> P y) ->
  forall xs ys, forEachPush f xs = Ret ys -> Forall P ys.
Proof.
  intros Hf. induction xs as [|x xs IH]; cbn [forEachPush]; intros ys H.
  - injection H as <-. constructor.
  - apply bind_ret_inv in H. destruct H as (y & Hy & H).
    apply bind_ret_inv in H. destruct H as (ys' & Hys & H).
    injection H as <-. constructor; eauto.
Qed.

Lemma findErrorsArray_reason input paths e :
  findErrorsArray input paths = inl e -> e = pathToErrorsValuesAreNotStrings.
Proof.
  induction paths as [|x paths IH]; cbn [findErrorsArray]; [discriminate|].
  destruct x; try (intros H; injection H as <-; reflexivity).
  destruct (truthy _ && _); [|exact IH].
  destruct (findNestedValueForPath input s); try exact IH. discriminate.
Qed.

Lemma buildSummaries_reasons input options summaries :
  is_nullish input = false -> typeof input = TObject ->
  pathsConfigured options = true ->
  buildSummariesFromObject input (Some options) = Ret summaries ->
  Forall reported summaries.
Proof.
  intros Hn Ht Hp. unfold buildSummariesFromObject, buildSummariesFromObject_try.
  cbn [orDefault]. rewrite Hn, Ht. cbn [JsType_eqb negb].
  set (detected := match pathToErrors options with
                   | None => inr ([], None, false)
                   | Some (JArray paths) => findErrorsArray input paths
                   | Some _ => inl pathToErrorsIsNotAnArray
                   end).
  assert (Hd : forall e, detected = inl e -> unreported e = false).
  { subst detected. intros e. destruct (pathToErrors options) as [x|]; [|discriminate].
    destruct x; try (intros H; injection H as <-; reflexivity).
    intros H. now rewrite (findErrorsArray_reason _ _ _ H). }
  destruct detected as [e|[[errors0 errorsPath] d]].
  - cbn. intros H. injection H as <-. constructor; [|constructor]. exact (Hd e eq_refl).
  - match goal with
    | |- context [forEachPush ?f ?xs] =>
        destruct (forEachPush_total _ _ f (fun x => buildSummaryFromObject_returns x _ _ _) xs)
          as (ys & Hys & _); rewrite Hys; cbn [try_catch]
    end.
    intros H. injection H as <-.
    refine (forEachPush_Forall _ _ _ reported _ _ _ Hys).
    intros x [e|s] Hx; [|exact I]. exact (buildSummary_reason _ _ _ _ _ Hp Hx).
Qed.

Lemma notes_reported summaries :
  Forall reported summaries ->
  Forall (fun note => unreported (errorCode note) = false) (flat_map notesOf summaries).
Proof.
  induction 1 as [|entry rest H _ IH]; cbn [flat_map]; [constructor|].
  apply Forall_app. split; [|exact IH].
  destruct entry as [e|s]; cbn [notesOf].
  - constructor; [exact H|constructor].
  - destruct (validSummary s); [constructor|]. constructor; [reflexivity|constructor].
Qed.

Lemma merged_pathsConfigured w : pathsConfigured (mergedOptions w) = true.
Proof.
  unfold pathsConfigured, mergedOptions, mergeOptions. cbn.
  destruct w as [o|]; cbn; [|reflexivity].
  destruct (pathToCode o), (pathToNumberCode o), (pathToMessage o), (pathToDetails o),
    (pathToDomain o); reflexivity.
Qed.

Lemma records_carry_notes notes summaries :
  Forall (fun r => ErrorObject.processingErrors r = Some notes)
         (flat_map (recordsOf notes) summaries).
Proof.
  induction summaries as [|entry rest IH]; cbn [flat_map]; [constructor|].
  apply Forall_app. split; [|exact IH].
  destruct entry as [e|s]; cbn [recordsOf]; [constructor|].
  destruct (validSummary s); constructor; [reflexivity|constructor].
Qed.

(** X15: for every payload of plain data, the entry point always returns,
    its forced record always carries a list of notes, and no note of it
    carries one of the reasons
    [isNullish], [isNotAnObject], [isNotAnArray], the five
    [pathTo...IsInvalid], [generalBuildSummariesFromObjectError],
    [generalCheckInputObjectForValuesError] and [invalidSummary]: the
    validator has rejected the payloads the first two stand for, the merged
    options always hold the five path lists, and the others are returned
    nowhere or stand for an exception that cannot occur. *)
Theorem X15_reasons_never_reported :
  forall fallback payload withOptions,
    exists r notes,
      from fallback payload withOptions = Ret r /\
      ErrorObject.processingErrors (force r) = Some notes /\
      Forall (fun note => unreported (errorCode note) = false) notes.
Proof.
  intros fb payload w.
  destruct (checkInput_returns payload (Some (mergedOptions w))) as [[reason|] Hc].
  - eexists. eexists. split; [apply (from_checks_failed _ _ _ _ Hc)|].
    cbn. split; [reflexivity|].
    constructor; [exact (checkInput_reason _ _ _ Hc)|constructor].
  - destruct (checkInput_passed_object _ _ Hc) as [Hn Ht].
    destruct (buildSummaries_returns payload (Some (mergedOptions w))) as [summaries Hs].
    pose proof (buildSummaries_reasons _ _ _ Hn Ht (merged_pathsConfigured w) Hs) as Hr.
    pose proof (notes_reported _ Hr) as Hnotes.
    pose proof (buildSummaries_nonempty _ _ _ Hs) as Hne.
    pose proof (one_record_or_note (flat_map notesOf summaries) summaries) as Hcount.
    pose proof (records_carry_notes (flat_map notesOf summaries) summaries) as Hcarry.
    exists (processErrorObjectResult summaries payload (ErrorObject.setRaw fb payload)).
    exists (flat_map notesOf summaries).
    split; [apply (from_checks_passed _ _ _ _ Hc Hs)|]. split; [|exact Hnotes].
    unfold processErrorObjectResult. rewrite validErrorsOf_spec.
    destruct (flat_map (recordsOf (flat_map notesOf summaries)) summaries)
      as [|first next] eqn:Hrec.
    + destruct (flat_map notesOf summaries) as [|n ns] eqn:En.
      * cbn in Hcount. destruct summaries; [contradiction|discriminate].
      * reflexivity.
    + cbn [force ErrorObject.setRaw ErrorObject.setNextErrors ErrorObject.processingErrors].
      now inversion Hcarry.
Qed.

(* ===================================================================== *)
(** * The class *)
(* ===================================================================== *)

Lemma hasCodeAndMessage_object props :
  is_nullish props = false -> typeof props = TObject ->
  exists b, ErrorObjectFromPayload.hasCodeAndMessage props = Ret b.
Proof.
  intros Hn Ht. unfold ErrorObjectFromPayload.hasCodeAndMessage.
  destruct props; try discriminate; cbn [has_property bind];
    match goal with
    | |- context [if ?b then _ else _] => destruct b; eauto
    end.
Qed.

Lemma hasCodeAndMessage_throws props :
  (is_nullish props = true \/ typeof props <> TObject) ->
  ErrorObjectFromPayload.hasCodeAndMessage props = Throw.
Proof.
  intros [H|H]; destruct props; try discriminate; try reflexivity; now elim H.
Qed.

(** X16: the constructor of the class lets an exception escape exactly
    when [props] is [undefined], [null] or not of object type: its first
    test, ['code' in props], stands outside every [try]. *)
Theorem X16_constructor_throws_on_non_objects :
  forall props withOptions,
    ErrorObjectFromPayload.constructor props withOptions = Throw
    <-> (is_nullish props = true \/ typeof props <> TObject).
Proof.
  intros props w. split.
  - intros H.
    destruct (is_nullish props) eqn:Hn; [auto|]. right. intros Ht.
    destruct (hasCodeAndMessage_object props Hn Ht) as [b Hb].
    revert H. unfold ErrorObjectFromPayload.constructor. rewrite Hb. cbn [bind].
    destruct b; [discriminate|].
    destruct (ErrorObjectFromPayload.checkInputForInitialObject _ _) as [[e|]|];
      try discriminate.
    match goal with
    | |- try_catch ?body (Ret ?h) = Throw -> _ =>
        destruct (try_catch_ret _ body h) as [a Ha]; rewrite Ha; discriminate
    end.
  - intros H. unfold ErrorObjectFromPayload.constructor.
    now rewrite (hasCodeAndMessage_throws props H).
Qed.

(** X17: where the validator throws, the class and the entry point part
    ways.  The class builds the record with code [INT-1]; the entry point
    swallows the exception and goes on to summarise the payload. *)
Theorem X17_constructor_reports_what_from_swallows :
  forall fallback props withOptions,
    ErrorObjectFromPayload.hasCodeAndMessage props = Ret false ->
    checkInputForInitialObject_try props (Some (mergedOptions withOptions)) = Throw ->
    ErrorObjectFromPayload.constructor props withOptions
      = Ret (ErrorObjectFromPayload.mk (ErrorObjectFromPayload.SuperInternal "INT-1") None) /\
    exists summaries,
      buildSummariesFromObject props (Some (mergedOptions withOptions)) = Ret summaries /\
      from fallback props withOptions
        = Ret (processErrorObjectResult summaries props (ErrorObject.setRaw fallback props)).
Proof.
  intros fb props w Hd Hc. split.
  - unfold ErrorObjectFromPayload.constructor,
      ErrorObjectFromPayload.checkInputForInitialObject.
    now rewrite Hd, Hc.
  - destruct (buildSummaries_returns props (Some (mergedOptions w))) as [summaries Hs].
    exists summaries. split; [exact Hs|].
    apply from_checks_passed; [|exact Hs].
    unfold checkInputForInitialObject. now rewrite Hc.
Qed.

(** [{}] with [checkInputObjectForValues: null]. *)
Lemma X17_witness :
  ErrorObjectFromPayload.constructor (JObject []) (Some nullValueRules)
  = Ret (ErrorObjectFromPayload.mk (ErrorObjectFromPayload.SuperInternal "INT-1") None) /\
  exists summaries,
    buildSummariesFromObject (JObject []) (Some (mergedOptions (Some nullValueRules)))
    = Ret summaries /\
    from exampleFallback (JObject []) (Some nullValueRules)
    = Ret (processErrorObjectResult summaries (JObject [])
             (ErrorObject.setRaw exampleFallback (JObject []))).
Proof.
  apply (X17_constructor_reports_what_from_swallows exampleFallback (JObject [])
           (Some nullValueRules)); reflexivity.
Defined.





